(** * py-moneyed: Money values and the currency registry

    A shallow embedding of [moneyed/classes.py]: the [Currency] and [Money]
    classes, the exceptions they raise and the registry functions
    [add_currency], [get_currency] and [get_currencies_of_country],
    followed by the properties of the arithmetic and comparison contract
    and of the registry.  Formatting and the names of currencies and
    countries belong to Babel and are left out; its table of territories
    is an argument of the functions that read it.

    Amounts are instances of Python's [decimal.Decimal].  The part of that
    library the module relies on is modelled first, under the default
    context (28 significant digits, ROUND_HALF_EVEN, exponents between
    -999999 and 999999, traps on InvalidOperation, DivisionByZero and
    Overflow).  Under that context every operation on finite decimals
    returns a finite decimal or raises; NaN and the infinities can only be
    built explicitly and are not modelled. *)

From Stdlib Require Import ZArith NArith Lia Bool List Ascii String.
From Stdlib Require Import Sorted Permutation.
From stdpp Require Import base gmap strings.

Local Open Scope Z_scope.

(** ** Data *)

(** [decimal.Decimal], finite values: (-1)^sign * int * 10^exp, the triple
    that [as_tuple()] shows.  The coefficient has no leading zeros, so it is
    a natural number. *)
Record Decimal := mkDecimal { d_sign : bool; d_int : N; d_exp : Z }.

(** [class Currency]: the attributes [__init__] stores.  [name] and
    [countries] are present only when they were passed; otherwise they are
    computed from Babel's locale data on first access, which is outside this
    module. *)
Record Currency := mkCurrency {
  code : string;
  numeric : option string;
  name : option string;
  countries : option (list string)
}.

(** [class Money]: after [__init__] the amount is a Decimal and the currency
    a Currency. *)
Record Money := mkMoney { amount : Decimal; currency : Currency }.

(** The Python values that appear as operands. *)
Inductive value :=
| VNone
| VBool (b : bool)
| VInt (z : Z)
| VDecimal (d : Decimal)
| VMoney (m : Money).

(** Exceptions.  [TypeError] carries its message; [MoneyComparisonError]
    (a subclass of TypeError) stores the operand in [self.other];
    [CurrencyDoesNotExist] only keeps the formatted message.  The last three
    are the signals of the decimal module that the default context traps. *)
Inductive exn :=
| TypeError (msg : string)
| MoneyComparisonError (other : value)
| CurrencyDoesNotExist (msg : string)
| InvalidOperation
| DivisionByZero
| Overflow.

Inductive result (A : Type) :=
| Ok (a : A)
| Raise (e : exn).
Arguments Ok {A} a.
Arguments Raise {A} e.

#[global] Instance result_ret : MRet result := fun A a => Ok a.
#[global] Instance result_bind : MBind result := fun A B k r =>
  match r with
  | Ok a => k a
  | Raise e => Raise e
  end.

(** ** The decimal module under the default context *)

Definition prec : Z := 28.
Definition Emax : Z := 999999.
Definition Emin : Z := -999999.
Definition Etiny : Z := Emin - prec + 1.
Definition Etop : Z := Emax - prec + 1.

Fixpoint digits_fuel (fuel : nat) (c : N) : N :=
  match fuel with
  | O => 1
  | S f => if (c <? 10)%N then 1%N else (1 + digits_fuel f (c / 10))%N
  end.

(** [len(self._int)]: the number of decimal digits of the coefficient; the
    coefficient of zero is the one digit '0'. *)
Definition len_int (c : N) : Z := Z.of_N (digits_fuel (N.to_nat (N.size c)) c).

Definition is_zero (d : Decimal) : bool := (d_int d =? 0)%N.

(** [Decimal.__bool__] *)
Definition Decimal_bool (d : Decimal) : bool := negb (is_zero d).

(** [Decimal.adjusted()] *)
Definition adjusted (d : Decimal) : Z := d_exp d + len_int (d_int d) - 1.

(** [_round_half_even(self, prec)] on a coefficient [c] of which the [n]
    rightmost digits are dropped ([prec = len - n] digits are kept, and
    [1 <= n]): 1 when the kept part is to be incremented, 0 when the dropped
    digits are all zeros, -1 when non-zero digits are dropped. *)
Definition _round_half_even (c n : N) : Z :=
  let q := (c / 10 ^ n)%N in
  let r := (c mod 10 ^ n)%N in
  let half := (5 * 10 ^ (n - 1))%N in
  if (r =? half)%N && N.even q then -1
  else if (half <=? r)%N then 1
  else if (r =? 0)%N then 0
  else -1.

(** [Decimal._fix(context)]: round to the precision and check the exponent. *)
Definition _fix (d : Decimal) : result Decimal :=
  if is_zero d then
    Ok (mkDecimal (d_sign d) 0 (Z.min (Z.max (d_exp d) Etiny) Emax))
  else
    let exp_min := len_int (d_int d) + d_exp d - prec in
    if Etop <? exp_min then Raise Overflow
    else
      let exp_min := if exp_min <? Etiny then Etiny else exp_min in
      if d_exp d <? exp_min then
        let digits := len_int (d_int d) + d_exp d - exp_min in
        let c := if digits <? 0 then 1%N else d_int d in
        let digits := if digits <? 0 then 0 else digits in
        let n := Z.to_N (len_int c - digits) in
        let changed := _round_half_even c n in
        let coeff := (c / 10 ^ n)%N in
        let coeff' := if 0 <? changed then (coeff + 1)%N else coeff in
        let carry := (0 <? changed) && (prec <? len_int coeff') in
        let coeff'' := if carry then (coeff' / 10)%N else coeff' in
        let exp_min := if carry then exp_min + 1 else exp_min in
        if Etop <? exp_min then Raise Overflow
        else Ok (mkDecimal (d_sign d) coeff'' exp_min)
      else Ok d.

(** [Decimal(n)] for an int [n]. *)
Definition Decimal_of_int (z : Z) : Decimal :=
  mkDecimal (z <? 0) (Z.abs_N z) 0.

(** The coefficient with its sign. *)
Definition sint (d : Decimal) : Z :=
  if d_sign d then - Z.of_N (d_int d) else Z.of_N (d_int d).

(** [Decimal.__neg__]: the negation of a zero is the positive zero; the
    result is rounded to the context. *)
Definition Decimal_neg (d : Decimal) : result Decimal :=
  if is_zero d then _fix (mkDecimal false (d_int d) (d_exp d))
  else _fix (mkDecimal (negb (d_sign d)) (d_int d) (d_exp d)).

(** [Decimal.__pos__] *)
Definition Decimal_pos (d : Decimal) : result Decimal :=
  if is_zero d then _fix (mkDecimal false (d_int d) (d_exp d))
  else _fix d.

(** [Decimal.__abs__] *)
Definition Decimal_abs (d : Decimal) : result Decimal :=
  if d_sign d then Decimal_neg d else Decimal_pos d.

(** The sum before rounding: both operands at the smaller exponent.  A zero
    sum is negative only when both operands are negative zeros. *)
Definition exact_sum (a b : Decimal) : Decimal :=
  let exp := Z.min (d_exp a) (d_exp b) in
  let s := sint a * 10 ^ (d_exp a - exp) + sint b * 10 ^ (d_exp b - exp) in
  let sign :=
    if s =? 0 then is_zero a && is_zero b && d_sign a && d_sign b
    else s <? 0 in
  mkDecimal sign (Z.abs_N s) exp.

(** [Decimal.__add__]: the exact sum, rounded once.  (The library first
    bounds the number of padding zeros when the exponents are far apart;
    the rounded result is the same.) *)
Definition Decimal_add (a b : Decimal) : result Decimal :=
  _fix (exact_sum a b).

(** The product before rounding. *)
Definition exact_product (a b : Decimal) : Decimal :=
  mkDecimal (xorb (d_sign a) (d_sign b)) (d_int a * d_int b) (d_exp a + d_exp b).

(** [Decimal.__mul__] *)
Definition Decimal_mul (a b : Decimal) : result Decimal :=
  _fix (exact_product a b).

(** The loop of [__truediv__] for an exact quotient:
    [while exp < ideal_exp and coeff % 10 == 0: coeff //= 10; exp += 1]. *)
Fixpoint strip_zeros (fuel : nat) (coeff : N) (exp ideal_exp : Z) : N * Z :=
  match fuel with
  | O => (coeff, exp)
  | S f =>
      if (exp <? ideal_exp) && (coeff mod 10 =? 0)%N
      then strip_zeros f (coeff / 10)%N (exp + 1) ideal_exp
      else (coeff, exp)
  end.

(** [Decimal.__truediv__] *)
Definition Decimal_truediv (a b : Decimal) : result Decimal :=
  let sign := xorb (d_sign a) (d_sign b) in
  if is_zero b then
    if is_zero a then Raise InvalidOperation else Raise DivisionByZero
  else if is_zero a then
    _fix (mkDecimal sign 0 (d_exp a - d_exp b))
  else
    let shift := len_int (d_int b) - len_int (d_int a) + prec + 1 in
    let exp := d_exp a - d_exp b - shift in
    let num := if 0 <=? shift then (d_int a * 10 ^ Z.to_N shift)%N else d_int a in
    let den := if 0 <=? shift then d_int b else (d_int b * 10 ^ Z.to_N (- shift))%N in
    let coeff := (num / den)%N in
    let remainder := (num mod den)%N in
    if negb (remainder =? 0)%N then
      let coeff := if (coeff mod 5 =? 0)%N then (coeff + 1)%N else coeff in
      _fix (mkDecimal sign coeff exp)
    else
      let ideal_exp := d_exp a - d_exp b in
      let '(coeff, exp) := strip_zeros (Z.to_nat (ideal_exp - exp)) coeff exp ideal_exp in
      _fix (mkDecimal sign coeff exp).

(** [Decimal._rescale(exp, rounding)] with ROUND_HALF_EVEN. *)
Definition _rescale (d : Decimal) (exp : Z) : Decimal :=
  if is_zero d then mkDecimal (d_sign d) 0 exp
  else if exp <=? d_exp d then
    mkDecimal (d_sign d) (d_int d * 10 ^ Z.to_N (d_exp d - exp))%N exp
  else
    let digits := len_int (d_int d) + d_exp d - exp in
    let c := if digits <? 0 then 1%N else d_int d in
    let digits := if digits <? 0 then 0 else digits in
    let n := Z.to_N (len_int c - digits) in
    let changed := _round_half_even c n in
    let coeff := (c / 10 ^ n)%N in
    mkDecimal (d_sign d) (if changed =? 1 then (coeff + 1)%N else coeff) exp.

(** [Decimal.quantize(exp)]: only the exponent of [exp] is used. *)
Definition Decimal_quantize (d e : Decimal) : result Decimal :=
  if negb ((Etiny <=? d_exp e) && (d_exp e <=? Emax)) then Raise InvalidOperation
  else if is_zero d then _fix (mkDecimal (d_sign d) 0 (d_exp e))
  else if Emax <? adjusted d then Raise InvalidOperation
  else if prec <? adjusted d - d_exp e + 1 then Raise InvalidOperation
  else
    let ans := _rescale d (d_exp e) in
    if Emax <? adjusted ans then Raise InvalidOperation
    else if prec <? len_int (d_int ans) then Raise InvalidOperation
    else _fix ans.

(** [Decimal._cmp]: the sign of [a - b], both values taken at the smaller
    exponent (the two zeros compare equal). *)
Definition _cmp (a b : Decimal) : comparison :=
  let exp := Z.min (d_exp a) (d_exp b) in
  (sint a * 10 ^ (d_exp a - exp)) ?= (sint b * 10 ^ (d_exp b - exp)).

Definition Decimal_eq (a b : Decimal) : bool :=
  match _cmp a b with Eq => true | _ => false end.
Definition Decimal_lt (a b : Decimal) : bool :=
  match _cmp a b with Lt => true | _ => false end.
Definition Decimal_gt (a b : Decimal) : bool :=
  match _cmp a b with Gt => true | _ => false end.
Definition Decimal_le (a b : Decimal) : bool :=
  match _cmp a b with Gt => false | _ => true end.
Definition Decimal_ge (a b : Decimal) : bool :=
  match _cmp a b with Lt => false | _ => true end.

(** [pow(b, e, m)] by repeated squaring, for [0 <= e]. *)
Fixpoint pow_mod_pos (b : Z) (e : positive) (m : Z) : Z :=
  match e with
  | xH => b mod m
  | xO e' => let h := pow_mod_pos b e' m in (h * h) mod m
  | xI e' => let h := pow_mod_pos b e' m in ((h * h) mod m * b) mod m
  end.

Definition pow_mod (b e m : Z) : Z :=
  match e with
  | Zpos p => pow_mod_pos b p m
  | _ => 1 mod m
  end.

(** [sys.hash_info.modulus] on a 64-bit build, and the inverse of 10. *)
Definition _PyHASH_MODULUS : Z := 2 ^ 61 - 1.
Definition _PyHASH_10INV : Z := pow_mod 10 (_PyHASH_MODULUS - 2) _PyHASH_MODULUS.

(** The factor [exp_hash] that [Decimal.__hash__] computes from the
    exponent. *)
Definition exp_hash (e : Z) : Z :=
  if 0 <=? e then pow_mod 10 e _PyHASH_MODULUS
  else pow_mod _PyHASH_10INV (- e) _PyHASH_MODULUS.

(** [Decimal.__hash__] *)
Definition Decimal_hash (d : Decimal) : Z :=
  let hash_ := (Z.of_N (d_int d) * exp_hash (d_exp d)) mod _PyHASH_MODULUS in
  let ans := if Decimal_ge d (Decimal_of_int 0) then hash_ else - hash_ in
  if ans =? -1 then -2 else ans.

(** The built-in hashes of strings and of tuples (as a function of the
    hashes of the items) vary with the interpreter and the process. *)
Class BuiltinHash := {
  hash_str : string -> Z;
  hash_tuple : list Z -> Z
}.

(** ** Conversions of operands *)

(** [Decimal(str(v))].  [str] of an int is its decimal numeral and [str] of
    a Decimal its scientific string, which the constructor reads back as
    the same triple; 'None', 'True' and 'False' are no numerals, and
    neither is the text of a Money, which [format_money] renders with the
    symbol or the code of its currency. *)
Definition Decimal_of_str (v : value) : result Decimal :=
  match v with
  | VInt z => Ok (Decimal_of_int z)
  | VDecimal d => Ok d
  | VNone | VBool _ | VMoney _ => Raise InvalidOperation
  end.

(** [def force_decimal(amount)] *)
Definition force_decimal (amount : value) : result Decimal :=
  match amount with
  | VDecimal d => Ok d
  | _ => Decimal_of_str amount
  end.

Definition upper_ascii (a : ascii) : ascii :=
  let n := nat_of_ascii a in
  if (97 <=? n)%nat && (n <=? 122)%nat then ascii_of_nat (n - 32) else a.

(** [str.upper()] on ASCII text. *)
Fixpoint upper (s : string) : string :=
  match s with
  | EmptyString => EmptyString
  | String a s' => String (upper_ascii a) (upper s')
  end.

(** ** [class Currency] *)

(** Babel's [get_global('territory_currencies')]: for each territory the
    tuples [(currency_code, start, end, is_tender)] of the currencies it has
    used, the dates being [(year, month, day)] or None.  The table belongs
    to Babel; what reads it takes it as an argument. *)
Definition date : Type := Z * Z * Z.

Definition territory_currencies_data : Type :=
  list (string * list (string * option date * option date * bool)).

Module Currency.

(** [type(self) is type(other) and self.code == other.code], between two
    instances of Currency. *)
Definition __eq__ (self other : Currency) : bool :=
  String.eqb (code self) (code other).

Definition __ne__ (self other : Currency) : bool :=
  negb (__eq__ self other).

Definition __hash__ `{BuiltinHash} (self : Currency) : Z :=
  hash_str (code self).

Definition __repr__ (self : Currency) : string := code self.

(** [self.code < other.code]: strings compare by code points. *)
Definition __lt__ (self other : Currency) : bool :=
  String.ltb (code self) (code other).

Definition __le__ (self other : Currency) : bool :=
  String.leb (code self) (code other).

(** The property [country_codes]: the territories of Babel's table that
    list the code of the currency with no end date, in the order of the
    table. *)
Definition country_codes (territory_currencies : territory_currencies_data)
    (self : Currency) : list string :=
  flat_map
    (fun '(territory, currencies) =>
       flat_map
         (fun '(currency_code, start, end_, is_tender) =>
            match end_ with
            | None => if String.eqb currency_code (code self)
                      then [upper territory] else []
            | Some _ => []
            end)
         currencies)
    territory_currencies.

End Currency.

(** ** The registry *)

(** The two module-level dictionaries.  [None] is a key of the second one:
    the last currencies of the table are registered with [numeric=None]. *)
Record registry := mkRegistry {
  CURRENCIES : gmap string Currency;
  CURRENCIES_BY_ISO : gmap (option string) Currency
}.

(** [def add_currency(code, numeric, name=None, countries=None)]: the new
    Currency is stored under [code], the same object under [numeric], and
    returned. *)
Definition add_currency (code : string) (numeric : option string)
    (name : option string) (countries : option (list string))
    (r : registry) : registry * Currency :=
  let c := mkCurrency code numeric name countries in
  (mkRegistry (<[code := c]> (CURRENCIES r))
              (<[numeric := c]> (CURRENCIES_BY_ISO r)), c).

(** [str(x)] for [x] a str or None. *)
Definition str_of (x : option string) : string :=
  match x with
  | Some s => s
  | None => "None"
  end.

(** The truth value of a str or None. *)
Definition truthy (x : option string) : bool :=
  match x with
  | Some s => negb (String.eqb s "")
  | None => false
  end.

(** [class CurrencyDoesNotExist]: [__init__(self, code)] formats [code]
    into the message and keeps nothing else. *)
Definition CurrencyDoesNotExist_new (code : option string) : exn :=
  CurrencyDoesNotExist ("No currency with code " +:+ str_of code +:+ " is defined.").

(** [def get_currency(code=None, iso=None)]; a missing key is Python's
    KeyError, caught by the [except] clause. *)
Definition get_currency (r : registry) (code iso : option string) : result Currency :=
  let found :=
    if truthy iso then CURRENCIES_BY_ISO r !! Some (str_of iso)
    else match code with
         | Some c => CURRENCIES r !! c
         | None => None
         end in
  match found with
  | Some c => Ok c
  | None => Raise (CurrencyDoesNotExist_new code)
  end.

(** The calls of [add_currency] at module level, in the order of the
    file. *)
Definition entry (code numeric : string)
  : string * option string * option string * option (list string) :=
  (code, Some numeric, None, None).

Definition entry_None (code : string)
  : string * option string * option string * option (list string) :=
  (code, None, None, None).

Definition DEFAULT_CURRENCY_CODE : string := "XYZ".

Definition module_calls
  : list (string * option string * option string * option (list string)) := [
  (DEFAULT_CURRENCY_CODE, Some "999", Some "Default currency.", Some []); entry "AED" "784";
  entry "AFN" "971"; entry "ALL" "008"; entry "AMD" "051"; entry "ANG" "532";
  entry "AOA" "973"; entry "ARS" "032"; entry "AUD" "036"; entry "AWG" "533";
  entry "AZN" "944"; entry "BAM" "977"; entry "BBD" "052"; entry "BDT" "050";
  entry "BGN" "975"; entry "BHD" "048"; entry "BIF" "108"; entry "BMD" "060";
  entry "BND" "096"; entry "BOB" "068"; entry "BOV" "984"; entry "BRL" "986";
  entry "BSD" "044"; entry "BTN" "064"; entry "BWP" "072"; entry "BYN" "933";
  entry "BZD" "084"; entry "CAD" "124"; entry "CDF" "976"; entry "CHE" "947";
  entry "CHF" "756"; entry "CHW" "948"; entry "CLF" "990"; entry "CLP" "152";
  entry "CNY" "156"; entry "COP" "170"; entry "COU" "970"; entry "CRC" "188";
  entry "CUC" "931"; entry "CUP" "192"; entry "CVE" "132"; entry "CZK" "203";
  entry "DJF" "262"; entry "DKK" "208"; entry "DOP" "214"; entry "DZD" "012";
  entry "EGP" "818"; entry "ERN" "232"; entry "ETB" "230"; entry "EUR" "978";
  entry "FJD" "242"; entry "FKP" "238"; entry "GBP" "826"; entry "GEL" "981";
  entry "GHS" "936"; entry "GIP" "292"; entry "GMD" "270"; entry "GNF" "324";
  entry "GTQ" "320"; entry "GYD" "328"; entry "HKD" "344"; entry "HNL" "340";
  entry "HRK" "191"; entry "HTG" "332"; entry "HUF" "348"; entry "IDR" "360";
  entry "ILS" "376"; entry "IMP" "Nil"; entry "INR" "356"; entry "IQD" "368";
  entry "IRR" "364"; entry "ISK" "352"; entry "JMD" "388"; entry "JOD" "400";
  entry "JPY" "392"; entry "KES" "404"; entry "KGS" "417"; entry "KHR" "116";
  entry "KMF" "174"; entry "KPW" "408"; entry "KRW" "410"; entry "KWD" "414";
  entry "KYD" "136"; entry "KZT" "398"; entry "LAK" "418"; entry "LBP" "422";
  entry "LKR" "144"; entry "LRD" "430"; entry "LSL" "426"; entry "LYD" "434";
  entry "MAD" "504"; entry "MDL" "498"; entry "MGA" "969"; entry "MKD" "807";
  entry "MMK" "104"; entry "MNT" "496"; entry "MOP" "446"; entry "MUR" "480";
  entry "MVR" "462"; entry "MWK" "454"; entry "MXN" "484"; entry "MXV" "979";
  entry "MYR" "458"; entry "MZN" "943"; entry "NAD" "516"; entry "NGN" "566";
  entry "NIO" "558"; entry "NOK" "578"; entry "NPR" "524"; entry "NZD" "554";
  entry "OMR" "512"; entry "PAB" "590"; entry "PEN" "604"; entry "PGK" "598";
  entry "PHP" "608"; entry "PKR" "586"; entry "PLN" "985"; entry "PYG" "600";
  entry "QAR" "634"; entry "RON" "946"; entry "RSD" "941"; entry "RUB" "643";
  entry "RWF" "646"; entry "SAR" "682"; entry "SBD" "090"; entry "SCR" "690";
  entry "SDG" "938"; entry "SEK" "752"; entry "SGD" "702"; entry "SHP" "654";
  entry "SLL" "694"; entry "SOS" "706"; entry "SRD" "968"; entry "SSP" "728";
  entry "SVC" "222"; entry "SYP" "760"; entry "SZL" "748"; entry "THB" "764";
  entry "TJS" "972"; entry "TMT" "934"; entry "TND" "788"; entry "TOP" "776";
  entry "TRY" "949"; entry "TTD" "780"; entry "TVD" "Nil"; entry "TWD" "901";
  entry "TZS" "834"; entry "UAH" "980"; entry "UGX" "800"; entry "USD" "840";
  entry "USN" "997"; entry "UYI" "940"; entry "UYU" "858"; entry "UZS" "860";
  entry "VND" "704"; entry "VUV" "548"; entry "WST" "882"; entry "XAF" "950";
  entry "XAG" "961"; entry "XAU" "959"; entry "XBA" "955"; entry "XBB" "956";
  entry "XBC" "957"; entry "XBD" "958"; entry "XCD" "951"; entry "XDR" "960";
  entry "XFO" "Nil"; entry "XFU" "Nil"; entry "XOF" "952"; entry "XPD" "964";
  entry "XPF" "953"; entry "XPT" "962"; entry "XSU" "994"; entry "XTS" "963";
  entry "XUA" "965";
  ("XXX", Some "999", Some "The codes assigned for transactions where no currency is involved", Some ["ZZ07_No_Currency"]);
  entry "XXX" "999"; entry "YER" "886"; entry "ZAR" "710"; entry "ZMW" "967";
  entry "ZWN" "942"; entry "ADP" "020"; entry "AFA" "004"; entry "ALK" "008";
  entry "AON" "024"; entry "AOR" "982"; entry "ARA" "032"; entry "ARP" "032";
  entry "ATS" "040"; entry "AZM" "031"; entry "BAD" "070"; entry "BEF" "056";
  entry "BGL" "100"; entry "BRC" "076"; entry "BRE" "076"; entry "BRN" "076";
  entry "BRR" "987"; entry "BYR" "974"; entry "CLE" "152"; entry "CSD" "891";
  entry "CSK" "200"; entry "CYP" "196"; entry "DDM" "278"; entry "DEM" "276";
  entry "ECS" "218"; entry "ECV" "983"; entry "EEK" "233"; entry "ESA" "996";
  entry "ESB" "995"; entry "ESP" "020"; entry "FIM" "246"; entry "FRF" "250";
  entry "GHC" "288"; entry "GRD" "300"; entry "GWP" "624"; entry "HRD" "191";
  entry "IEP" "372"; entry "ITL" "380"; entry "LTL" "440"; entry "LUF" "442";
  entry "LVL" "428"; entry "MGF" "450"; entry "MLF" "466"; entry "MRO" "478";
  entry "MTL" "470"; entry "MZM" "508"; entry "NLG" "528"; entry "PEI" "604";
  entry "PLZ" "616"; entry "PTE" "620"; entry "ROL" "642"; entry "RUR" "810";
  entry "SDD" "736"; entry "SIT" "705"; entry "SKK" "703"; entry "SRG" "740";
  entry "STD" "678"; entry "TJR" "762"; entry "TMM" "795"; entry "TPE" "626";
  entry "TRL" "792"; entry "UAK" "804"; entry "USS" "998"; entry "VEB" "862";
  entry "VEF" "937"; entry "VNN" "704"; entry "XEU" "954"; entry "YDD" "710";
  entry "YUM" "891"; entry "YUN" "890"; entry "ZAL" "991"; entry "ZMK" "894";
  entry "ZRN" "180"; entry "ZRZ" "180"; entry "ZWD" "716"; entry "ZWL" "932";
  entry "ZWR" "935"; entry_None "AOK"; entry_None "ARL"; entry_None "ARM";
  entry_None "BAN"; entry_None "BEC"; entry_None "BEL"; entry_None "BGM";
  entry_None "BGO"; entry_None "BOL"; entry_None "BOP"; entry_None "BRB";
  entry_None "BRZ"; entry_None "BUK"; entry_None "BYB"; entry_None "CNH";
  entry_None "CNX"; entry_None "GEK"; entry_None "GNS"; entry_None "GQE";
  entry_None "GWE"; entry_None "ILP"; entry_None "ILR"; entry_None "ISJ";
  entry_None "KRH"; entry_None "KRO"; entry_None "LTT"; entry_None "LUC";
  entry_None "LUL"; entry_None "LVR"; entry_None "MAF"; entry_None "MCF";
  entry_None "MDC"; entry_None "MKN"; entry_None "MRU"; entry_None "MTP";
  entry_None "MVP"; entry_None "MXP"; entry_None "MZE"; entry_None "NIC";
  entry_None "PES"; entry_None "RHD"; entry_None "SDP"; entry_None "STN";
  entry_None "SUR"; entry_None "UGS"; entry_None "UYP"; entry_None "UYW";
  entry_None "VES"; entry_None "XRE"; entry_None "YUD"
].

Definition register_all
    (calls : list (string * option string * option string * option (list string)))
    (r : registry) : registry :=
  foldl (fun r '(code, numeric, name, countries) =>
           fst (add_currency code numeric name countries r)) r calls.

(** The registry once the module is imported. *)
Definition REGISTRY : registry := register_all module_calls (mkRegistry ∅ ∅).

Definition DEFAULT_CURRENCY : Currency :=
  mkCurrency DEFAULT_CURRENCY_CODE (Some "999") (Some "Default currency.") (Some []).
Definition USD : Currency := mkCurrency "USD" (Some "840") None None.
Definition EUR : Currency := mkCurrency "EUR" (Some "978") None None.

(** [sorted(l)] for a list of currencies: a stable sort that compares with
    [Currency.__lt__] only. *)
Fixpoint insert_sorted (x : Currency) (l : list Currency) : list Currency :=
  match l with
  | [] => [x]
  | y :: t => if Currency.__lt__ y x then y :: insert_sorted x t else x :: l
  end.

Definition sorted (l : list Currency) : list Currency :=
  foldr insert_sorted [] l.

(** [def get_currencies_of_country(country_code)].  The values of the
    dictionary are taken in the order of the map: their codes are distinct,
    so that the sorted list does not depend on it. *)
Definition get_currencies_of_country (r : registry)
    (territory_currencies : territory_currencies_data)
    (country_code : string) : list Currency :=
  let country_code := upper country_code in
  sorted
    (List.filter
       (fun currency =>
          existsb (String.eqb country_code)
                  (Currency.country_codes territory_currencies currency))
       (map snd (map_to_list (CURRENCIES r)))).

(** ** [class Money] *)

Definition isinstance_Money (v : value) : bool :=
  match v with
  | VMoney _ => true
  | _ => false
  end.

Module Money.

(** [self.__class__(amount=a, currency=c)] with a Decimal [a] and a
    Currency [c]: [__init__] stores both as they are. *)
Definition new (a : Decimal) (c : Currency) : Money := mkMoney a c.

(** [__init__(self, amount=Decimal('0.0'), currency=DEFAULT_CURRENCY_CODE)];
    [currency] is a Currency or a str, looked up in the registry. *)
Definition __init__ (r : registry) (amount : value) (currency : Currency + string)
  : result Money :=
  a ← force_decimal amount;
  c ← match currency with
      | inl c => Ok c
      | inr s => get_currency r (Some (upper s)) None
      end;
  Ok (mkMoney a c).

Definition __hash__ `{BuiltinHash} (self : Money) : Z :=
  hash_tuple [Decimal_hash (amount self); Currency.__hash__ (currency self)].

Definition __pos__ (self : Money) : Money :=
  new (amount self) (currency self).

Definition __neg__ (self : Money) : result Money :=
  a ← Decimal_neg (amount self);
  Ok (new a (currency self)).

Definition __eq__ (self : Money) (other : value) : bool :=
  match other with
  | VMoney o =>
      Decimal_eq (amount self) (amount o)
      && Currency.__eq__ (currency self) (currency o)
  | _ => false
  end.

Definition __ne__ (self : Money) (other : value) : bool :=
  let result := __eq__ self other in
  negb result.

(** [other == 0], the test that opens [__add__]: ints, bools and Decimals
    compare by value, None is equal to no number, and for a Money it is
    [Money.__eq__(other, 0)]. *)
Definition eq_0 (other : value) : bool :=
  match other with
  | VNone => false
  | VBool b => negb b
  | VInt z => z =? 0
  | VDecimal d => Decimal_eq d (Decimal_of_int 0)
  | VMoney o => __eq__ o (VInt 0)
  end.

Definition __add__ (self : Money) (other : value) : result Money :=
  if eq_0 other then Ok self
  else
    match other with
    | VMoney o =>
        if Currency.__eq__ (currency self) (currency o) then
          a ← Decimal_add (amount self) (amount o);
          Ok (new a (currency self))
        else
          Raise (TypeError ("Cannot add or subtract two Money " +:+
                            "instances with different currencies."))
    | _ =>
        Raise (TypeError ("Cannot add or subtract a " +:+
                          "Money and non-Money instance."))
    end.

(** [-other], for the operand of [__sub__]. *)
Definition neg_value (other : value) : result value :=
  match other with
  | VNone => Raise (TypeError "bad operand type for unary -: 'NoneType'")
  | VBool b => Ok (VInt (if b then -1 else 0))
  | VInt z => Ok (VInt (- z))
  | VDecimal d => d' ← Decimal_neg d; Ok (VDecimal d')
  | VMoney o => o' ← __neg__ o; Ok (VMoney o')
  end.

Definition __sub__ (self : Money) (other : value) : result Money :=
  o ← neg_value other;
  __add__ self o.

Definition __rsub__ (self : Money) (other : value) : result Money :=
  s ← __neg__ self;
  __add__ s other.

(** No operand of the model is a float, so the deprecation warning of the
    three methods below is never issued. *)
Definition __mul__ (self : Money) (other : value) : result Money :=
  if isinstance_Money other then
    Raise (TypeError "Cannot multiply two Money instances.")
  else
    d ← force_decimal other;
    a ← Decimal_mul (amount self) d;
    Ok (new a (currency self)).

Definition __truediv__ (self : Money) (other : value) : result value :=
  match other with
  | VMoney o =>
      if Currency.__ne__ (currency self) (currency o) then
        Raise (TypeError "Cannot divide two different currencies.")
      else
        q ← Decimal_truediv (amount self) (amount o);
        Ok (VDecimal q)
  | _ =>
      d ← force_decimal other;
      a ← Decimal_truediv (amount self) d;
      Ok (VMoney (new a (currency self)))
  end.

Definition __rtruediv__ (self : Money) (other : value) : result value :=
  Raise (TypeError "Cannot divide non-Money by a Money instance.").

(** [round(self, ndigits=0)]; [Decimal('1e' + str(-ndigits))] is the
    decimal 1E-ndigits. *)
Definition round (self : Money) (ndigits : option Z) : result Money :=
  let ndigits := match ndigits with None => 0 | Some n => n end in
  a ← Decimal_quantize (amount self) (mkDecimal false 1 (- ndigits));
  Ok (new a (currency self)).

Definition __abs__ (self : Money) : result Money :=
  a ← Decimal_abs (amount self);
  Ok (new a (currency self)).

Definition __bool__ (self : Money) : bool :=
  Decimal_bool (amount self).

Definition __rmod__ (self : Money) (other : value) : result Money :=
  if isinstance_Money other then
    Raise (TypeError "Invalid __rmod__ operation")
  else
    d ← Decimal_of_str other;
    p ← Decimal_mul d (amount self);
    a ← Decimal_truediv p (Decimal_of_int 100);
    Ok (new a (currency self)).

Definition __radd__ := __add__.
Definition __rmul__ := __mul__.

Definition __lt__ (self : Money) (other : value) : result bool :=
  match other with
  | VMoney o =>
      if Currency.__eq__ (currency self) (currency o) then
        Ok (Decimal_lt (amount self) (amount o))
      else
        Raise (TypeError "Cannot compare Money with different currencies.")
  | _ => Raise (MoneyComparisonError other)
  end.

Definition __gt__ (self : Money) (other : value) : result bool :=
  match other with
  | VMoney o =>
      if Currency.__eq__ (currency self) (currency o) then
        Ok (Decimal_gt (amount self) (amount o))
      else
        Raise (TypeError "Cannot compare Money with different currencies.")
  | _ => Raise (MoneyComparisonError other)
  end.

(** [self < other or self == other] *)
Definition __le__ (self : Money) (other : value) : result bool :=
  __lt__ self other ≫= λ b : bool,
  if b then Ok true else Ok (__eq__ self other).

(** [self > other or self == other] *)
Definition __ge__ (self : Money) (other : value) : result bool :=
  __gt__ self other ≫= λ b : bool,
  if b then Ok true else Ok (__eq__ self other).

End Money.

(** ** Expressions of the specification *)

(** A decimal that the context leaves as it is: at most [prec] digits and
    an exponent in range, so that no operation returning it has rounded. *)
Definition representable (d : Decimal) : Prop := _fix d = Ok d.

(** [v == m] for a Money [m] on the right: a Money [v] answers with its
    [__eq__]; the other operands do not know Money, and the reflected
    [m.__eq__(v)] is False. *)
Definition eq_Money (v : value) (m : Money) : bool :=
  match v with
  | VMoney q => Money.__eq__ q (VMoney m)
  | _ => Money.__eq__ m v
  end.

(** [m1 + m2 == m2 + m1] *)
Definition add_commutes (m1 m2 : Money) : result bool :=
  l ← Money.__add__ m1 (VMoney m2);
  r ← Money.__add__ m2 (VMoney m1);
  Ok (Money.__eq__ l (VMoney r)).

(** [(m1 + m2) - m2 == m1] *)
Definition add_sub_round_trip (m1 m2 : Money) : result bool :=
  s ← Money.__add__ m1 (VMoney m2);
  d ← Money.__sub__ s (VMoney m2);
  Ok (Money.__eq__ d (VMoney m1)).

(** [(m * d) / d == m] *)
Definition mul_div_round_trip (m : Money) (d : value) : result bool :=
  p ← Money.__mul__ m d;
  q ← Money.__truediv__ p d;
  Ok (eq_Money q m).

(** A hash provider to run examples with; any other one would do. *)
Definition example_hash : BuiltinHash :=
  {| hash_str := fun s => Z.of_nat (String.length s);
     hash_tuple := fun hs => fold_right (fun h acc => 31 * acc + h) 7 hs |}.

(** * Properties *)

(** ** Operand kinds *)

Lemma bind_Ok {A B : Type} (a : A) (k : A -> result B) : (Ok a ≫= k) = k a.
Proof. reflexivity. Qed.

Lemma Currency_eq_true (c1 c2 : Currency) :
  Currency.__eq__ c1 c2 = true <-> code c1 = code c2.
Proof. unfold Currency.__eq__. apply String.eqb_eq. Qed.

Lemma Currency_eq_false (c1 c2 : Currency) :
  Currency.__eq__ c1 c2 = false <-> code c1 <> code c2.
Proof. unfold Currency.__eq__. apply String.eqb_neq. Qed.

Lemma Currency_eq_refl (c : Currency) : Currency.__eq__ c c = true.
Proof. now apply Currency_eq_true. Qed.

(** [other == 0] holds for a Money never, and otherwise exactly for the int
    0, for False and for the Decimals whose coefficient is 0. *)
Lemma eq_0_true_iff (other : value) :
  Money.eq_0 other = true <->
  other = VInt 0 \/ other = VBool false \/
  exists d, other = VDecimal d /\ d_int d = 0%N.
Proof.
  destruct other as [ | b | z | d | m]; simpl.
  - split; [discriminate | intros [H | [H | (d & H & _)]]; discriminate].
  - destruct b; simpl; split; try discriminate; auto.
    intros [H | [H | (d & H & _)]]; discriminate.
  - rewrite Z.eqb_eq. split.
    + intros ->. now left.
    + intros [H | [H | (d & H & _)]]; try discriminate. now injection H.
  - unfold Decimal_eq, _cmp, sint, Decimal_of_int. simpl.
    rewrite Z.mul_0_l. split.
    + intros H. right. right. exists d. split; [reflexivity |].
      destruct (_ ?= 0) eqn:E; try discriminate.
      apply Z.compare_eq in E. apply Z.mul_eq_0 in E.
      destruct E as [E | E].
      * destruct (d_sign d); lia.
      * exfalso. revert E. apply Z.pow_nonzero; lia.
    + intros [H | [H | (d' & H & H0)]]; try discriminate.
      injection H as <-. rewrite H0. now destruct (d_sign d).
  - split; [discriminate | intros [H | [H | (d & H & _)]]; discriminate].
Qed.

Lemma eq_0_Money (m : Money) : Money.eq_0 (VMoney m) = false.
Proof. reflexivity. Qed.

(** ** Comparison of decimals *)

Lemma pow10_pos (k : Z) : 0 <= k -> 0 < 10 ^ k.
Proof. intros. apply Z.pow_pos_nonneg; lia. Qed.

(** The absolute value of [sint d] is the coefficient. *)
Lemma sint_cases (d : Decimal) :
  sint d = Z.of_N (d_int d) \/ sint d = - Z.of_N (d_int d).
Proof. unfold sint. destruct (d_sign d); auto. Qed.

(** Equal decimals have the same scaled coefficient and the same sign
    class. *)
Lemma Decimal_eq_scaled (a b : Decimal) :
  Decimal_eq a b = true ->
  sint a * 10 ^ (d_exp a - Z.min (d_exp a) (d_exp b))
  = sint b * 10 ^ (d_exp b - Z.min (d_exp a) (d_exp b)).
Proof.
  unfold Decimal_eq, _cmp. intros H.
  destruct (_ ?= _) eqn:E; try discriminate.
  now apply Z.compare_eq in E.
Qed.

Lemma Decimal_eq_refl (a : Decimal) : Decimal_eq a a = true.
Proof. unfold Decimal_eq, _cmp. now rewrite Z.compare_refl. Qed.

Lemma Decimal_le_lt_eq (a b : Decimal) :
  Decimal_le a b = Decimal_lt a b || Decimal_eq a b.
Proof. unfold Decimal_le, Decimal_lt, Decimal_eq. now destruct (_cmp a b). Qed.

Lemma Decimal_ge_gt_eq (a b : Decimal) :
  Decimal_ge a b = Decimal_gt a b || Decimal_eq a b.
Proof. unfold Decimal_ge, Decimal_gt, Decimal_eq. now destruct (_cmp a b). Qed.

(** ** Hashing of decimals *)

Lemma pow_mod_pos_spec (b : Z) (p : positive) (m : Z) :
  0 < m -> pow_mod_pos b p m = (b ^ Z.pos p) mod m.
Proof.
  intros Hm. induction p as [p IH | p IH | ]; simpl pow_mod_pos.
  - rewrite IH, Pos2Z.inj_xI.
    rewrite <- Z.mul_mod by lia.
    rewrite Z.mul_mod_idemp_l by lia.
    f_equal. rewrite Z.pow_add_r, Z.pow_1_r by lia.
    replace (2 * Z.pos p) with (Z.pos p + Z.pos p) by lia.
    now rewrite Z.pow_add_r by lia.
  - rewrite IH, Pos2Z.inj_xO.
    rewrite <- Z.mul_mod by lia.
    f_equal. rewrite <- Z.pow_add_r by lia. f_equal. lia.
  - now rewrite Z.pow_1_r.
Qed.

Lemma pow_mod_spec (b e m : Z) :
  0 <= e -> 0 < m -> pow_mod b e m = (b ^ e) mod m.
Proof.
  intros He Hm. destruct e as [ | p | p]; simpl pow_mod.
  - reflexivity.
  - now apply pow_mod_pos_spec.
  - lia.
Qed.

Lemma modulus_pos : 0 < _PyHASH_MODULUS.
Proof. reflexivity. Qed.

Lemma ten_inverse : (10 * _PyHASH_10INV) mod _PyHASH_MODULUS = 1.
Proof. vm_compute. reflexivity. Qed.

Lemma exp_hash_succ (e : Z) :
  (10 * exp_hash e) mod _PyHASH_MODULUS = exp_hash (e + 1).
Proof.
  pose proof modulus_pos as HP. unfold exp_hash.
  destruct (0 <=? e) eqn:E0.
  - apply Z.leb_le in E0.
    replace (0 <=? e + 1) with true by (symmetry; apply Z.leb_le; lia).
    rewrite !pow_mod_spec by lia.
    rewrite Z.mul_mod_idemp_r by lia.
    now rewrite Z.pow_add_r, Z.pow_1_r, Z.mul_comm by lia.
  - apply Z.leb_gt in E0.
    rewrite pow_mod_spec by lia.
    replace (- e) with (1 + (- e - 1)) by lia.
    rewrite Z.pow_add_r, Z.pow_1_r by lia.
    rewrite Z.mul_mod_idemp_r, Z.mul_assoc by lia.
    rewrite <- Z.mul_mod_idemp_l, ten_inverse, Z.mul_1_l by lia.
    destruct (0 <=? e + 1) eqn:E1.
    + apply Z.leb_le in E1. replace (e + 1) with 0 by lia.
      replace (- e - 1) with 0 by lia. reflexivity.
    + apply Z.leb_gt in E1. rewrite pow_mod_spec by lia.
      now replace (- (e + 1)) with (- e - 1) by lia.
Qed.

Lemma exp_hash_range (e : Z) : exp_hash e mod _PyHASH_MODULUS = exp_hash e.
Proof.
  pose proof modulus_pos as HP. unfold exp_hash.
  destruct (0 <=? e) eqn:E0.
  - apply Z.leb_le in E0. rewrite pow_mod_spec by lia. now rewrite Z.mod_mod by lia.
  - apply Z.leb_gt in E0. rewrite pow_mod_spec by lia. now rewrite Z.mod_mod by lia.
Qed.

Lemma exp_hash_shift (k e : Z) :
  0 <= k ->
  (10 ^ k * exp_hash e) mod _PyHASH_MODULUS = exp_hash (e + k).
Proof.
  pose proof modulus_pos as HP.
  intros Hk. revert e. pattern k. apply natlike_ind; [ | | exact Hk].
  - intros e. rewrite Z.pow_0_r, Z.mul_1_l, Z.add_0_r. apply exp_hash_range.
  - intros x Hx IH e. rewrite Z.pow_succ_r by lia.
    rewrite <- Z.mul_assoc, <- Z.mul_mod_idemp_r by lia.
    rewrite IH, exp_hash_succ. f_equal. lia.
Qed.

Lemma Decimal_ge_0 (d : Decimal) :
  Decimal_ge d (Decimal_of_int 0) = (0 <=? sint d).
Proof.
  unfold Decimal_ge, _cmp, Decimal_of_int. simpl. rewrite Z.mul_0_l.
  assert (K : 0 < 10 ^ (d_exp d - Z.min (d_exp d) 0)) by (apply pow10_pos; lia).
  destruct (Z.compare_spec (sint d * 10 ^ (d_exp d - Z.min (d_exp d) 0)) 0),
           (Z.leb_spec 0 (sint d)); try reflexivity; exfalso; nia.
Qed.

(** Numerically equal decimals have the same hash. *)
Lemma Decimal_hash_eq (a b : Decimal) :
  Decimal_eq a b = true -> Decimal_hash a = Decimal_hash b.
Proof.
  pose proof modulus_pos as HP.
  intros H. pose proof (Decimal_eq_scaled a b H) as Hs.
  set (m := Z.min (d_exp a) (d_exp b)) in Hs.
  assert (Ha : 0 <= d_exp a - m) by lia.
  assert (Hb : 0 <= d_exp b - m) by lia.
  pose proof (pow10_pos _ Ha) as Pa. pose proof (pow10_pos _ Hb) as Pb.
  assert (Hc : Z.of_N (d_int a) * 10 ^ (d_exp a - m)
               = Z.of_N (d_int b) * 10 ^ (d_exp b - m)).
  { destruct (sint_cases a) as [Ea | Ea], (sint_cases b) as [Eb | Eb];
      rewrite Ea, Eb in Hs; nia. }
  assert (Hh : (Z.of_N (d_int a) * exp_hash (d_exp a)) mod _PyHASH_MODULUS
               = (Z.of_N (d_int b) * exp_hash (d_exp b)) mod _PyHASH_MODULUS).
  { replace (d_exp a) with (m + (d_exp a - m)) at 1 by lia.
    replace (d_exp b) with (m + (d_exp b - m)) at 1 by lia.
    rewrite <- !exp_hash_shift by lia.
    rewrite !Z.mul_mod_idemp_r, !Z.mul_assoc by lia.
    now rewrite Hc. }
  assert (Hg : Decimal_ge a (Decimal_of_int 0) = Decimal_ge b (Decimal_of_int 0)).
  { rewrite !Decimal_ge_0.
    destruct (Z.leb_spec 0 (sint a)), (Z.leb_spec 0 (sint b));
      try reflexivity; exfalso; nia. }
  unfold Decimal_hash. now rewrite Hh, Hg.
Qed.

(** ** The number of digits of a coefficient *)

Lemma digits_fuel_pos (fuel : nat) (c : N) : (1 <= digits_fuel fuel c)%N.
Proof. destruct fuel; simpl; [lia |]. destruct (c <? 10)%N; lia. Qed.

Lemma digits_fuel_bounds (fuel : nat) (c : N) :
  (0 < c)%N -> (c < 2 ^ N.of_nat fuel)%N ->
  (10 ^ (digits_fuel fuel c - 1) <= c < 10 ^ digits_fuel fuel c)%N.
Proof.
  revert c. induction fuel as [ | f IH]; intros c Hc Hlt.
  - simpl in Hlt. lia.
  - simpl digits_fuel. destruct (N.ltb_spec c 10) as [H10 | H10].
    + change (10 ^ (1 - 1))%N with 1%N. change (10 ^ 1)%N with 10%N. lia.
    + assert (Hq : (0 < c / 10)%N).
      { apply N.div_str_pos. lia. }
      assert (Hf : (c / 10 < 2 ^ N.of_nat f)%N).
      { apply N.Div0.div_lt_upper_bound.
        rewrite Nat2N.inj_succ, N.pow_succ_r' in Hlt. lia. }
      destruct (IH _ Hq Hf) as [Hlo Hhi].
      pose proof (digits_fuel_pos f (c / 10)) as Hd.
      pose proof (N.div_mod' c 10) as Hdm.
      pose proof (N.mod_lt c 10) as Hm.
      replace (1 + digits_fuel f (c / 10) - 1)%N
        with (N.succ (digits_fuel f (c / 10) - 1)) by lia.
      replace (1 + digits_fuel f (c / 10))%N
        with (N.succ (digits_fuel f (c / 10))) by lia.
      rewrite !N.pow_succ_r'.
      set (A := (10 ^ (digits_fuel f (c / 10) - 1))%N) in *.
      set (B := (10 ^ digits_fuel f (c / 10))%N) in *.
      set (q := (c / 10)%N) in *. set (r := (c mod 10)%N) in *.
      clearbody A B q r. lia.
Qed.

Lemma len_int_pos (c : N) : 1 <= len_int c.
Proof. unfold len_int. pose proof (digits_fuel_pos (N.to_nat (N.size c)) c). lia. Qed.

Lemma len_int_0 : len_int 0 = 1.
Proof. reflexivity. Qed.

(** A coefficient with [len_int c] digits lies between the powers of ten. *)
Lemma len_int_bounds (c : N) :
  (0 < c)%N -> 10 ^ (len_int c - 1) <= Z.of_N c < 10 ^ len_int c.
Proof.
  intros Hc. unfold len_int.
  assert (Hlt : (c < 2 ^ N.of_nat (N.to_nat (N.size c)))%N).
  { rewrite N2Nat.id. apply N.size_gt. }
  pose proof (digits_fuel_bounds _ c Hc Hlt) as [Hlo Hhi].
  pose proof (digits_fuel_pos (N.to_nat (N.size c)) c) as Hd.
  set (d := digits_fuel (N.to_nat (N.size c)) c) in *.
  replace (Z.of_N d - 1) with (Z.of_N (d - 1)) by lia.
  rewrite <- !(N2Z.inj_pow 10). lia.
Qed.

Lemma len_int_unique (c : N) (k : Z) :
  10 ^ (k - 1) <= Z.of_N c < 10 ^ k -> (0 < c)%N -> len_int c = k.
Proof.
  intros [Hlo Hhi] Hc.
  pose proof (len_int_bounds c Hc) as [Llo Lhi].
  pose proof (len_int_pos c) as Lp.
  assert (Hk : 1 <= k).
  { destruct (Z.le_gt_cases 1 k) as [H | H]; [exact H |].
    destruct (Z.eq_dec k 0) as [-> | Hk0].
    - rewrite Z.pow_0_r in Hhi. lia.
    - rewrite Z.pow_neg_r in Hhi by lia. lia. }
  destruct (Z.lt_trichotomy (len_int c) k) as [H | [H | H]]; [ | exact H | ].
  - assert (10 ^ len_int c <= 10 ^ (k - 1)) by (apply Z.pow_le_mono_r; lia). lia.
  - assert (10 ^ k <= 10 ^ (len_int c - 1)) by (apply Z.pow_le_mono_r; lia). lia.
Qed.

(** Appending [k] zeros adds [k] digits. *)
Lemma len_int_mul_pow10 (c : N) (k : N) :
  (0 < c)%N -> len_int (c * 10 ^ k) = len_int c + Z.of_N k.
Proof.
  intros Hc. pose proof (len_int_bounds c Hc) as [Llo Lhi].
  pose proof (len_int_pos c) as Lp.
  assert (Hp : 0 < 10 ^ Z.of_N k) by (apply pow10_pos; lia).
  apply len_int_unique.
  - rewrite N2Z.inj_mul, N2Z.inj_pow. simpl Z.of_N.
    replace (len_int c + Z.of_N k - 1) with (len_int c - 1 + Z.of_N k) by lia.
    rewrite !Z.pow_add_r by lia. nia.
  - assert (0 < 10 ^ k)%N by (apply N.neq_0_lt_0, N.pow_nonzero; lia). nia.
Qed.

Lemma len_int_le (c : N) (j : Z) :
  1 <= j -> Z.of_N c < 10 ^ j -> len_int c <= j.
Proof.
  intros Hj Hc. destruct (N.eq_dec c 0%N) as [-> | Hnz].
  - rewrite len_int_0. exact Hj.
  - pose proof (len_int_bounds c ltac:(lia)) as [Hlo _].
    destruct (Z.le_gt_cases (len_int c) j) as [H | H]; [exact H |].
    assert (10 ^ j <= 10 ^ (len_int c - 1)) by (apply Z.pow_le_mono_r; lia). lia.
Qed.

Lemma len_int_upper (c : N) : Z.of_N c < 10 ^ len_int c.
Proof.
  destruct (N.eq_dec c 0%N) as [-> | Hc].
  - reflexivity.
  - apply len_int_bounds. lia.
Qed.

(** ** Rounding to the context *)

Lemma half_double (n : N) : (1 <= n)%N -> (2 * (5 * 10 ^ (n - 1)) = 10 ^ n)%N.
Proof.
  intros Hn. replace n with (N.succ (n - 1)) at 2 by lia.
  rewrite N.pow_succ_r'. lia.
Qed.

(** What [_round_half_even] answers, in terms of the quotient [q] and the
    remainder [r] of the coefficient by [10 ^ n]. *)
Lemma round_half_even_cases (c n : N) :
  (1 <= n)%N ->
  (_round_half_even c n = 1 /\
   ((10 ^ n < 2 * (c mod 10 ^ n))%N \/
    (2 * (c mod 10 ^ n) = 10 ^ n)%N /\ N.even (c / 10 ^ n) = false)) \/
  (_round_half_even c n = 0 /\ (c mod 10 ^ n = 0)%N) \/
  (_round_half_even c n = -1 /\ (0 < c mod 10 ^ n)%N /\
   ((2 * (c mod 10 ^ n) < 10 ^ n)%N \/
    (2 * (c mod 10 ^ n) = 10 ^ n)%N /\ N.even (c / 10 ^ n) = true)).
Proof.
  intros Hn. pose proof (half_double n Hn) as Hh.
  assert (HP : (0 < 10 ^ n)%N) by (apply N.neq_0_lt_0, N.pow_nonzero; lia).
  unfold _round_half_even.
  set (r := (c mod 10 ^ n)%N) in *. set (q := (c / 10 ^ n)%N) in *.
  set (half := (5 * 10 ^ (n - 1))%N) in *. set (P := (10 ^ n)%N) in *.
  clearbody r q half P.
  destruct (N.eqb_spec r half) as [E | E]; simpl.
  - destruct (N.even q) eqn:Ev.
    + right. right. split; [reflexivity |]. split; [lia |]. right. split; [lia | reflexivity].
    + destruct (N.leb_spec half r); [| lia]. left. split; [reflexivity |].
      right. split; [lia | reflexivity].
  - destruct (N.leb_spec half r).
    + left. split; [reflexivity |]. left. lia.
    + destruct (N.eqb_spec r 0).
      * right. left. auto.
      * right. right. split; [reflexivity |]. split; [lia |]. left. lia.
Qed.

(** [_fix] leaves a non-zero decimal alone when it has at most [prec]
    digits and its exponent and adjusted exponent are in range. *)
Lemma fix_nonzero_id (d : Decimal) :
  d_int d <> 0%N -> len_int (d_int d) <= prec ->
  Etiny <= d_exp d -> adjusted d <= Emax ->
  _fix d = Ok d.
Proof.
  intros Hnz Hlen Hlo Hhi. unfold _fix, is_zero, adjusted in *.
  destruct (N.eqb_spec (d_int d) 0) as [E | _]; [contradiction |].
  unfold Etop, Etiny, Emax, Emin, prec in *.
  destruct (Z.ltb_spec (999999 - 28 + 1) (len_int (d_int d) + d_exp d - 28));
    [lia |].
  destruct (Z.ltb_spec (len_int (d_int d) + d_exp d - 28) (-999999 - 28 + 1)).
  - destruct (Z.ltb_spec (d_exp d) (-999999 - 28 + 1)); [lia | reflexivity].
  - destruct (Z.ltb_spec (d_exp d) (len_int (d_int d) + d_exp d - 28));
      [lia | reflexivity].
Qed.

Lemma fix_zero (s : bool) (e : Z) :
  _fix (mkDecimal s 0 e) = Ok (mkDecimal s 0 (Z.min (Z.max e Etiny) Emax)).
Proof. reflexivity. Qed.

(** The only signal of [_fix] is Overflow. *)
Lemma fix_raises_Overflow (d : Decimal) (e : exn) :
  _fix d = Raise e -> e = Overflow.
Proof.
  unfold _fix. destruct (is_zero d); [discriminate |].
  destruct (Etop <? _); [now intros [= <-] |].
  destruct (d_exp d <? _); [| discriminate].
  destruct (Etop <? _); [now intros [= <-] | discriminate].
Qed.

(** What [representable] says of a non-zero decimal. *)
Lemma representable_nonzero (d : Decimal) :
  representable d -> d_int d <> 0%N ->
  len_int (d_int d) <= prec /\ Etiny <= d_exp d /\ adjusted d <= Emax.
Proof.
  unfold representable, _fix, is_zero, adjusted. intros H Hnz.
  destruct (N.eqb_spec (d_int d) 0) as [E | _]; [contradiction |].
  unfold Etop, Etiny, Emax, Emin, prec in *.
  destruct (Z.ltb_spec (999999 - 28 + 1) (len_int (d_int d) + d_exp d - 28));
    [discriminate |].
  destruct (Z.ltb_spec (len_int (d_int d) + d_exp d - 28) (-999999 - 28 + 1)).
  - destruct (Z.ltb_spec (d_exp d) (-999999 - 28 + 1)); [| lia].
    exfalso. destruct (_ <? _); [discriminate |].
    injection H as H. apply (f_equal d_exp) in H. simpl in H.
    destruct (_ && _) in H; lia.
  - destruct (Z.ltb_spec (d_exp d) (len_int (d_int d) + d_exp d - 28)); [| lia].
    exfalso. destruct (_ <? _); [discriminate |].
    injection H as H. apply (f_equal d_exp) in H. simpl in H.
    destruct (_ && _) in H; lia.
Qed.

(** [representable], spelled out: a zero with its exponent in range, or a
    coefficient of at most [prec] digits with the exponent and the adjusted
    exponent in range. *)
Lemma representable_iff (d : Decimal) :
  representable d <->
  if is_zero d then Etiny <= d_exp d <= Emax
  else len_int (d_int d) <= prec /\ Etiny <= d_exp d /\ adjusted d <= Emax.
Proof.
  destruct d as [s c e]. unfold is_zero. cbn [d_int d_exp].
  destruct (N.eqb_spec c 0) as [-> | Hc].
  - unfold representable. rewrite fix_zero.
    unfold Etiny, Emax, Emin, prec. split.
    + intros [= H]. lia.
    + intros H. do 2 f_equal. lia.
  - split.
    + intros H. exact (representable_nonzero _ H Hc).
    + intros (H1 & H2 & H3). now apply fix_nonzero_id.
Qed.

Lemma pow10_N_pos (k : N) : (0 < 10 ^ k)%N.
Proof. apply N.neq_0_lt_0, N.pow_nonzero. lia. Qed.

(** Dropping [n] of the [k] zeros that pad a coefficient. *)
Lemma div_padded (c0 k n : N) :
  (n <= k)%N ->
  ((c0 * 10 ^ k) / 10 ^ n = c0 * 10 ^ (k - n) /\ (c0 * 10 ^ k) mod 10 ^ n = 0)%N.
Proof.
  intros Hn. pose proof (pow10_N_pos n) as Hp.
  replace k with ((k - n) + n)%N at 1 3 by lia.
  rewrite N.pow_add_r, N.mul_assoc.
  split.
  - apply N.div_mul. lia.
  - apply N.Div0.mod_mul.
Qed.

(** A coefficient without dropped non-zero digits is not changed. *)
Lemma round_half_even_exact (c n : N) :
  (1 <= n)%N -> (c mod 10 ^ n = 0)%N -> _round_half_even c n = 0.
Proof.
  intros Hn Hr. pose proof (pow10_N_pos n) as Hp.
  destruct (round_half_even_cases c n Hn) as [[_ H] | [[H _] | [_ [H _]]]].
  - rewrite Hr in H. lia.
  - exact H.
  - rewrite Hr in H. lia.
Qed.

(** A representable decimal written with [k] more zeros is brought back by
    [_fix] to the same value, with [j <= k] of the zeros left. *)
Lemma fix_padded (s : bool) (c0 : N) (e0 : Z) (k : N) :
  c0 <> 0%N -> representable (mkDecimal s c0 e0) ->
  exists j, (j <= k)%N /\
    _fix (mkDecimal s (c0 * 10 ^ k) (e0 - Z.of_N k))
    = Ok (mkDecimal s (c0 * 10 ^ j) (e0 - Z.of_N j)).
Proof.
  intros Hnz Hrep.
  destruct (representable_nonzero _ Hrep Hnz) as (Hlen & Hlo & Hhi).
  unfold adjusted in Hhi. simpl in Hlen, Hlo, Hhi.
  pose proof (len_int_pos c0) as Hl1.
  pose proof (pow10_N_pos k) as Hpk.
  assert (Hc : (c0 * 10 ^ k)%N <> 0%N) by nia.
  unfold _fix, is_zero. cbn [d_int d_exp d_sign].
  destruct (N.eqb_spec (c0 * 10 ^ k) 0) as [E | _]; [contradiction |].
  rewrite len_int_mul_pow10 by lia.
  unfold Etop, Etiny, Emax, Emin, prec in *.
  set (L := len_int c0) in *.
  destruct (Z.ltb_spec (999999 - 28 + 1) (L + Z.of_N k + (e0 - Z.of_N k) - 28));
    [lia |].
  set (exp_min := if L + Z.of_N k + (e0 - Z.of_N k) - 28 <? -999999 - 28 + 1
                  then -999999 - 28 + 1
                  else L + Z.of_N k + (e0 - Z.of_N k) - 28).
  assert (Hem : exp_min <= e0 /\ exp_min <= 999999 - 28 + 1).
  { unfold exp_min. destruct (Z.ltb_spec (L + Z.of_N k + (e0 - Z.of_N k) - 28)
                                         (-999999 - 28 + 1)); lia. }
  clearbody exp_min.
  destruct (Z.ltb_spec (e0 - Z.of_N k) exp_min) as [Hround | Hkeep].
  - destruct (Z.ltb_spec (L + Z.of_N k + (e0 - Z.of_N k) - exp_min) 0); [lia |].
    rewrite len_int_mul_pow10 by lia. fold L.
    set (n := Z.to_N (L + Z.of_N k - (L + Z.of_N k + (e0 - Z.of_N k) - exp_min))).
    assert (Hn : (1 <= n <= k)%N) by lia.
    destruct (div_padded c0 k n) as [Hq Hr]; [lia |].
    rewrite (round_half_even_exact _ n) by (lia || exact Hr).
    cbn [Z.ltb Z.compare andb].
    destruct (Z.ltb_spec (999999 - 28 + 1) exp_min); [lia |].
    exists (k - n)%N. split; [lia |].
    rewrite Hq. f_equal. f_equal. lia.
  - exists k. split; [lia | reflexivity].
Qed.

(** The padded form is equal, as a number, to the decimal it pads. *)
Lemma Decimal_eq_padded (s : bool) (c0 j : N) (e0 : Z) (d : Decimal) :
  d = mkDecimal s c0 e0 ->
  Decimal_eq (mkDecimal s (c0 * 10 ^ j) (e0 - Z.of_N j)) d = true.
Proof.
  intros ->. unfold Decimal_eq, _cmp, sint. cbn [d_int d_exp d_sign].
  replace (Z.min (e0 - Z.of_N j) e0) with (e0 - Z.of_N j) by lia.
  replace (e0 - Z.of_N j - (e0 - Z.of_N j)) with 0 by lia.
  replace (e0 - (e0 - Z.of_N j)) with (Z.of_N j) by lia.
  rewrite N2Z.inj_mul, N2Z.inj_pow. simpl Z.of_N.
  rewrite Z.pow_0_r, Z.mul_1_r.
  destruct s.
  - rewrite Z.mul_opp_l, Z.compare_refl. reflexivity.
  - rewrite Z.compare_refl. reflexivity.
Qed.

(** ** Exact sums *)

Lemma exact_sum_comm (a b : Decimal) : exact_sum a b = exact_sum b a.
Proof.
  unfold exact_sum. rewrite (Z.min_comm (d_exp b)), (Z.add_comm (sint b * _)).
  f_equal. destruct (_ =? 0); [| reflexivity].
  destruct (is_zero a), (is_zero b), (d_sign a), (d_sign b); reflexivity.
Qed.

Lemma Decimal_add_comm (a b : Decimal) : Decimal_add a b = Decimal_add b a.
Proof. unfold Decimal_add. now rewrite exact_sum_comm. Qed.

(** The exact sum of a non-zero total: its sign and its coefficient. *)
Lemma exact_sum_nonzero (a b : Decimal) (sg : bool) (c K : N) :
  c <> 0%N ->
  sint a * 10 ^ (d_exp a - Z.min (d_exp a) (d_exp b))
  + sint b * 10 ^ (d_exp b - Z.min (d_exp a) (d_exp b))
  = (if sg then - Z.of_N c else Z.of_N c) * 10 ^ Z.of_N K ->
  exact_sum a b = mkDecimal sg (c * 10 ^ K) (Z.min (d_exp a) (d_exp b)).
Proof.
  intros Hc HS. unfold exact_sum. rewrite HS.
  assert (HP : 0 < 10 ^ Z.of_N K) by (apply pow10_pos; lia).
  assert (Hc' : 0 < Z.of_N c) by lia.
  f_equal.
  - destruct sg.
    + destruct (Z.eqb_spec (- Z.of_N c * 10 ^ Z.of_N K) 0); [nia |].
      apply Z.ltb_lt. nia.
    + destruct (Z.eqb_spec (Z.of_N c * 10 ^ Z.of_N K) 0); [nia |].
      apply Z.ltb_ge. nia.
  - apply N2Z.inj. rewrite N2Z.inj_abs_N, N2Z.inj_mul, N2Z.inj_pow.
    simpl Z.of_N. destruct sg; nia.
Qed.

Lemma exact_sum_zero (a b : Decimal) :
  sint a * 10 ^ (d_exp a - Z.min (d_exp a) (d_exp b))
  + sint b * 10 ^ (d_exp b - Z.min (d_exp a) (d_exp b)) = 0 ->
  d_int (exact_sum a b) = 0%N.
Proof. intros HS. unfold exact_sum. now rewrite HS. Qed.

Lemma sint_exact_sum (a b : Decimal) :
  sint (exact_sum a b)
  = sint a * 10 ^ (d_exp a - Z.min (d_exp a) (d_exp b))
    + sint b * 10 ^ (d_exp b - Z.min (d_exp a) (d_exp b)).
Proof.
  unfold exact_sum.
  set (S := sint a * _ + sint b * _). unfold sint at 1. cbn [d_sign d_int].
  rewrite N2Z.inj_abs_N.
  destruct (Z.eqb_spec S 0) as [E | E].
  - rewrite E. simpl Z.abs. now destruct (_ && _).
  - destruct (Z.ltb_spec S 0); lia.
Qed.

Lemma Decimal_eq_zeros (x y : Decimal) :
  d_int x = 0%N -> d_int y = 0%N -> Decimal_eq x y = true.
Proof.
  intros Hx Hy. unfold Decimal_eq, _cmp, sint. rewrite Hx, Hy.
  now destruct (d_sign x), (d_sign y).
Qed.

(** The sign plays no part in [_fix]. *)
Lemma representable_sign (s s' : bool) (c : N) (e : Z) :
  representable (mkDecimal s c e) -> representable (mkDecimal s' c e).
Proof.
  intros H. destruct (N.eq_dec c 0%N) as [-> | Hc].
  - unfold representable in *. rewrite fix_zero in *.
    injection H as H. now rewrite H.
  - destruct (representable_nonzero _ H Hc) as (H1 & H2 & H3).
    now apply fix_nonzero_id.
Qed.

(** The negation of a representable decimal is exact. *)
Lemma Decimal_neg_exact (d : Decimal) :
  representable d ->
  exists n, Decimal_neg d = Ok n /\ sint n = - sint d /\ d_exp n = d_exp d.
Proof.
  intros H. destruct d as [s c e]. unfold Decimal_neg, is_zero. cbn [d_int d_sign d_exp].
  destruct (N.eqb_spec c 0) as [-> | Hc].
  - exists (mkDecimal false 0 e). split; [| split].
    + apply (representable_sign s false), H.
    + unfold sint. simpl. now destruct s.
    + reflexivity.
  - exists (mkDecimal (negb s) c e). split; [| split].
    + apply (representable_sign s (negb s)), H.
    + unfold sint. simpl. destruct s; simpl; lia.
    + reflexivity.
Qed.

(** Adding and subtracting back, when nothing is rounded. *)
Lemma add_sub_exact (a1 a2 : Decimal) :
  representable a1 -> representable a2 -> representable (exact_sum a1 a2) ->
  exists s n r,
    Decimal_add a1 a2 = Ok s /\ Decimal_neg a2 = Ok n /\
    Decimal_add s n = Ok r /\ Decimal_eq r a1 = true.
Proof.
  intros H1 H2 Hs.
  destruct (Decimal_neg_exact a2 H2) as (n & Hn & Hsn & Hen).
  exists (exact_sum a1 a2), n.
  set (m := Z.min (d_exp a1) (d_exp a2)).
  assert (Hm : d_exp (exact_sum a1 a2) = m) by reflexivity.
  assert (Hmin : Z.min (d_exp (exact_sum a1 a2)) (d_exp n) = m) by (rewrite Hm, Hen; lia).
  assert (HS : sint (exact_sum a1 a2)
               * 10 ^ (d_exp (exact_sum a1 a2) - Z.min (d_exp (exact_sum a1 a2)) (d_exp n))
               + sint n * 10 ^ (d_exp n - Z.min (d_exp (exact_sum a1 a2)) (d_exp n))
               = sint a1 * 10 ^ (d_exp a1 - m)).
  { rewrite Hmin, Hm, Hen, Hsn, sint_exact_sum. fold m.
    rewrite Z.sub_diag, Z.pow_0_r. ring. }
  destruct (N.eq_dec (d_int a1) 0%N) as [Hz | Hnz].
  - assert (Hz' : d_int (exact_sum (exact_sum a1 a2) n) = 0%N).
    { apply exact_sum_zero. rewrite HS. unfold sint. rewrite Hz.
      now destruct (d_sign a1). }
    destruct (exact_sum (exact_sum a1 a2) n) as [sg c e] eqn:E.
    simpl in Hz'. subst c.
    eexists. split; [exact Hs |]. split; [exact Hn |]. split.
    + unfold Decimal_add. rewrite E. apply fix_zero.
    + now apply Decimal_eq_zeros.
  - destruct a1 as [s1 c1 e1]. cbn [d_int d_exp d_sign] in *.
    assert (HK : e1 - m = Z.of_N (Z.to_N (e1 - m))) by lia.
    assert (E : exact_sum (exact_sum (mkDecimal s1 c1 e1) a2) n
                = mkDecimal s1 (c1 * 10 ^ Z.to_N (e1 - m)) (e1 - Z.of_N (Z.to_N (e1 - m)))).
    { rewrite (exact_sum_nonzero _ _ s1 c1 (Z.to_N (e1 - m)) Hnz).
      - rewrite Hmin. f_equal. lia.
      - rewrite HS, <- HK. unfold sint. cbn [d_sign d_int]. reflexivity. }
    destruct (fix_padded s1 c1 e1 (Z.to_N (e1 - m)) Hnz H1) as (j & Hj & Hfix).
    eexists. split; [exact Hs |]. split; [exact Hn |]. split.
    + unfold Decimal_add. rewrite E. exact Hfix.
    + now apply Decimal_eq_padded.
Qed.

(** [_fix] returns whenever the adjusted exponent is below [Emax]. *)
Lemma fix_returns (d : Decimal) :
  adjusted d < Emax -> exists q, _fix d = Ok q.
Proof.
  unfold _fix, adjusted. intros Hadj.
  destruct (is_zero d); [eexists; reflexivity |].
  unfold Etop, Etiny, Emax, Emin, prec in *.
  destruct (Z.ltb_spec (999999 - 28 + 1) (len_int (d_int d) + d_exp d - 28));
    [lia |].
  set (exp_min := if len_int (d_int d) + d_exp d - 28 <? -999999 - 28 + 1
                  then -999999 - 28 + 1
                  else len_int (d_int d) + d_exp d - 28).
  assert (Hem : exp_min < 999999 - 28 + 1).
  { unfold exp_min.
    destruct (Z.ltb_spec (len_int (d_int d) + d_exp d - 28) (-999999 - 28 + 1)); lia. }
  clearbody exp_min.
  destruct (d_exp d <? exp_min); [| eexists; reflexivity].
  destruct (_ && _).
  - destruct (Z.ltb_spec (999999 - 28 + 1) (exp_min + 1)); [lia |].
    eexists; reflexivity.
  - destruct (Z.ltb_spec (999999 - 28 + 1) exp_min); [lia |].
    eexists; reflexivity.
Qed.

(** The sum of two decimals returns when both are below [10 ^ (Emax - 1)]
    in magnitude: Overflow needs an operand at the very top of the
    exponent range. *)
Lemma Decimal_add_returns (a b : Decimal) :
  adjusted a < Emax - 1 -> adjusted b < Emax - 1 ->
  exists s, Decimal_add a b = Ok s.
Proof.
  unfold adjusted. intros Ha Hb. unfold Decimal_add. apply fix_returns.
  unfold adjusted, exact_sum. cbn [d_int d_exp].
  set (e := Z.min (d_exp a) (d_exp b)).
  set (S := sint a * 10 ^ (d_exp a - e) + sint b * 10 ^ (d_exp b - e)).
  pose proof (len_int_upper (d_int a)) as Ua.
  pose proof (len_int_upper (d_int b)) as Ub.
  pose proof (len_int_pos (d_int a)) as La.
  pose proof (len_int_pos (d_int b)) as Lb.
  set (M := Z.max (d_exp a + len_int (d_int a)) (d_exp b + len_int (d_int b))).
  assert (HS : Z.abs S < 10 ^ (M + 1 - e)).
  { assert (Xa : 0 < 10 ^ (d_exp a - e)) by (apply pow10_pos; lia).
    assert (Xb : 0 < 10 ^ (d_exp b - e)) by (apply pow10_pos; lia).
    assert (Ba : Z.of_N (d_int a) * 10 ^ (d_exp a - e) < 10 ^ (M - e)).
    { apply Z.lt_le_trans with (10 ^ len_int (d_int a) * 10 ^ (d_exp a - e)); [nia |].
      rewrite <- Z.pow_add_r by lia. apply Z.pow_le_mono_r; lia. }
    assert (Bb : Z.of_N (d_int b) * 10 ^ (d_exp b - e) < 10 ^ (M - e)).
    { apply Z.lt_le_trans with (10 ^ len_int (d_int b) * 10 ^ (d_exp b - e)); [nia |].
      rewrite <- Z.pow_add_r by lia. apply Z.pow_le_mono_r; lia. }
    assert (HM : 10 ^ (M + 1 - e) = 10 * 10 ^ (M - e)).
    { rewrite <- Z.pow_succ_r by lia. f_equal. lia. }
    subst S. destruct (sint_cases a) as [-> | ->], (sint_cases b) as [-> | ->]; nia. }
  assert (HL : len_int (Z.abs_N S) <= M + 1 - e).
  { apply len_int_le; [lia |]. rewrite N2Z.inj_abs_N. exact HS. }
  lia.
Qed.

(** ** Exact quotients *)

Lemma strip_zeros_padded (k : nat) (c : N) (e : Z) :
  strip_zeros k (c * 10 ^ N.of_nat k) (e - Z.of_nat k) e = (c, e).
Proof.
  revert e. induction k as [ | k IH]; intros e.
  - simpl. rewrite N.mul_1_r, Z.sub_0_r. reflexivity.
  - cbn [strip_zeros].
    destruct (Z.ltb_spec (e - Z.of_nat (S k)) e); [| lia].
    rewrite Nat2N.inj_succ, N.pow_succ_r'.
    replace (c * (10 * 10 ^ N.of_nat k))%N with (c * 10 ^ N.of_nat k * 10)%N by lia.
    rewrite N.Div0.mod_mul, N.div_mul by lia. simpl andb. cbn [N.eqb].
    replace (e - Z.of_nat (S k) + 1) with (e - Z.of_nat k) by lia.
    apply IH.
Qed.

(** The first [n] zeros of a padded coefficient are stripped when the ideal
    exponent allows it. *)
Lemma strip_zeros_skip (n fuel : nat) (c0 : N) (e i : Z) :
  (n <= fuel)%nat -> e + Z.of_nat n <= i ->
  strip_zeros fuel (c0 * 10 ^ N.of_nat n) e i
  = strip_zeros (fuel - n) c0 (e + Z.of_nat n) i.
Proof.
  revert fuel e. induction n as [ | n IH]; intros fuel e Hn He.
  - simpl. rewrite N.mul_1_r, Nat.sub_0_r, Z.add_0_r. reflexivity.
  - destruct fuel as [ | f]; [lia |]. cbn [strip_zeros].
    destruct (Z.ltb_spec e i); [| lia].
    rewrite Nat2N.inj_succ, N.pow_succ_r'.
    replace (c0 * (10 * 10 ^ N.of_nat n))%N with (c0 * 10 ^ N.of_nat n * 10)%N by lia.
    rewrite N.Div0.mod_mul, N.div_mul by lia. cbn [N.eqb andb].
    rewrite IH by lia. cbn [Nat.sub]. f_equal. lia.
Qed.

(** Stripping zeros keeps the value. *)
Lemma strip_zeros_value (fuel : nat) (c : N) (e i : Z) :
  exists (c' j : N),
    strip_zeros fuel c e i = (c', e + Z.of_N j) /\ c = (c' * 10 ^ j)%N.
Proof.
  revert c e. induction fuel as [ | f IH]; intros c e.
  - exists c, 0%N. simpl. rewrite Z.add_0_r, N.mul_1_r. split; reflexivity.
  - cbn [strip_zeros]. destruct (Z.ltb_spec e i) as [He | He]; cbn [andb].
    + destruct (N.eqb_spec (c mod 10) 0) as [Hm | Hm].
      * destruct (IH (c / 10)%N (e + 1)) as (c' & j & Hs & Hc).
        exists c', (N.succ j). split.
        -- rewrite Hs. f_equal. lia.
        -- pose proof (N.div_mod' c 10) as Hd. rewrite Hm, Hc in Hd.
           rewrite N.pow_succ_r'. lia.
      * exists c, 0%N. rewrite Z.add_0_r, N.mul_1_r. split; reflexivity.
    + exists c, 0%N. rewrite Z.add_0_r, N.mul_1_r. split; reflexivity.
Qed.

(** A percentage, when nothing is rounded: the quotient by 100 of an exact
    product [d * a], two exponents above the bottom of the range, is the
    decimal whose hundredfold is the product. *)
Lemma percent_exact (d a : Decimal) :
  representable (exact_product d a) -> Etiny + 2 <= d_exp d + d_exp a ->
  exists q,
    (Decimal_mul d a ≫= λ p, Decimal_truediv p (Decimal_of_int 100)) = Ok q /\
    d_exp d + d_exp a - 2 <= d_exp q /\
    sint q * 10 ^ (d_exp q - (d_exp d + d_exp a - 2)) = sint d * sint a.
Proof.
  intros Hp He. unfold Decimal_mul. rewrite Hp, bind_Ok.
  destruct d as [sd cd ed], a as [sa ca ea].
  unfold exact_product in *. cbn [d_int d_exp d_sign] in *.
  unfold Decimal_truediv, is_zero, Decimal_of_int. cbn [d_int d_exp d_sign].
  change (Z.abs_N 100) with 100%N. change (100 <? 0) with false.
  change (100 =? 0)%N with false. cbv iota.
  rewrite xorb_false_r, Z.sub_0_r.
  destruct (N.eqb_spec (cd * ca) 0) as [Hz | Hnz].
  - rewrite Hz in Hp. apply representable_iff in Hp. cbn in Hp.
    rewrite fix_zero. eexists. split; [reflexivity |]. cbn [d_exp].
    unfold Etiny, Emax, Emin, prec in *. split; [lia |].
    unfold sint. cbn [d_sign d_int].
    assert (H0 : Z.of_N cd * Z.of_N ca = 0) by lia.
    destruct (xorb sd sa), sd, sa; nia.
  - destruct (representable_nonzero _ Hp Hnz) as (Hlen & Hlo & Hhi).
    unfold adjusted in Hhi. cbn [d_int d_exp] in Hlen, Hlo, Hhi.
    change (len_int 100) with 3. unfold prec in *.
    pose proof (len_int_pos (cd * ca)) as Hl.
    set (L := len_int (cd * ca)) in *.
    destruct (Z.leb_spec 0 (3 - L + 28 + 1)); [| lia].
    set (k := Z.to_N (3 - L + 28 + 1)).
    assert (Hk : (2 <= k)%N) by lia.
    destruct (div_padded (cd * ca) k 2 Hk) as [Hq Hr].
    change (10 ^ 2)%N with 100%N in Hq, Hr. rewrite Hq, Hr. cbn [N.eqb negb].
    replace (ed + ea - (ed + ea - (3 - L + 28 + 1))) with (3 - L + 28 + 1) by lia.
    replace (k - 2)%N with (N.of_nat (N.to_nat (k - 2))) by lia.
    rewrite strip_zeros_skip by lia.
    destruct (strip_zeros_value (Z.to_nat (3 - L + 28 + 1) - N.to_nat (k - 2))
                (cd * ca) (ed + ea - (3 - L + 28 + 1) + Z.of_nat (N.to_nat (k - 2)))
                (ed + ea)) as (c' & j & Hs & Hc).
    rewrite Hs.
    assert (Hc' : c' <> 0%N) by (intros ->; lia).
    assert (Hlc : len_int c' + Z.of_N j = L).
    { unfold L. rewrite Hc. symmetry. apply len_int_mul_pow10. lia. }
    pose proof (len_int_pos c') as Hl'.
    eexists. split.
    + apply fix_nonzero_id; unfold adjusted, Etiny, Emax, Emin, prec in *;
        cbn [d_int d_exp]; lia.
    + cbn [d_exp]. split; [lia |].
      replace (ed + ea - (3 - L + 28 + 1) + Z.of_nat (N.to_nat (k - 2)) + Z.of_N j
               - (ed + ea - 2)) with (Z.of_N j) by lia.
      unfold sint. cbn [d_sign d_int].
      assert (Hv : Z.of_N c' * 10 ^ Z.of_N j = Z.of_N cd * Z.of_N ca).
      { rewrite <- N2Z.inj_mul, Hc, N2Z.inj_mul, N2Z.inj_pow. reflexivity. }
      destruct sd, sa; cbn [xorb]; lia.
Qed.

(** Multiplying and dividing back, when nothing is rounded: the quotient is
    the multiplicand itself. *)
Lemma mul_div_exact (a d : Decimal) :
  d_int d <> 0%N -> representable a -> representable (exact_product a d) ->
  exists q, Decimal_truediv (exact_product a d) d = Ok q /\ Decimal_eq q a = true.
Proof.
  intros Hd Ha Hp. destruct a as [sa ca ea], d as [sd cd ed].
  cbn [d_int] in Hd.
  unfold Decimal_truediv, exact_product, is_zero in *. cbn [d_int d_exp d_sign] in *.
  destruct (N.eqb_spec cd 0) as [E | _]; [contradiction |].
  destruct (N.eqb_spec (ca * cd) 0) as [E | Hnz].
  - assert (ca = 0%N) by nia. subst ca.
    rewrite fix_zero. eexists. split; [reflexivity |].
    now apply Decimal_eq_zeros.
  - destruct (representable_nonzero _ Hp Hnz) as (Hlen & _ & _).
    cbn [d_int] in Hlen. unfold prec in *.
    pose proof (len_int_pos cd) as Hl.
    set (shift := len_int cd - len_int (ca * cd) + 28 + 1) in *.
    assert (Hs : 0 <= shift) by (unfold shift; lia).
    destruct (Z.leb_spec 0 shift); [| lia].
    replace (ca * cd * 10 ^ Z.to_N shift)%N
      with (ca * 10 ^ Z.to_N shift * cd)%N by lia.
    rewrite N.Div0.mod_mul, N.div_mul by exact Hd.
    cbn [N.eqb negb].
    replace (ea + ed - ed - (ea + ed - ed - shift)) with shift by lia.
    replace (ea + ed - ed - shift) with (ea - Z.of_nat (Z.to_nat shift)) by lia.
    replace (ea + ed - ed) with ea by lia.
    replace (Z.to_N shift) with (N.of_nat (Z.to_nat shift)) by lia.
    rewrite strip_zeros_padded.
    replace (xorb (xorb sa sd) sd) with sa by (destruct sa, sd; reflexivity).
    exists (mkDecimal sa ca ea). split; [exact Ha | apply Decimal_eq_refl].
Qed.

(** ** Quantizing *)

(** [_rescale] to the exponent [x]: the coefficient is padded with zeros
    when [x] is not above the exponent, and otherwise it is the nearest
    multiple of [10 ^ (x - exponent)], the even one on a tie. *)
Lemma rescale_half_even (d : Decimal) (x : Z) :
  d_int d <> 0%N ->
  d_exp (_rescale d x) = x /\ d_sign (_rescale d x) = d_sign d /\
  (x <= d_exp d ->
   Z.of_N (d_int (_rescale d x)) = Z.of_N (d_int d) * 10 ^ (d_exp d - x)) /\
  (d_exp d < x ->
   2 * Z.abs (Z.of_N (d_int d) - Z.of_N (d_int (_rescale d x)) * 10 ^ (x - d_exp d))
   <= 10 ^ (x - d_exp d) /\
   (2 * Z.abs (Z.of_N (d_int d) - Z.of_N (d_int (_rescale d x)) * 10 ^ (x - d_exp d))
    = 10 ^ (x - d_exp d) ->
    N.even (d_int (_rescale d x)) = true)).
Proof.
  intros Hnz. destruct d as [s c e]. cbn [d_int d_exp d_sign] in *.
  unfold _rescale, is_zero. cbn [d_int d_exp d_sign].
  destruct (N.eqb_spec c 0) as [E | _]; [contradiction |].
  destruct (Z.leb_spec x e) as [Hpad | Hcut].
  - cbn [d_int d_exp d_sign]. repeat split; try lia.
    intros _. rewrite N2Z.inj_mul, N2Z.inj_pow, Z2N.id by lia. reflexivity.
  - pose proof (len_int_bounds c ltac:(lia)) as [Llo Lhi].
    pose proof (len_int_pos c) as Lp.
    set (L := len_int c) in *.
    assert (HP : 0 < 10 ^ (x - e)) by (apply pow10_pos; lia).
    destruct (Z.ltb_spec (L + e - x) 0) as [Hfar | Hnear].
    + change (len_int 1) with 1. change (Z.to_N (1 - 0)) with 1%N.
      change (_round_half_even 1 1) with (-1).
      change (1 / 10 ^ 1)%N with 0%N.
      cbn [Z.eqb d_int d_exp d_sign].
      split; [reflexivity |]. split; [reflexivity |]. split; [lia |].
      intros _. rewrite Z.mul_0_l, Z.sub_0_r.
      assert (H1 : 10 ^ L <= 10 ^ (x - e - 1)) by (apply Z.pow_le_mono_r; lia).
      assert (H2 : 10 ^ (x - e) = 10 * 10 ^ (x - e - 1)).
      { rewrite <- Z.pow_succ_r by lia. f_equal. lia. }
      split; lia.
    + fold L. set (n := Z.to_N (L - (L + e - x))).
      assert (Hn : (1 <= n)%N) by lia.
      assert (HPn : Z.of_N (10 ^ n) = 10 ^ (x - e)).
      { rewrite N2Z.inj_pow. f_equal. lia. }
      pose proof (N.div_mod' c (10 ^ n)) as Hdm.
      pose proof (N.mod_lt c (10 ^ n)) as Hml.
      pose proof (pow10_N_pos n) as Hpn.
      rewrite <- HPn.
      destruct (round_half_even_cases c n Hn)
        as [[Hch Hr] | [[Hch Hr] | [Hch [Hr0 Hr]]]]; rewrite Hch;
        cbn [Z.eqb Pos.eqb d_int d_exp d_sign].
      * set (q := (c / 10 ^ n)%N) in *. set (r := (c mod 10 ^ n)%N) in *.
        set (P := (10 ^ n)%N) in *.
        assert (Hev : N.even (q + 1) = negb (N.even q)).
        { rewrite N.even_add. now destruct (N.even q). }
        clearbody q r P.
        split; [reflexivity |]. split; [reflexivity |]. split; [lia |].
        intros _. destruct Hr as [Hr | [Hr Hodd]].
        -- split; [lia |]. intros Htie. lia.
        -- split; [lia |]. intros _. now rewrite Hev, Hodd.
      * set (q := (c / 10 ^ n)%N) in *. set (r := (c mod 10 ^ n)%N) in *.
        set (P := (10 ^ n)%N) in *. clearbody q r P.
        split; [reflexivity |]. split; [reflexivity |]. split; [lia |].
        intros _. split; [lia |]. intros Htie. lia.
      * set (q := (c / 10 ^ n)%N) in *. set (r := (c mod 10 ^ n)%N) in *.
        set (P := (10 ^ n)%N) in *. clearbody q r P.
        split; [reflexivity |]. split; [reflexivity |]. split; [lia |].
        intros _. destruct Hr as [Hr | [Hr Hev]].
        -- split; [lia |]. intros Htie. lia.
        -- split; [lia |]. intros _. exact Hev.
Qed.

(** [quantize] either raises InvalidOperation or returns the rescaled
    decimal. *)
Lemma quantize_outcome (d e : Decimal) :
  Decimal_quantize d e = Raise InvalidOperation \/
  Decimal_quantize d e
  = Ok (if is_zero d then mkDecimal (d_sign d) 0 (d_exp e)
        else _rescale d (d_exp e)).
Proof.
  unfold Decimal_quantize.
  destruct (Z.leb_spec Etiny (d_exp e)) as [Hlo | Hlo]; [| now left].
  destruct (Z.leb_spec (d_exp e) Emax) as [Hhi | Hhi]; [| now left].
  cbn [andb negb].
  destruct (is_zero d) eqn:Hz.
  - right. rewrite fix_zero. do 2 f_equal. lia.
  - destruct (Z.ltb_spec Emax (adjusted d)); [now left |].
    destruct (Z.ltb_spec prec (adjusted d - d_exp e + 1)); [now left |].
    destruct (Z.ltb_spec Emax (adjusted (_rescale d (d_exp e)))); [now left |].
    destruct (Z.ltb_spec prec (len_int (d_int (_rescale d (d_exp e)))));
      [now left |].
    right.
    assert (Hnz : d_int d <> 0%N).
    { unfold is_zero in Hz. now destruct (N.eqb_spec (d_int d) 0). }
    destruct (rescale_half_even d (d_exp e) Hnz) as (Hexp & _).
    destruct (_rescale d (d_exp e)) as [s c x] eqn:E.
    cbn [d_exp d_int] in *. subst x.
    destruct (N.eq_dec c 0%N) as [-> | Hc].
    + rewrite fix_zero. do 2 f_equal. lia.
    + apply fix_nonzero_id; cbn [d_int d_exp]; assumption.
Qed.

(** ** Addition *)

(** C1.  [a + b] for a Money [a]: when [b] is not a Money and [b == 0]
    (the int 0, False or a zero Decimal, see [eq_0_true_iff]) the result is
    [a] itself; when [b] is a Money with the code of [a], the result is the
    Money of the decimal sum [a.amount + b.amount] in the currency of [a]
    (a signal of that sum propagates); when [b] is a Money with another
    code, the TypeError for different currencies (the spec's
    CurrencyMismatch) is raised; for every other operand the TypeError for
    a non-Money instance (the spec's InvalidOperand) is raised. *)
Theorem add_cases (a : Money) (b : value) :
  (isinstance_Money b = false -> Money.eq_0 b = true ->
   Money.__add__ a b = Ok a) /\
  (forall m, b = VMoney m -> code (currency a) = code (currency m) ->
   Money.__add__ a b =
     (s ← Decimal_add (amount a) (amount m); Ok (mkMoney s (currency a)))) /\
  (forall m, b = VMoney m -> code (currency a) <> code (currency m) ->
   Money.__add__ a b =
     Raise (TypeError
       "Cannot add or subtract two Money instances with different currencies.")) /\
  (isinstance_Money b = false -> Money.eq_0 b = false ->
   Money.__add__ a b =
     Raise (TypeError "Cannot add or subtract a Money and non-Money instance.")).
Proof.
  split; [| split; [| split]].
  - intros _ H0. unfold Money.__add__. now rewrite H0.
  - intros m -> Hc. unfold Money.__add__. rewrite eq_0_Money.
    apply Currency_eq_true in Hc. now rewrite Hc.
  - intros m -> Hc. unfold Money.__add__. rewrite eq_0_Money.
    apply Currency_eq_false in Hc. now rewrite Hc.
  - intros Hm H0. unfold Money.__add__. rewrite H0.
    destruct b; try reflexivity. discriminate.
Qed.

(** The four cases of C1 at 1.50 USD: plus the int 0, plus 2.25 USD, plus
    1 EUR and plus the int 5. *)
Lemma add_cases_witness :
  let a := mkMoney (mkDecimal false 150 (-2)) USD in
  let b := mkMoney (mkDecimal false 225 (-2)) USD in
  let e := mkMoney (Decimal_of_int 1) EUR in
  Money.__add__ a (VInt 0) = Ok a /\
  Money.__add__ a (VMoney b) = Ok (mkMoney (mkDecimal false 375 (-2)) USD) /\
  Money.__add__ a (VMoney e) =
    Raise (TypeError
      "Cannot add or subtract two Money instances with different currencies.") /\
  Money.__add__ a (VInt 5) =
    Raise (TypeError "Cannot add or subtract a Money and non-Money instance.").
Proof.
  intros a b e. split; [| split; [| split]].
  - apply (proj1 (add_cases a (VInt 0))); reflexivity.
  - rewrite (proj1 (proj2 (add_cases a (VMoney b))) b eq_refl eq_refl).
    reflexivity.
  - apply (proj1 (proj2 (proj2 (add_cases a (VMoney e)))) e eq_refl).
    discriminate.
  - apply (proj2 (proj2 (proj2 (add_cases a (VInt 5))))); reflexivity.
Defined.

(** ** Round trips *)

(** C2: a sum that needs 29 digits.  [1E-28 + 1] is rounded to
    1.000000000000000000000000000, and subtracting 1 leaves 0E-27, which is
    not 1E-28: [(m1 + m2) - m2 == m1] is False. *)
Lemma add_sub_round_trip_rounds :
  add_sub_round_trip (mkMoney (mkDecimal false 1 (-28)) USD)
                     (mkMoney (mkDecimal false 1 0) USD) = Ok false.
Proof. vm_compute. reflexivity. Qed.

(** C2, amended.  For two Money values of the same currency,
    [m1 + m2 == m2 + m1] is True as soon as the decimal sum of the amounts
    returns, and the only thing the sum can raise is Overflow; and
    [(m1 + m2) - m2 == m1] is True when nothing is rounded on the way, that
    is when the two amounts and their exact sum are representable in the
    context. *)
Theorem add_commutes_and_exact_round_trip (m1 m2 : Money) :
  code (currency m1) = code (currency m2) ->
  add_commutes m1 m2 = (Decimal_add (amount m1) (amount m2) ≫= λ _, Ok true) /\
  (forall e, Decimal_add (amount m1) (amount m2) = Raise e -> e = Overflow) /\
  (representable (amount m1) -> representable (amount m2) ->
   representable (exact_sum (amount m1) (amount m2)) ->
   add_sub_round_trip m1 m2 = Ok true).
Proof.
  intros Hc.
  assert (Hc12 : Currency.__eq__ (currency m1) (currency m2) = true)
    by now apply Currency_eq_true.
  assert (Hc21 : Currency.__eq__ (currency m2) (currency m1) = true)
    by now apply Currency_eq_true.
  split; [| split].
  - unfold add_commutes, Money.__add__. cbn [Money.eq_0 Money.__eq__].
    rewrite Hc12, Hc21, (Decimal_add_comm (amount m2)).
    destruct (Decimal_add (amount m1) (amount m2)) as [s | e]; [| reflexivity].
    rewrite !bind_Ok. cbn [Money.new amount currency Money.__eq__].
    now rewrite Decimal_eq_refl, Hc12.
  - intros e. apply fix_raises_Overflow.
  - intros H1 H2 Hs.
    destruct (add_sub_exact _ _ H1 H2 Hs) as (s & n & r & Es & En & Er & Eq).
    unfold add_sub_round_trip, Money.__sub__, Money.__add__.
    cbn [Money.eq_0 Money.__eq__ Money.neg_value Money.__neg__].
    rewrite Hc12, Es, !bind_Ok. unfold Money.__neg__.
    rewrite En, !bind_Ok.
    cbn [Money.eq_0 Money.__eq__ Money.new amount currency].
    rewrite Hc12, Er, !bind_Ok.
    cbn [Money.new amount currency].
    now rewrite Eq, Currency_eq_refl.
Qed.

(** 1.50 USD and 2.25 USD: nothing is rounded. *)
Lemma add_commutes_and_exact_round_trip_witness :
  let m1 := mkMoney (mkDecimal false 150 (-2)) USD in
  let m2 := mkMoney (mkDecimal false 225 (-2)) USD in
  add_commutes m1 m2 = Ok true /\ add_sub_round_trip m1 m2 = Ok true.
Proof.
  intros m1 m2.
  destruct (add_commutes_and_exact_round_trip m1 m2 eq_refl) as (Hcomm & _ & Hrt).
  split.
  - rewrite Hcomm. reflexivity.
  - apply Hrt; reflexivity.
Defined.

(** C3: a product that needs 29 digits.
    [3333333333333333333333333334 * 3] is rounded to 1.000...E+28, and the
    quotient by 3 is 3333333333333333333333333333: [(m * d) / d == m] is
    False. *)
Lemma mul_div_round_trip_rounds :
  mul_div_round_trip (mkMoney (mkDecimal false 3333333333333333333333333334 0) USD)
                     (VDecimal (mkDecimal false 3 0)) = Ok false.
Proof. vm_compute. reflexivity. Qed.

(** C3, amended.  For a Money [m] and a non-zero Decimal [d],
    [(m * d) / d == m] is True when nothing is rounded on the way, that is
    when the amount and the exact product are representable in the
    context. *)
Theorem mul_div_exact_round_trip (m : Money) (d : Decimal) :
  d_int d <> 0%N ->
  representable (amount m) -> representable (exact_product (amount m) d) ->
  mul_div_round_trip m (VDecimal d) = Ok true.
Proof.
  intros Hd Ha Hp.
  destruct (mul_div_exact _ _ Hd Ha Hp) as (q & Eq & Heq).
  unfold mul_div_round_trip, Money.__mul__, Money.__truediv__.
  cbn [isinstance_Money force_decimal]. rewrite bind_Ok.
  unfold Decimal_mul. rewrite Hp, !bind_Ok.
  cbn [Money.new amount currency]. rewrite Eq, !bind_Ok.
  cbn [eq_Money Money.new amount currency Money.__eq__].
  now rewrite Heq, Currency_eq_refl.
Qed.

(** 1.50 USD times 3 and back. *)
Lemma mul_div_exact_round_trip_witness :
  mul_div_round_trip (mkMoney (mkDecimal false 150 (-2)) USD)
                     (VDecimal (mkDecimal false 3 0)) = Ok true.
Proof.
  apply mul_div_exact_round_trip.
  - discriminate.
  - reflexivity.
  - reflexivity.
Defined.

(** ** Division *)

Lemma fix_outcome (d : Decimal) :
  (exists q, _fix d = Ok q) \/ _fix d = Raise Overflow.
Proof.
  destruct (_fix d) as [q | e] eqn:E.
  - left. now exists q.
  - right. now rewrite (fix_raises_Overflow d e E).
Qed.

(** What a decimal division can do: a zero divisor raises DivisionByZero,
    or InvalidOperation when the dividend is zero as well; any other
    division returns, unless the quotient is beyond the exponent range. *)
Lemma truediv_outcome (x y : Decimal) :
  (d_int y = 0%N ->
   Decimal_truediv x y
   = Raise (if is_zero x then InvalidOperation else DivisionByZero)) /\
  (d_int y <> 0%N ->
   (exists q, Decimal_truediv x y = Ok q) \/
   Decimal_truediv x y = Raise Overflow).
Proof.
  unfold Decimal_truediv, is_zero. split.
  - intros ->. cbn [N.eqb]. now destruct (d_int x =? 0)%N.
  - intros Hy. destruct (N.eqb_spec (d_int y) 0) as [E | _]; [contradiction |].
    destruct (d_int x =? 0)%N; [apply fix_outcome |].
    destruct (negb _); [apply fix_outcome |].
    destruct (strip_zeros _ _ _ _) as [c e]. apply fix_outcome.
Qed.

(** C4: a zero divisor.  1 USD divided by 0 USD, or by the int 0, raises
    DivisionByZero and returns neither a ratio nor a Money. *)
Lemma truediv_zero_divisor :
  Money.__truediv__ (mkMoney (Decimal_of_int 1) USD)
                    (VMoney (mkMoney (Decimal_of_int 0) USD))
  = Raise DivisionByZero /\
  Money.__truediv__ (mkMoney (Decimal_of_int 1) USD) (VInt 0)
  = Raise DivisionByZero.
Proof. vm_compute. split; reflexivity. Qed.

(** C4, amended.  [a / b] for a Money [a]: when [b] is a Money with the
    code of [a], the result is the decimal quotient [a.amount / b.amount],
    a Decimal and not a Money; when [b] is a Money with another code, the
    TypeError for two different currencies (the spec's CurrencyMismatch) is
    raised; when [b] is an int or a Decimal, the result is the Money of
    [a.amount / b] in the currency of [a]; [v / m], which Python resolves to
    [m.__rtruediv__(v)], raises a TypeError (the spec's InvalidOperand) for
    every [v].  The quotients return for every non-zero divisor, short of
    an Overflow; a zero divisor raises DivisionByZero, or InvalidOperation
    when the dividend is zero too. *)
Theorem truediv_cases (a : Money) :
  (forall b, code (currency a) = code (currency b) ->
   Money.__truediv__ a (VMoney b) =
     (q ← Decimal_truediv (amount a) (amount b); Ok (VDecimal q))) /\
  (forall b, code (currency a) <> code (currency b) ->
   Money.__truediv__ a (VMoney b) =
     Raise (TypeError "Cannot divide two different currencies.")) /\
  (forall z,
   Money.__truediv__ a (VInt z) =
     (q ← Decimal_truediv (amount a) (Decimal_of_int z);
      Ok (VMoney (mkMoney q (currency a))))) /\
  (forall d,
   Money.__truediv__ a (VDecimal d) =
     (q ← Decimal_truediv (amount a) d;
      Ok (VMoney (mkMoney q (currency a))))) /\
  (forall v,
   Money.__rtruediv__ a v =
     Raise (TypeError "Cannot divide non-Money by a Money instance.")) /\
  (forall y,
   (d_int y = 0%N ->
    Decimal_truediv (amount a) y
    = Raise (if is_zero (amount a) then InvalidOperation else DivisionByZero)) /\
   (d_int y <> 0%N ->
    (exists q, Decimal_truediv (amount a) y = Ok q) \/
    Decimal_truediv (amount a) y = Raise Overflow)).
Proof.
  split; [| split; [| split; [| split; [| split]]]].
  - intros b Hc. apply Currency_eq_true in Hc.
    unfold Money.__truediv__, Currency.__ne__. now rewrite Hc.
  - intros b Hc. apply Currency_eq_false in Hc.
    unfold Money.__truediv__, Currency.__ne__. now rewrite Hc.
  - reflexivity.
  - reflexivity.
  - reflexivity.
  - intros y. apply truediv_outcome.
Qed.

(** 7.50 USD divided by 2.50 USD is the Decimal 3, by 1 EUR it is an
    error, by the int 2 it is 3.75 USD; 2 divided by 7.50 USD is an
    error. *)
Lemma truediv_cases_witness :
  let a := mkMoney (mkDecimal false 750 (-2)) USD in
  let b := mkMoney (mkDecimal false 250 (-2)) USD in
  let e := mkMoney (Decimal_of_int 1) EUR in
  Money.__truediv__ a (VMoney b) = Ok (VDecimal (mkDecimal false 3 0)) /\
  Money.__truediv__ a (VMoney e) =
    Raise (TypeError "Cannot divide two different currencies.") /\
  Money.__truediv__ a (VInt 2) =
    Ok (VMoney (mkMoney (mkDecimal false 375 (-2)) USD)) /\
  Money.__rtruediv__ a (VInt 2) =
    Raise (TypeError "Cannot divide non-Money by a Money instance.").
Proof.
  intros a b e.
  destruct (truediv_cases a) as (Hsame & Hdiff & Hint & _ & Hr & _).
  split; [| split; [| split]].
  - rewrite (Hsame b eq_refl). vm_compute. reflexivity.
  - apply (Hdiff e). discriminate.
  - rewrite (Hint 2). vm_compute. reflexivity.
  - apply Hr.
Defined.

(** ** Ordering *)

(** C5.  For [<], [>], [<=] and [>=] on a Money [a]: an operand that is not
    a Money raises MoneyComparisonError with that operand stored in it; a
    Money with another currency code raises the TypeError for different
    currencies (the spec's CurrencyMismatch); a Money with the same code
    gives the corresponding comparison of the two amounts. *)
Theorem ordering_cases (a : Money) (b : value) :
  (isinstance_Money b = false ->
   Money.__lt__ a b = Raise (MoneyComparisonError b) /\
   Money.__gt__ a b = Raise (MoneyComparisonError b) /\
   Money.__le__ a b = Raise (MoneyComparisonError b) /\
   Money.__ge__ a b = Raise (MoneyComparisonError b)) /\
  (forall m, b = VMoney m -> code (currency a) <> code (currency m) ->
   let e := TypeError "Cannot compare Money with different currencies." in
   Money.__lt__ a b = Raise e /\ Money.__gt__ a b = Raise e /\
   Money.__le__ a b = Raise e /\ Money.__ge__ a b = Raise e) /\
  (forall m, b = VMoney m -> code (currency a) = code (currency m) ->
   Money.__lt__ a b = Ok (Decimal_lt (amount a) (amount m)) /\
   Money.__gt__ a b = Ok (Decimal_gt (amount a) (amount m)) /\
   Money.__le__ a b = Ok (Decimal_le (amount a) (amount m)) /\
   Money.__ge__ a b = Ok (Decimal_ge (amount a) (amount m))).
Proof.
  split; [| split].
  - intros Hb. unfold Money.__le__, Money.__ge__.
    destruct b; try discriminate; repeat split; reflexivity.
  - intros m -> Hc e. apply Currency_eq_false in Hc.
    unfold Money.__le__, Money.__ge__, Money.__lt__, Money.__gt__.
    rewrite Hc. repeat split; reflexivity.
  - intros m -> Hc. apply Currency_eq_true in Hc.
    unfold Money.__le__, Money.__ge__, Money.__lt__, Money.__gt__.
    rewrite Hc. simpl. rewrite Hc, andb_true_r.
    rewrite Decimal_le_lt_eq, Decimal_ge_gt_eq.
    split; [reflexivity |]. split; [reflexivity |].
    split.
    + now destruct (Decimal_lt (amount a) (amount m)).
    + now destruct (Decimal_gt (amount a) (amount m)).
Qed.

(** 1.50 USD against the int 2, against 1 EUR and against 2.25 USD. *)
Lemma ordering_cases_witness :
  let a := mkMoney (mkDecimal false 150 (-2)) USD in
  let b := mkMoney (mkDecimal false 225 (-2)) USD in
  let e := mkMoney (Decimal_of_int 1) EUR in
  Money.__lt__ a (VInt 2) = Raise (MoneyComparisonError (VInt 2)) /\
  Money.__ge__ a (VMoney e) =
    Raise (TypeError "Cannot compare Money with different currencies.") /\
  Money.__lt__ a (VMoney b) = Ok true /\
  Money.__ge__ a (VMoney b) = Ok false.
Proof.
  intros a b e. split; [| split; [| split]].
  - apply (proj1 (ordering_cases a (VInt 2))). reflexivity.
  - apply (proj1 (proj2 (ordering_cases a (VMoney e))) e eq_refl). discriminate.
  - rewrite (proj1 (proj2 (proj2 (ordering_cases a (VMoney b))) b eq_refl eq_refl)).
    reflexivity.
  - pose proof (proj2 (proj2 (ordering_cases a (VMoney b))) b eq_refl eq_refl)
      as (_ & _ & _ & Hge).
    rewrite Hge. reflexivity.
Defined.

(** ** Percentage *)

(** C6.  [s % m], which Python resolves to [m.__rmod__(s)]: for an int or a
    Decimal [s] the result is the Money of [s * m.amount / 100] (the
    decimal product, then the decimal quotient by 100) in the currency of
    [m]; when the product is representable, two exponents above the bottom
    of the range, nothing is rounded and the hundredfold of the new amount
    is exactly [s] times the amount of [m];
    [5 % Money(200, "USD") == Money(10, "USD")] is True; and a Money as the
    left operand raises a TypeError (the spec's InvalidOperand). *)
Theorem rmod_cases (m : Money) :
  (forall z,
   Money.__rmod__ m (VInt z) =
     (p ← Decimal_mul (Decimal_of_int z) (amount m);
      q ← Decimal_truediv p (Decimal_of_int 100);
      Ok (mkMoney q (currency m)))) /\
  (forall d,
   Money.__rmod__ m (VDecimal d) =
     (p ← Decimal_mul d (amount m);
      q ← Decimal_truediv p (Decimal_of_int 100);
      Ok (mkMoney q (currency m)))) /\
  (forall s d,
   s = VInt (sint d) /\ d = Decimal_of_int (sint d) \/ s = VDecimal d ->
   representable (exact_product d (amount m)) ->
   Etiny + 2 <= d_exp d + d_exp (amount m) ->
   exists r,
     Money.__rmod__ m s = Ok r /\ currency r = currency m /\
     d_exp d + d_exp (amount m) - 2 <= d_exp (amount r) /\
     sint (amount r) * 10 ^ (d_exp (amount r) - (d_exp d + d_exp (amount m) - 2))
     = sint d * sint (amount m)) /\
  (m200 ← Money.__init__ REGISTRY (VInt 200) (inr "USD");
   m10 ← Money.__init__ REGISTRY (VInt 10) (inr "USD");
   r ← Money.__rmod__ m200 (VInt 5);
   Ok (Money.__eq__ r (VMoney m10))) = Ok true /\
  (forall o,
   Money.__rmod__ m (VMoney o) = Raise (TypeError "Invalid __rmod__ operation")).
Proof.
  split; [| split; [| split; [| split]]].
  - reflexivity.
  - reflexivity.
  - intros s d Hs Hp He.
    destruct (percent_exact d (amount m) Hp He) as (q & Hq & Hexp & Hval).
    exists (mkMoney q (currency m)).
    assert (Hconv : Decimal_of_str s = Ok d /\ isinstance_Money s = false).
    { destruct Hs as [[-> Hd] | ->]; [| now split].
      split; [| reflexivity]. cbn [Decimal_of_str]. now rewrite <- Hd. }
    destruct Hconv as [Hconv Hm].
    unfold Money.__rmod__. rewrite Hm, Hconv, bind_Ok.
    unfold mbind in Hq |- *. unfold result_bind in Hq |- *.
    destruct (Decimal_mul d (amount m)) as [p | e]; [| discriminate].
    rewrite Hq. repeat split; assumption.
  - vm_compute. reflexivity.
  - reflexivity.
Qed.

(** 5 percent of 200 USD: the product 1000 is exact, and 100 times the
    resulting 10 is 5 times 200. *)
Lemma rmod_cases_witness :
  let m := mkMoney (Decimal_of_int 200) USD in
  exists r,
    Money.__rmod__ m (VInt 5) = Ok r /\ currency r = USD /\
    sint (amount r) * 10 ^ (d_exp (amount r) - (0 + 0 - 2)) = 5 * 200.
Proof.
  intros m.
  destruct (proj1 (proj2 (proj2 (rmod_cases m))) (VInt 5) (Decimal_of_int 5))
    as (r & Hr & Hc & _ & Hv).
  - left. split; reflexivity.
  - reflexivity.
  - vm_compute. discriminate.
  - exists r. split; [exact Hr |]. split; [exact Hc |]. exact Hv.
Defined.

(** ** Rounding of Money *)

(** C7: one digit too many.  Rounding 1 USD to 28 fractional digits would
    need 29 digits, and [quantize] raises InvalidOperation. *)
Lemma round_too_many_digits :
  Money.round (mkMoney (Decimal_of_int 1) USD) (Some 28) = Raise InvalidOperation.
Proof. vm_compute. reflexivity. Qed.

(** C7, amended.  [m.round(ndigits)] is the Money, in the currency of [m],
    of [m.amount.quantize(Decimal('1e' + str(-ndigits)))]; [ndigits]
    defaults to 0; the call either raises InvalidOperation (the result
    would have more than 28 digits, or an exponent out of range) or
    returns; and what it returns has the exponent [-ndigits], the sign of
    the amount, and as coefficient the amount padded with zeros or, when
    digits are dropped, the nearest multiple of the unit, the even one on a
    tie (ROUND_HALF_EVEN), for negative [ndigits] as well.  So
    [Money("1.005", "USD").round(2)], whose amount [Decimal('1.005')] is the
    triple (0, 1005, -3), has the amount 1.00, and 1250 rounded to -2
    digits is 1.2E+3. *)
Theorem round_quantizes (m : Money) (ndigits : Z) :
  Money.round m (Some ndigits) =
    (a ← Decimal_quantize (amount m) (mkDecimal false 1 (- ndigits));
     Ok (mkMoney a (currency m))) /\
  Money.round m None = Money.round m (Some 0) /\
  (Money.round m (Some ndigits) = Raise InvalidOperation \/
   exists r, Money.round m (Some ndigits) = Ok r) /\
  (forall r, Money.round m (Some ndigits) = Ok r ->
   currency r = currency m /\
   d_exp (amount r) = - ndigits /\
   d_sign (amount r) = d_sign (amount m) /\
   (- ndigits <= d_exp (amount m) ->
    Z.of_N (d_int (amount r))
    = Z.of_N (d_int (amount m)) * 10 ^ (d_exp (amount m) + ndigits)) /\
   (d_exp (amount m) < - ndigits ->
    let unit := 10 ^ (- ndigits - d_exp (amount m)) in
    let err := Z.of_N (d_int (amount m)) - Z.of_N (d_int (amount r)) * unit in
    2 * Z.abs err <= unit /\
    (2 * Z.abs err = unit -> N.even (d_int (amount r)) = true))) /\
  Money.round (mkMoney (mkDecimal false 1005 (-3)) USD) (Some 2)
  = Ok (mkMoney (mkDecimal false 100 (-2)) USD) /\
  Money.round (mkMoney (mkDecimal false 1250 0) USD) (Some (-2))
  = Ok (mkMoney (mkDecimal false 12 2) USD).
Proof.
  split; [reflexivity |]. split; [reflexivity |].
  split; [| split; [| split; reflexivity]].
  - unfold Money.round.
    destruct (quantize_outcome (amount m) (mkDecimal false 1 (- ndigits)))
      as [H | H]; rewrite H; [now left | right; eexists; reflexivity].
  - intros r. unfold Money.round.
    destruct (quantize_outcome (amount m) (mkDecimal false 1 (- ndigits)))
      as [H | H]; rewrite H; [discriminate |].
    rewrite bind_Ok. intros [= <-]. cbn [Money.new amount currency d_exp].
    split; [reflexivity |].
    destruct (is_zero (amount m)) eqn:Hz.
    + assert (H0 : d_int (amount m) = 0%N).
      { unfold is_zero in Hz. now destruct (N.eqb_spec (d_int (amount m)) 0). }
      cbn [d_exp d_sign d_int]. rewrite H0.
      split; [reflexivity |]. split; [reflexivity |]. split; [reflexivity |].
      intros Hlt. cbn zeta. rewrite Z.mul_0_l, Z.sub_0_r. simpl Z.abs.
      assert (0 < 10 ^ (- ndigits - d_exp (amount m))) by (apply pow10_pos; lia).
      split; [lia | lia].
    + assert (Hnz : d_int (amount m) <> 0%N).
      { unfold is_zero in Hz. now destruct (N.eqb_spec (d_int (amount m)) 0). }
      destruct (rescale_half_even (amount m) (- ndigits) Hnz)
        as (He & Hs & Hpad & Hcut).
      split; [exact He |]. split; [exact Hs |]. split.
      * intros Hle. rewrite (Hpad Hle). do 2 f_equal. lia.
      * intros Hlt. exact (Hcut Hlt).
Qed.

(** 2.675 USD rounded to 2 digits: the tie goes to the even 2.68. *)
Lemma round_quantizes_witness :
  let m := mkMoney (mkDecimal false 2675 (-3)) USD in
  let r := mkMoney (mkDecimal false 268 (-2)) USD in
  Money.round m (Some 2) = Ok r /\
  currency r = currency m /\ d_exp (amount r) = - 2 /\
  N.even (d_int (amount r)) = true.
Proof.
  intros m r.
  assert (E : Money.round m (Some 2) = Ok r) by reflexivity.
  destruct (round_quantizes m 2) as (_ & _ & _ & Hprop & _).
  destruct (Hprop r E) as (Hc & He & _ & _ & Hcut).
  split; [exact E |]. split; [exact Hc |]. split; [exact He |].
  apply Hcut; reflexivity.
Defined.

(** ** Equality and hashing *)

(** C8.  Two Money values are equal exactly when their amounts are equal
    decimals and their currencies have the same code; [Money(0, "USD") ==
    Money(0, "EUR")] is False and [!=] on them is True; and two equal Money
    values have the same hash, whatever the interpreter's hashes of strings
    and tuples are. *)
Theorem eq_and_hash `{BuiltinHash} (a b : Money) :
  (Money.__eq__ a (VMoney b) = true <->
   Decimal_eq (amount a) (amount b) = true /\
   code (currency a) = code (currency b)) /\
  (u ← Money.__init__ REGISTRY (VInt 0) (inr "USD");
   e ← Money.__init__ REGISTRY (VInt 0) (inr "EUR");
   Ok (Money.__eq__ u (VMoney e), Money.__ne__ u (VMoney e)))
  = Ok (false, true) /\
  (Money.__eq__ a (VMoney b) = true -> Money.__hash__ a = Money.__hash__ b).
Proof.
  split; [| split].
  - simpl. rewrite andb_true_iff, Currency_eq_true. reflexivity.
  - vm_compute. reflexivity.
  - simpl. rewrite andb_true_iff, Currency_eq_true. intros [Ha Hc].
    unfold Money.__hash__, Currency.__hash__.
    now rewrite (Decimal_hash_eq _ _ Ha), Hc.
Qed.

(** 1.0 USD and 1.00 USD, built from two distinct Currency objects with the
    code USD, are equal and hash alike. *)
Lemma eq_and_hash_witness :
  let a := mkMoney (mkDecimal false 10 (-1)) USD in
  let b := mkMoney (mkDecimal false 100 (-2))
                   (mkCurrency "USD" None (Some "US Dollar") None) in
  Money.__eq__ a (VMoney b) = true /\
  @Money.__hash__ example_hash a = @Money.__hash__ example_hash b.
Proof.
  intros a b.
  assert (E : Money.__eq__ a (VMoney b) = true).
  { apply (proj1 (@eq_and_hash example_hash a b)). split; reflexivity. }
  split; [exact E |].
  exact (proj2 (proj2 (@eq_and_hash example_hash a b)) E).
Defined.

(** C10.  Against an operand that is not a Money, [==] is False and [!=]
    is True; [__eq__] and [__ne__] return booleans and raise nothing. *)
Theorem eq_non_money (m : Money) (v : value) :
  isinstance_Money v = false ->
  Money.__eq__ m v = false /\ Money.__ne__ m v = true.
Proof.
  intros Hv. unfold Money.__ne__.
  destruct v; try discriminate; split; reflexivity.
Qed.

Lemma eq_non_money_witness :
  let m := mkMoney (Decimal_of_int 5) USD in
  Money.__eq__ m (VInt 5) = false /\ Money.__ne__ m (VInt 5) = true.
Proof.
  intros m. apply (eq_non_money m (VInt 5)). reflexivity.
Defined.

(** ** Registry lookups *)

Lemma register_all_code (calls : list (string * option string * option string
                                       * option (list string)))
    (r : registry) :
  (forall k c, CURRENCIES r !! k = Some c -> code c = k) ->
  forall k c, CURRENCIES (register_all calls r) !! k = Some c -> code c = k.
Proof.
  revert r. induction calls as [ | [[[cd nm] na] cs] calls IH]; intros r Hr.
  - exact Hr.
  - apply IH. intros k c. simpl.
    destruct (decide (cd = k)) as [-> | Hne].
    + rewrite lookup_insert_eq. now intros [= <-].
    + rewrite lookup_insert_ne by exact Hne. apply Hr.
Qed.

(** A lookup by the code of a registered currency returns that currency,
    whose code is the key. *)
Lemma get_currency_registered (k : string) (c : Currency) :
  CURRENCIES REGISTRY !! k = Some c ->
  get_currency REGISTRY (Some k) None = Ok c /\ code c = k.
Proof.
  intros Hk. split.
  - unfold get_currency, truthy. now rewrite Hk.
  - revert Hk. unfold REGISTRY. apply register_all_code.
    intros k' c'. unfold CURRENCIES. now rewrite lookup_empty.
Qed.

(** A lookup by a code that is not registered fails, and the message names
    the code. *)
Lemma get_currency_unknown_code (r : registry) (k : string) :
  CURRENCIES r !! k = None ->
  get_currency r (Some k) None =
    Raise (CurrencyDoesNotExist ("No currency with code " +:+ k +:+ " is defined.")).
Proof. intros Hk. unfold get_currency, truthy. now rewrite Hk. Qed.

Lemma get_currency_examples :
  get_currency REGISTRY None (Some "840") = Ok USD /\
  get_currency REGISTRY (Some "USD") None = Ok USD /\
  get_currency REGISTRY (Some "ZZZ") None =
    Raise (CurrencyDoesNotExist "No currency with code ZZZ is defined.").
Proof. vm_compute. repeat split. Qed.

(** C9.  The lookup by a numeric that is not registered raises
    CurrencyDoesNotExist, but the error is built from [code], which is None
    in such a call: the message names None, not the queried numeric.  With
    a code passed along, the message names that code, which is
    registered. *)
Theorem get_currency_unknown_numeric :
  get_currency REGISTRY None (Some "000") =
    Raise (CurrencyDoesNotExist "No currency with code None is defined.") /\
  get_currency REGISTRY (Some "USD") (Some "000") =
    Raise (CurrencyDoesNotExist "No currency with code USD is defined.").
Proof. vm_compute. split; reflexivity. Qed.

(** * Further properties of the module *)

(** ** Results of decimal operations *)

Lemma div_pow_lt (c n : N) (p : Z) :
  0 <= p -> Z.of_N c < 10 ^ (Z.of_N n + p) -> Z.of_N (c / 10 ^ n) < 10 ^ p.
Proof.
  intros Hp Hc. rewrite N2Z.inj_div, N2Z.inj_pow. simpl Z.of_N.
  assert (0 < 10 ^ Z.of_N n) by (apply pow10_pos; lia).
  apply Z.div_lt_upper_bound; [assumption |].
  now rewrite <- Z.pow_add_r by lia.
Qed.

(** Whatever [_fix] returns is representable: rounding a second time
    changes nothing. *)
Lemma fix_representable (d q : Decimal) : _fix d = Ok q -> representable q.
Proof.
  intros H. apply representable_iff. revert H. unfold _fix.
  destruct (is_zero d) eqn:Hz.
  - intros [= <-]. unfold is_zero, Etiny, Emax, Emin, prec. cbn. lia.
  - unfold is_zero in Hz. apply N.eqb_neq in Hz.
    pose proof (len_int_pos (d_int d)) as Hl.
    pose proof (len_int_upper (d_int d)) as Hu.
    unfold adjusted, Etop, Etiny, Emax, Emin, prec.
    set (L := len_int (d_int d)) in *.
    destruct (Z.ltb_spec (999999 - 28 + 1) (L + d_exp d - 28)); [discriminate |].
    set (exp_min := if L + d_exp d - 28 <? -999999 - 28 + 1
                    then -999999 - 28 + 1 else L + d_exp d - 28).
    assert (Hem : -999999 - 28 + 1 <= exp_min /\ L + d_exp d - 28 <= exp_min
                  /\ exp_min <= 999999 - 28 + 1).
    { unfold exp_min.
      destruct (Z.ltb_spec (L + d_exp d - 28) (-999999 - 28 + 1)); lia. }
    clearbody exp_min.
    destruct (Z.ltb_spec (d_exp d) exp_min) as [Hround | Hkeep].
    + set (digits := L + d_exp d - exp_min).
      set (c := if digits <? 0 then 1%N else d_int d).
      set (digits' := if digits <? 0 then 0 else digits).
      set (n := Z.to_N (len_int c - digits')).
      assert (Hcoeff : Z.of_N (c / 10 ^ n) < 10 ^ digits' /\ 0 <= digits' <= 28).
      { unfold n, c, digits'.
        destruct (Z.ltb_spec digits 0) as [Hneg | Hpos].
        - split; [reflexivity | lia].
        - fold L. split; [| unfold digits in *; lia].
          apply div_pow_lt; [lia |].
          replace (Z.of_N (Z.to_N (L - digits)) + digits) with L
            by (unfold digits in *; lia).
          exact Hu. }
      destruct Hcoeff as [Hcoeff Hdig].
      set (coeff := (c / 10 ^ n)%N) in *.
      assert (Hpow : 10 ^ digits' <= 10 ^ 28) by (apply Z.pow_le_mono_r; lia).
      destruct (0 <? _round_half_even c n) eqn:Hch; cbn [andb].
      * destruct (Z.ltb_spec 28 (len_int (coeff + 1))) as [Hcarry | Hfit].
        -- destruct (Z.ltb_spec (999999 - 28 + 1) (exp_min + 1)); [discriminate |].
           intros [= <-]. unfold is_zero. cbn [d_int d_exp].
           assert (Hq : Z.of_N ((coeff + 1) / 10) < 10 ^ 28).
           { rewrite N2Z.inj_div. simpl Z.of_N.
             apply Z.div_lt_upper_bound; [lia |]. lia. }
           pose proof (len_int_le ((coeff + 1) / 10) 28 ltac:(lia) Hq).
           pose proof (len_int_pos ((coeff + 1) / 10)).
           destruct (_ =? 0)%N; lia.
        -- destruct (Z.ltb_spec (999999 - 28 + 1) exp_min); [discriminate |].
           intros [= <-]. unfold is_zero. cbn [d_int d_exp].
           pose proof (len_int_pos (coeff + 1)).
           destruct (_ =? 0)%N; lia.
      * destruct (Z.ltb_spec (999999 - 28 + 1) exp_min); [discriminate |].
        intros [= <-]. unfold is_zero. cbn [d_int d_exp].
        assert (Hq : Z.of_N coeff < 10 ^ 28) by lia.
        pose proof (len_int_le coeff 28 ltac:(lia) Hq).
        pose proof (len_int_pos coeff).
        destruct (_ =? 0)%N; lia.
    + intros [= <-]. unfold is_zero.
      destruct (N.eqb_spec (d_int d) 0); [contradiction |].
      fold L. lia.
Qed.

Lemma compare_scale (x y p : Z) : 0 < p -> (x * p ?= y * p) = (x ?= y).
Proof.
  intros Hp. destruct (Z.compare_spec x y) as [-> | H | H].
  - apply Z.compare_refl.
  - apply Z.compare_lt_iff. nia.
  - apply Z.compare_gt_iff. nia.
Qed.

(** Both decimals at any exponent below theirs compare as [_cmp] says. *)
Lemma cmp_at_scale (a b : Decimal) (k : Z) :
  k <= d_exp a -> k <= d_exp b ->
  _cmp a b = (sint a * 10 ^ (d_exp a - k) ?= sint b * 10 ^ (d_exp b - k)).
Proof.
  intros Ha Hb. unfold _cmp.
  set (m := Z.min (d_exp a) (d_exp b)).
  assert (Hm : k <= m) by lia.
  replace (d_exp a - k) with ((d_exp a - m) + (m - k)) by lia.
  replace (d_exp b - k) with ((d_exp b - m) + (m - k)) by lia.
  rewrite !Z.pow_add_r, !Z.mul_assoc by lia.
  symmetry. apply compare_scale. apply pow10_pos. lia.
Qed.

Lemma cmp_antisym (a b : Decimal) : _cmp b a = CompOpp (_cmp a b).
Proof.
  unfold _cmp. rewrite (Z.min_comm (d_exp b)). apply Z.compare_antisym.
Qed.

Lemma Decimal_eq_trans (a b c : Decimal) :
  Decimal_eq a b = true -> Decimal_eq b c = true -> Decimal_eq a c = true.
Proof.
  set (k := Z.min (d_exp a) (Z.min (d_exp b) (d_exp c))).
  unfold Decimal_eq.
  rewrite (cmp_at_scale a b k), (cmp_at_scale b c k), (cmp_at_scale a c k) by lia.
  destruct (Z.compare_spec (sint a * 10 ^ (d_exp a - k)) (sint b * 10 ^ (d_exp b - k)));
    try discriminate.
  destruct (Z.compare_spec (sint b * 10 ^ (d_exp b - k)) (sint c * 10 ^ (d_exp c - k)));
    try discriminate.
  intros _ _. replace (_ ?= _) with Eq; [reflexivity |].
  symmetry. apply Z.compare_eq_iff. congruence.
Qed.

Lemma Decimal_lt_trans (a b c : Decimal) :
  Decimal_lt a b = true -> Decimal_lt b c = true -> Decimal_lt a c = true.
Proof.
  set (k := Z.min (d_exp a) (Z.min (d_exp b) (d_exp c))).
  unfold Decimal_lt.
  rewrite (cmp_at_scale a b k), (cmp_at_scale b c k), (cmp_at_scale a c k) by lia.
  destruct (Z.compare_spec (sint a * 10 ^ (d_exp a - k)) (sint b * 10 ^ (d_exp b - k)));
    try discriminate.
  destruct (Z.compare_spec (sint b * 10 ^ (d_exp b - k)) (sint c * 10 ^ (d_exp c - k)));
    try discriminate.
  intros _ _. replace (_ ?= _) with Lt; [reflexivity |].
  symmetry. apply Z.compare_lt_iff. lia.
Qed.

(** A decimal is equal to a zero exactly when its coefficient is 0. *)
Lemma Decimal_eq_zero_iff (a z : Decimal) :
  d_int z = 0%N -> (Decimal_eq a z = true <-> d_int a = 0%N).
Proof.
  intros Hz. unfold Decimal_eq, _cmp.
  assert (Hsz : sint z = 0) by (unfold sint; rewrite Hz; now destruct (d_sign z)).
  rewrite Hsz, Z.mul_0_l.
  assert (HP : 0 < 10 ^ (d_exp a - Z.min (d_exp a) (d_exp z)))
    by (apply pow10_pos; lia).
  destruct (Z.compare_spec (sint a * 10 ^ (d_exp a - Z.min (d_exp a) (d_exp z))) 0)
    as [E | E | E]; (split; [intros H | intros H]); try discriminate;
    try reflexivity; destruct (sint_cases a) as [Ea | Ea]; rewrite Ea in E; nia.
Qed.

Lemma Decimal_neg_representable (d q : Decimal) :
  Decimal_neg d = Ok q -> representable q.
Proof. unfold Decimal_neg. destruct (is_zero d); apply fix_representable. Qed.

Lemma Decimal_abs_representable (d q : Decimal) :
  Decimal_abs d = Ok q -> representable q.
Proof.
  unfold Decimal_abs, Decimal_pos. destruct (d_sign d).
  - apply Decimal_neg_representable.
  - destruct (is_zero d); apply fix_representable.
Qed.

Lemma Decimal_truediv_representable (a b q : Decimal) :
  Decimal_truediv a b = Ok q -> representable q.
Proof.
  unfold Decimal_truediv. destruct (is_zero b).
  - destruct (is_zero a); discriminate.
  - destruct (is_zero a); [apply fix_representable |].
    destruct (negb _); [apply fix_representable |].
    destruct (strip_zeros _ _ _ _). apply fix_representable.
Qed.

Lemma Decimal_quantize_representable (d e q : Decimal) :
  Decimal_quantize d e = Ok q -> representable q.
Proof.
  unfold Decimal_quantize. destruct (negb _); [discriminate |].
  destruct (is_zero d); [apply fix_representable |].
  repeat (destruct (_ <? _); [discriminate |]). apply fix_representable.
Qed.

Lemma bind_Ok_inv {A B : Type} (r : result A) (k : A -> result B) (b : B) :
  (r ≫= k) = Ok b -> exists a, r = Ok a /\ k a = Ok b.
Proof. destruct r as [a | e]; [| discriminate]. intros H. now exists a. Qed.

(** ** What arithmetic returns *)

(** Every Money that negation, the absolute value, the sum with a Money,
    the product, the quotient by a scalar, a percentage or [round] returns
    has a representable amount: at most 28 digits, whatever the operands
    had.  ([m + 0] and [+m] return the amount of [m] as it is.) *)
Theorem arithmetic_results_representable (m r : Money) (v : value) :
  (Money.__neg__ m = Ok r -> representable (amount r)) /\
  (Money.__abs__ m = Ok r -> representable (amount r)) /\
  (isinstance_Money v = true -> Money.__add__ m v = Ok r ->
   representable (amount r)) /\
  (isinstance_Money v = true -> Money.__sub__ m v = Ok r ->
   representable (amount r)) /\
  (Money.__mul__ m v = Ok r -> representable (amount r)) /\
  (Money.__truediv__ m v = Ok (VMoney r) -> representable (amount r)) /\
  (forall q, Money.__truediv__ m v = Ok (VDecimal q) -> representable q) /\
  (Money.__rmod__ m v = Ok r -> representable (amount r)) /\
  (forall n, Money.round m n = Ok r -> representable (amount r)).
Proof.
  assert (Hadd : forall a o x, Money.__add__ a (VMoney o) = Ok x ->
                               representable (amount x)).
  { intros a o x. unfold Money.__add__. cbn [Money.eq_0 Money.__eq__].
    destruct (Currency.__eq__ _ _); [| discriminate].
    intros H. apply bind_Ok_inv in H as (s & Hs & [= <-]).
    exact (fix_representable _ _ Hs). }
  split; [| split; [| split; [| split; [| split; [| split; [| split; [| split]]]]]]].
  - unfold Money.__neg__. intros H. apply bind_Ok_inv in H as (a & Ha & [= <-]).
    exact (Decimal_neg_representable _ _ Ha).
  - unfold Money.__abs__. intros H. apply bind_Ok_inv in H as (a & Ha & [= <-]).
    exact (Decimal_abs_representable _ _ Ha).
  - destruct v; try discriminate. intros _. apply Hadd.
  - destruct v as [ | | | | o]; try discriminate. intros _.
    unfold Money.__sub__. intros H. apply bind_Ok_inv in H as (x & Hx & H).
    cbn [Money.neg_value] in Hx. apply bind_Ok_inv in Hx as (o' & _ & [= <-]).
    exact (Hadd _ _ _ H).
  - unfold Money.__mul__. destruct (isinstance_Money v); [discriminate |].
    intros H. apply bind_Ok_inv in H as (d & _ & H).
    apply bind_Ok_inv in H as (a & Ha & [= <-]).
    exact (fix_representable _ _ Ha).
  - unfold Money.__truediv__. destruct v as [ | b | z | d | o].
    + discriminate.
    + discriminate.
    + cbn [force_decimal Decimal_of_str]. rewrite bind_Ok. intros H.
      apply bind_Ok_inv in H as (a & Ha & [= <-]).
      exact (Decimal_truediv_representable _ _ _ Ha).
    + cbn [force_decimal]. rewrite bind_Ok. intros H.
      apply bind_Ok_inv in H as (a & Ha & [= <-]).
      exact (Decimal_truediv_representable _ _ _ Ha).
    + destruct (Currency.__ne__ _ _); [discriminate |]. intros H.
      apply bind_Ok_inv in H as (a & _ & [=]).
  - intros q. unfold Money.__truediv__. destruct v as [ | b | z | d | o].
    + discriminate.
    + discriminate.
    + cbn [force_decimal Decimal_of_str]. rewrite bind_Ok. intros H.
      apply bind_Ok_inv in H as (a & _ & [=]).
    + cbn [force_decimal]. rewrite bind_Ok. intros H.
      apply bind_Ok_inv in H as (a & _ & [=]).
    + destruct (Currency.__ne__ _ _); [discriminate |]. intros H.
      apply bind_Ok_inv in H as (a & Ha & [= <-]).
      exact (Decimal_truediv_representable _ _ _ Ha).
  - unfold Money.__rmod__. destruct (isinstance_Money v); [discriminate |].
    intros H. apply bind_Ok_inv in H as (d & _ & H).
    apply bind_Ok_inv in H as (p & _ & H).
    apply bind_Ok_inv in H as (a & Ha & [= <-]).
    exact (Decimal_truediv_representable _ _ _ Ha).
  - intros n. unfold Money.round. intros H.
    apply bind_Ok_inv in H as (a & Ha & [= <-]).
    exact (Decimal_quantize_representable _ _ _ Ha).
Qed.

(** A 30-digit amount times 1 comes back with 28 digits. *)
Lemma arithmetic_results_representable_witness :
  let m := mkMoney (mkDecimal false 123456789012345678901234567890 0) USD in
  let r := mkMoney (mkDecimal false 1234567890123456789012345679 2) USD in
  Money.__mul__ m (VInt 1) = Ok r /\ representable (amount r).
Proof.
  intros m r.
  assert (E : Money.__mul__ m (VInt 1) = Ok r) by (vm_compute; reflexivity).
  split; [exact E |].
  exact (proj1 (proj2 (proj2 (proj2 (proj2
           (arithmetic_results_representable m r (VInt 1)))))) E).
Defined.

(** ** Differences and zeros *)

Lemma sint_zero_iff (d : Decimal) : sint d = 0 <-> d_int d = 0%N.
Proof. unfold sint. destruct (d_sign d); lia. Qed.

(** Rounding keeps the sign. *)
Lemma fix_sign (d q : Decimal) : _fix d = Ok q -> d_sign q = d_sign d.
Proof.
  unfold _fix. destruct (is_zero d); [now intros [= <-] |].
  repeat match goal with
         | |- context [if ?b then Raise _ else _] => destruct b; [discriminate |]
         | |- (if ?b then _ else _) = _ -> _ => destruct b
         end; now intros [= <-].
Qed.

(** Rounding a non-zero decimal whose exponent is not below [Etiny] never
    gives a zero: only digits beyond the 28th are dropped. *)
Lemma fix_nonzero_result (d q : Decimal) :
  d_int d <> 0%N -> Etiny <= d_exp d -> _fix d = Ok q -> d_int q <> 0%N.
Proof.
  intros Hz He. unfold _fix, is_zero.
  destruct (N.eqb_spec (d_int d) 0) as [| _]; [contradiction |].
  pose proof (len_int_bounds (d_int d) ltac:(lia)) as [Hlo _].
  revert He. unfold Etop, Etiny, Emax, Emin, prec. intros He.
  set (L := len_int (d_int d)) in *.
  destruct (Z.ltb_spec (999999 - 28 + 1) (L + d_exp d - 28)); [discriminate |].
  destruct (Z.ltb_spec (L + d_exp d - 28) (-999999 - 28 + 1)) as [Hsub | Hnorm].
  { destruct (Z.ltb_spec (d_exp d) (-999999 - 28 + 1)); [lia |].
    now intros [= <-]. }
  destruct (Z.ltb_spec (d_exp d) (L + d_exp d - 28)) as [Hround | Hkeep];
    [| now intros [= <-]].
  replace (L + d_exp d - (L + d_exp d - 28)) with 28 by lia.
  cbn [Z.ltb Z.compare]. fold L.
  set (n := Z.to_N (L - 28)).
  assert (Hq : 10 ^ 27 <= Z.of_N (d_int d / 10 ^ n)).
  { rewrite N2Z.inj_div, N2Z.inj_pow. simpl Z.of_N.
    apply Z.div_le_lower_bound; [apply pow10_pos; lia |].
    rewrite <- Z.pow_add_r by lia.
    replace (Z.of_N n + 27) with (L - 1) by (unfold n; lia). exact Hlo. }
  set (coeff := (d_int d / 10 ^ n)%N) in *. clearbody coeff.
  assert (H27 : 10 ^ 27 = 1000000000000000000000000000) by reflexivity.
  destruct (0 <? _round_half_even (d_int d) n); cbn [andb].
  - destruct (28 <? len_int (coeff + 1)).
    + destruct (_ <? _); [discriminate |]. intros [= <-]. cbn [d_int].
      assert (1 <= Z.of_N ((coeff + 1) / 10)); [| lia].
      rewrite N2Z.inj_div. simpl Z.of_N.
      apply Z.div_le_lower_bound; lia.
    + destruct (_ <? _); [discriminate |]. intros [= <-]. cbn [d_int]. lia.
  - destruct (_ <? _); [discriminate |]. intros [= <-]. cbn [d_int]. lia.
Qed.

Lemma sub_unfold (a b : Money) (n : Decimal) :
  Decimal_neg (amount b) = Ok n ->
  Money.__sub__ a (VMoney b) =
    if Currency.__eq__ (currency a) (currency b)
    then s ← _fix (exact_sum (amount a) n); Ok (Money.new s (currency a))
    else Raise (TypeError ("Cannot add or subtract two Money " +:+
                           "instances with different currencies.")).
Proof.
  intros Hn. unfold Money.__sub__, Money.neg_value, Money.__neg__.
  rewrite Hn, !bind_Ok. unfold Money.__add__.
  now rewrite eq_0_Money.
Qed.

(** The difference of two Money values of representable amounts is zero
    exactly when they are equal: whenever [a - b] returns, it is falsy if
    and only if [a == b]; and for equal operands it does return. *)
Theorem sub_zero_iff_eq (a b : Money) :
  representable (amount a) -> representable (amount b) ->
  (forall r, Money.__sub__ a (VMoney b) = Ok r ->
     (Money.__bool__ r = false <-> Money.__eq__ a (VMoney b) = true)) /\
  (Money.__eq__ a (VMoney b) = true ->
   exists r, Money.__sub__ a (VMoney b) = Ok r /\ currency r = currency a).
Proof.
  intros Ha Hb.
  destruct (Decimal_neg_exact _ Hb) as (n & Hn & Hsn & Hen).
  rewrite (sub_unfold a b n Hn).
  assert (Hsum : sint (exact_sum (amount a) n) = 0 <->
                 Decimal_eq (amount a) (amount b) = true).
  { rewrite sint_exact_sum, Hsn, Hen. unfold Decimal_eq, _cmp.
    set (x := sint (amount a) * 10 ^ _). set (y := sint (amount b) * 10 ^ _).
    destruct (Z.compare_spec x y); split; intros; try discriminate;
      try reflexivity; lia. }
  assert (Hexp : Etiny <= d_exp (exact_sum (amount a) n)).
  { cbn [exact_sum d_exp]. rewrite Hen.
    apply representable_iff in Ha, Hb.
    destruct (is_zero (amount a)), (is_zero (amount b)); lia. }
  split.
  - intros r. cbn [Money.__eq__].
    destruct (Currency.__eq__ _ _); [| discriminate].
    rewrite andb_true_r. intros H.
    apply bind_Ok_inv in H as (s & Hs & [= <-]).
    unfold Money.__bool__, Decimal_bool, is_zero, Money.new. cbn [amount].
    rewrite negb_false_iff, N.eqb_eq, <- Hsum, sint_zero_iff.
    split.
    + intros Hs0. destruct (N.eq_dec (d_int (exact_sum (amount a) n)) 0%N) as [E | E];
        [exact E |].
      now destruct (fix_nonzero_result _ _ E Hexp Hs).
    + intros E. revert Hs. unfold _fix, is_zero. rewrite E. cbn [N.eqb].
      now intros [= <-].
  - cbn [Money.__eq__]. intros [Hd Hc]%andb_true_iff. rewrite Hc.
    apply Hsum, sint_zero_iff in Hd.
    unfold _fix, is_zero. rewrite Hd. cbn [N.eqb]. rewrite bind_Ok.
    eexists. split; reflexivity.
Qed.

(** 2.50 USD and 2.5 USD are equal, and their difference returns. *)
Lemma sub_zero_iff_eq_witness :
  let a := mkMoney (mkDecimal false 250 (-2)) USD in
  let b := mkMoney (mkDecimal false 25 (-1)) USD in
  representable (amount a) /\ representable (amount b) /\
  exists r, Money.__sub__ a (VMoney b) = Ok r /\ currency r = currency a.
Proof.
  intros a b.
  assert (Ha : representable (amount a)) by reflexivity.
  assert (Hb : representable (amount b)) by reflexivity.
  split; [exact Ha |]. split; [exact Hb |].
  apply (proj2 (sub_zero_iff_eq a b Ha Hb)). reflexivity.
Defined.

(** Subtracting a zero that is not a Money returns the Money itself, and
    subtracting a Money from such a zero negates it: [m - 0] is [m] and
    [0 - m] is [-m], for the int 0, False and any zero Decimal. *)
Theorem sub_zero_operand (m : Money) (v : value) :
  Money.eq_0 v = true ->
  Money.__sub__ m v = Ok m /\ Money.__rsub__ m v = Money.__neg__ m.
Proof.
  intros Hv. split.
  - unfold Money.__sub__.
    apply eq_0_true_iff in Hv as [-> | [-> | (d & -> & Hd)]].
    + reflexivity.
    + reflexivity.
    + cbn [Money.neg_value]. unfold Decimal_neg, is_zero. rewrite Hd.
      cbn [N.eqb]. rewrite fix_zero, !bind_Ok. unfold Money.__add__.
      cbn [Money.eq_0]. now rewrite Decimal_eq_zeros.
  - unfold Money.__rsub__. destruct (Money.__neg__ m) as [s | e]; [| reflexivity].
    rewrite bind_Ok. unfold Money.__add__. now rewrite Hv.
Qed.

Lemma sub_zero_operand_witness :
  let m := mkMoney (mkDecimal false 1999 (-2)) EUR in
  let z := VDecimal (mkDecimal true 0 (-2)) in
  Money.eq_0 z = true /\
  Money.__sub__ m z = Ok m /\ Money.__rsub__ m z = Money.__neg__ m.
Proof.
  intros m z.
  assert (Hz : Money.eq_0 z = true) by reflexivity.
  split; [exact Hz |]. exact (sub_zero_operand m z Hz).
Defined.

(** A Money is falsy exactly when it is equal to a zero of its currency,
    whatever the sign and the exponent of that zero. *)
Theorem bool_iff_zero (m z : Money) :
  d_int (amount z) = 0%N -> code (currency z) = code (currency m) ->
  Money.__bool__ m = negb (Money.__eq__ m (VMoney z)).
Proof.
  intros Hz Hc. unfold Money.__bool__, Decimal_bool, is_zero.
  cbn [Money.__eq__]. f_equal.
  replace (Currency.__eq__ (currency m) (currency z)) with true
    by (symmetry; now apply Currency_eq_true).
  rewrite andb_true_r.
  pose proof (Decimal_eq_zero_iff (amount m) (amount z) Hz) as Hiff.
  destruct (N.eqb_spec (d_int (amount m)) 0) as [E | E];
    destruct (Decimal_eq (amount m) (amount z)); try reflexivity.
  - symmetry. now apply Hiff.
  - destruct E. now apply Hiff.
Qed.

Lemma bool_iff_zero_witness :
  let m := mkMoney (mkDecimal true 0 (-2)) USD in
  let z := mkMoney (Decimal_of_int 0) USD in
  Money.__bool__ m = negb (Money.__eq__ m (VMoney z)).
Proof.
  intros m z. apply (bool_iff_zero m z); reflexivity.
Defined.

(** ** Negation and the absolute value *)

Lemma sint_inj (a b : Decimal) :
  sint a = sint b -> d_int a <> 0%N -> d_exp a = d_exp b -> a = b.
Proof.
  destruct a as [sa ca ea], b as [sb cb eb]. unfold sint. cbn.
  intros Hs Hz ->. destruct sa, sb; f_equal; lia.
Qed.

Lemma Decimal_eq_same (a b : Decimal) :
  sint a = sint b -> d_exp a = d_exp b -> Decimal_eq a b = true.
Proof.
  intros Hs He. unfold Decimal_eq, _cmp. rewrite Hs, He.
  now rewrite Z.compare_refl.
Qed.

(** Negating twice gives back an equal Money when the amount is
    representable, and the very same Money unless it is a zero (a negative
    zero comes back positive). *)
Theorem neg_involutive (m : Money) :
  representable (amount m) ->
  exists n p,
    Money.__neg__ m = Ok n /\ Money.__neg__ n = Ok p /\
    Money.__eq__ p (VMoney m) = true /\
    (Money.__bool__ m = true -> p = m).
Proof.
  intros Hm.
  destruct (Decimal_neg_exact _ Hm) as (n & Hn & Hsn & Hen).
  pose proof (Decimal_neg_representable _ _ Hn) as Hrn.
  destruct (Decimal_neg_exact _ Hrn) as (p & Hp & Hsp & Hep).
  exists (Money.new n (currency m)), (Money.new p (currency m)).
  unfold Money.__neg__. rewrite Hn, bind_Ok. cbn [Money.new amount currency].
  rewrite Hp, bind_Ok.
  assert (Hs : sint p = sint (amount m)) by lia.
  assert (He : d_exp p = d_exp (amount m)) by lia.
  repeat split.
  - unfold Money.new. cbn [Money.__eq__ amount currency].
    now rewrite (Decimal_eq_same _ _ Hs He), Currency_eq_refl.
  - unfold Money.__bool__, Decimal_bool, is_zero, Money.new.
    intros Hb. apply negb_true_iff, N.eqb_neq in Hb.
    destruct m as [a c]. cbn [amount currency] in *. f_equal.
    apply sint_inj; [exact Hs | | exact He].
    intros E. apply sint_zero_iff in E. rewrite Hs in E.
    now apply sint_zero_iff in E.
Qed.

Lemma neg_involutive_witness :
  let m := mkMoney (mkDecimal true 1050 (-2)) USD in
  exists n p,
    Money.__neg__ m = Ok n /\ Money.__neg__ n = Ok p /\
    Money.__eq__ p (VMoney m) = true /\
    (Money.__bool__ m = true -> p = m).
Proof.
  intros m. apply (neg_involutive m). reflexivity.
Defined.

Lemma Decimal_abs_sign (d q : Decimal) :
  Decimal_abs d = Ok q -> d_sign q = false.
Proof.
  unfold Decimal_abs, Decimal_neg, Decimal_pos.
  destruct (d_sign d) eqn:Hs, (is_zero d); intros H%fix_sign;
    rewrite H; try reflexivity. exact Hs.
Qed.

(** The absolute value, when it returns, is a Money of the same currency
    that is not negative ([abs(m) >= 0] holds), and taking it again changes
    nothing; for a representable amount it returns, with the same digits
    and exponent. *)
Theorem abs_properties (m : Money) :
  (forall r, Money.__abs__ m = Ok r ->
     currency r = currency m /\ d_sign (amount r) = false /\
     Money.__abs__ r = Ok r /\
     Money.__ge__ r (VMoney (mkMoney (Decimal_of_int 0) (currency m))) = Ok true) /\
  (representable (amount m) ->
   Money.__abs__ m =
     Ok (mkMoney (mkDecimal false (d_int (amount m)) (d_exp (amount m)))
                 (currency m))).
Proof.
  split.
  - intros r. unfold Money.__abs__ at 1. intros H.
    apply bind_Ok_inv in H as (q & Hq & [= <-]).
    pose proof (Decimal_abs_sign _ _ Hq) as Hs.
    pose proof (Decimal_abs_representable _ _ Hq) as Hr.
    unfold Money.new. cbn [amount currency].
    split; [reflexivity |]. split; [exact Hs |]. split.
    + unfold Money.__abs__, Decimal_abs, Decimal_pos. cbn [amount currency].
      rewrite Hs. destruct q as [s c e]. cbn [d_sign d_int d_exp] in *.
      subst s. replace (_fix (mkDecimal false c e)) with (Ok (mkDecimal false c e)).
      now destruct (is_zero _).
    + unfold Money.__ge__, Money.__gt__. cbn [amount currency].
      rewrite Currency_eq_refl, bind_Ok. cbn [Money.__eq__ amount currency].
      rewrite Currency_eq_refl, andb_true_r.
      pose proof (Decimal_ge_gt_eq q (Decimal_of_int 0)) as Hge.
      rewrite Decimal_ge_0 in Hge.
      assert (H0 : (0 <=? sint q) = true).
      { apply Z.leb_le. unfold sint. rewrite Hs. lia. }
      rewrite H0 in Hge. symmetry in Hge. apply orb_true_iff in Hge.
      destruct (Decimal_gt q (Decimal_of_int 0)); [reflexivity |].
      destruct Hge as [Hge | Hge]; [discriminate | now rewrite Hge].
  - intros Hm. unfold Money.__abs__, Decimal_abs, Decimal_neg, Decimal_pos.
    destruct m as [[s c e] cur]. cbn [amount currency d_sign d_int d_exp] in *.
    pose proof (representable_sign s false c e Hm) as Hf.
    unfold representable in Hf, Hm.
    destruct s; cbn [negb]; destruct (is_zero _); rewrite ?Hf; reflexivity.
Qed.

(** A 30-digit negative amount: the absolute value is rounded and not
    negative. *)
Lemma abs_properties_witness :
  let m := mkMoney (mkDecimal true 123456789012345678901234567890 0) USD in
  let r := mkMoney (mkDecimal false 1234567890123456789012345679 2) USD in
  Money.__abs__ m = Ok r /\
  currency r = currency m /\ d_sign (amount r) = false /\
  Money.__abs__ r = Ok r /\
  Money.__ge__ r (VMoney (mkMoney (Decimal_of_int 0) (currency m))) = Ok true.
Proof.
  intros m r.
  assert (E : Money.__abs__ m = Ok r) by (vm_compute; reflexivity).
  split; [exact E |]. exact (proj1 (abs_properties m) r E).
Defined.

(** ** Scalars 1, 0 and -1 *)

Lemma exact_product_1 (a : Decimal) : exact_product a (Decimal_of_int 1) = a.
Proof.
  destruct a as [s c e]. unfold exact_product, Decimal_of_int.
  cbn [d_sign d_int d_exp Z.ltb Z.compare Z.abs_N Z.abs Z.to_N].
  now rewrite xorb_false_r, N.mul_1_r, Z.add_0_r.
Qed.

(** Multiplying or dividing a Money of representable amount by 1 gives it
    back: the product is the very same Money, the quotient an equal one. *)
Theorem unit_scalar (m : Money) :
  representable (amount m) ->
  Money.__mul__ m (VInt 1) = Ok m /\
  exists q, Money.__truediv__ m (VInt 1) = Ok (VMoney q) /\
            Money.__eq__ q (VMoney m) = true.
Proof.
  intros Hm. split.
  - unfold Money.__mul__. cbn [isinstance_Money force_decimal Decimal_of_str].
    rewrite bind_Ok. unfold Decimal_mul. rewrite exact_product_1, Hm, bind_Ok.
    now destruct m.
  - unfold Money.__truediv__. cbn [force_decimal Decimal_of_str].
    rewrite bind_Ok.
    destruct (mul_div_exact (amount m) (Decimal_of_int 1)) as (q & Hq & Heq).
    + discriminate.
    + exact Hm.
    + now rewrite exact_product_1.
    + rewrite exact_product_1 in Hq. rewrite Hq, bind_Ok.
      exists (Money.new q (currency m)). split; [reflexivity |].
      unfold Money.new. cbn [Money.__eq__ amount currency].
      now rewrite Heq, Currency_eq_refl.
Qed.

Lemma unit_scalar_witness :
  let m := mkMoney (mkDecimal false 1999 (-2)) USD in
  Money.__mul__ m (VInt 1) = Ok m /\
  exists q, Money.__truediv__ m (VInt 1) = Ok (VMoney q) /\
            Money.__eq__ q (VMoney m) = true.
Proof.
  intros m. apply (unit_scalar m). reflexivity.
Defined.

(** Multiplying by 0 always returns a zero of the same currency, and
    multiplying by -1 does what negation does: both return equal Money
    values, or both raise the same exception. *)
Theorem zero_and_minus_one_scalar (m : Money) :
  (exists r, Money.__mul__ m (VInt 0) = Ok r /\
             Money.__bool__ r = false /\ currency r = currency m) /\
  match Money.__mul__ m (VInt (-1)), Money.__neg__ m with
  | Ok p, Ok n => Money.__eq__ p (VMoney n) = true
  | Raise e, Raise e' => e = e'
  | _, _ => False
  end.
Proof.
  split.
  - unfold Money.__mul__. cbn [isinstance_Money force_decimal Decimal_of_str].
    rewrite bind_Ok. unfold Decimal_mul, exact_product, Decimal_of_int.
    cbn [d_sign d_int d_exp Z.ltb Z.compare Z.abs_N Z.abs Z.to_N].
    rewrite N.mul_0_r, fix_zero, bind_Ok. eexists. split; [reflexivity |].
    split; reflexivity.
  - unfold Money.__mul__, Money.__neg__.
    cbn [isinstance_Money force_decimal Decimal_of_str].
    rewrite bind_Ok. unfold Decimal_mul, Decimal_neg, exact_product, Decimal_of_int.
    cbn [d_sign d_int d_exp Z.ltb Z.compare Z.abs_N Z.abs Z.to_N].
    rewrite N.mul_1_r, Z.add_0_r, xorb_true_r.
    destruct (amount m) as [s c e]. cbn [d_sign d_int d_exp]. unfold is_zero.
    cbn [d_int]. destruct (N.eqb_spec c 0) as [-> | Hc].
    + rewrite !fix_zero, !bind_Ok. unfold Money.new.
      cbn [Money.__eq__ amount currency].
      now rewrite Decimal_eq_zeros, Currency_eq_refl.
    + destruct (_fix (mkDecimal (negb s) c e)) as [q | x]; [| reflexivity].
      rewrite !bind_Ok. unfold Money.new. cbn [Money.__eq__ amount currency].
      now rewrite Decimal_eq_refl, Currency_eq_refl.
Qed.

(** ** A Money divided by itself *)

(** The ratio of a Money that is not zero to itself is exactly
    [Decimal('1')], however many digits the amount has; for a zero it is
    the InvalidOperation of 0 / 0. *)
Theorem truediv_self (m : Money) :
  Money.__truediv__ m (VMoney m) =
    if Money.__bool__ m then Ok (VDecimal (mkDecimal false 1 0))
    else Raise InvalidOperation.
Proof.
  unfold Money.__truediv__, Currency.__ne__, Money.__bool__, Decimal_bool.
  rewrite Currency_eq_refl. cbn [negb].
  unfold Decimal_truediv. destruct (is_zero (amount m)) eqn:Hz; [reflexivity |].
  cbn [negb]. unfold is_zero in Hz. apply N.eqb_neq in Hz.
  rewrite xorb_nilpotent.
  replace (len_int (d_int (amount m)) - len_int (d_int (amount m)) + prec + 1)
    with 29 by (unfold prec; lia).
  rewrite Z.sub_diag. cbn [Z.leb Z.compare].
  set (c := d_int (amount m)) in *.
  replace ((c * 10 ^ Z.to_N 29) / c)%N with (10 ^ 29)%N
    by (rewrite N.mul_comm; symmetry; now apply N.div_mul).
  replace ((c * 10 ^ Z.to_N 29) mod c)%N with 0%N
    by (rewrite N.mul_comm; symmetry; now apply N.Div0.mod_mul).
  cbn [N.eqb negb].
  replace (strip_zeros (Z.to_nat (0 - (0 - 29))) (10 ^ 29) (0 - 29) 0)
    with (1%N, 0) by (vm_compute; reflexivity).
  reflexivity.
Qed.

(** ** Equality and order as relations *)

Lemma Decimal_eq_sym (a b : Decimal) : Decimal_eq a b = Decimal_eq b a.
Proof.
  unfold Decimal_eq. rewrite (cmp_antisym a b). now destruct (_cmp a b).
Qed.

Lemma Currency_eq_sym (c1 c2 : Currency) :
  Currency.__eq__ c1 c2 = Currency.__eq__ c2 c1.
Proof. unfold Currency.__eq__. apply String.eqb_sym. Qed.

(** Equality of Money values is an equivalence relation: every Money is
    equal to itself, [a == b] and [b == a] agree, and equality is
    transitive, also through amounts written with different exponents. *)
Theorem eq_equivalence (a b c : Money) :
  Money.__eq__ a (VMoney a) = true /\
  Money.__eq__ a (VMoney b) = Money.__eq__ b (VMoney a) /\
  (Money.__eq__ a (VMoney b) = true -> Money.__eq__ b (VMoney c) = true ->
   Money.__eq__ a (VMoney c) = true).
Proof.
  cbn [Money.__eq__]. split; [| split].
  - now rewrite Decimal_eq_refl, Currency_eq_refl.
  - now rewrite Decimal_eq_sym, Currency_eq_sym.
  - intros [Hab Cab]%andb_true_iff [Hbc Cbc]%andb_true_iff.
    apply andb_true_iff. split.
    + exact (Decimal_eq_trans _ _ _ Hab Hbc).
    + apply Currency_eq_true. apply Currency_eq_true in Cab, Cbc. congruence.
Qed.

(** 2.5, 2.50 and 2.500 USD. *)
Lemma eq_equivalence_witness :
  let a := mkMoney (mkDecimal false 25 (-1)) USD in
  let b := mkMoney (mkDecimal false 250 (-2)) USD in
  let c := mkMoney (mkDecimal false 2500 (-3)) USD in
  Money.__eq__ a (VMoney c) = true.
Proof.
  intros a b c.
  apply (proj2 (proj2 (eq_equivalence a b c))); reflexivity.
Defined.

Lemma Decimal_lt_eq_l (a b c : Decimal) :
  Decimal_eq a b = true -> _cmp a c = _cmp b c.
Proof.
  set (k := Z.min (d_exp a) (Z.min (d_exp b) (d_exp c))).
  unfold Decimal_eq.
  rewrite (cmp_at_scale a b k), (cmp_at_scale a c k), (cmp_at_scale b c k) by lia.
  destruct (Z.compare_spec (sint a * 10 ^ (d_exp a - k)) (sint b * 10 ^ (d_exp b - k)))
    as [E | |]; try discriminate.
  now rewrite E.
Qed.

(** On the Money values of one currency the comparisons form a strict
    total order that agrees with equality: exactly one of [a < b],
    [a == b], [a > b] holds; [a > b] is [b < a]; [a <= b] is the negation
    of [a > b] and [a >= b] that of [a < b]; [<] is transitive; and equal
    values compare alike. *)
Theorem ordering_total_order (a b c : Money) :
  code (currency a) = code (currency b) ->
  code (currency b) = code (currency c) ->
  (exists lt gt,
     Money.__lt__ a (VMoney b) = Ok lt /\ Money.__gt__ a (VMoney b) = Ok gt /\
     Money.__le__ a (VMoney b) = Ok (negb gt) /\
     Money.__ge__ a (VMoney b) = Ok (negb lt) /\
     Money.__lt__ b (VMoney a) = Ok gt /\
     match lt, Money.__eq__ a (VMoney b), gt with
     | true, false, false | false, true, false | false, false, true => True
     | _, _, _ => False
     end) /\
  (Money.__lt__ a (VMoney b) = Ok true -> Money.__lt__ b (VMoney c) = Ok true ->
   Money.__lt__ a (VMoney c) = Ok true) /\
  (Money.__eq__ a (VMoney b) = true ->
   Money.__lt__ a (VMoney c) = Money.__lt__ b (VMoney c) /\
   Money.__gt__ a (VMoney c) = Money.__gt__ b (VMoney c)).
Proof.
  intros Hab Hbc.
  assert (Cab : Currency.__eq__ (currency a) (currency b) = true)
    by now apply Currency_eq_true.
  assert (Cba : Currency.__eq__ (currency b) (currency a) = true)
    by now apply Currency_eq_true.
  assert (Cbc : Currency.__eq__ (currency b) (currency c) = true)
    by now apply Currency_eq_true.
  assert (Cac : Currency.__eq__ (currency a) (currency c) = true)
    by (apply Currency_eq_true; congruence).
  unfold Money.__le__, Money.__ge__, Money.__lt__, Money.__gt__.
  cbn [Money.__eq__]. rewrite Cab, Cba, Cbc, Cac, !bind_Ok, !andb_true_r.
  split; [| split].
  - exists (Decimal_lt (amount a) (amount b)), (Decimal_gt (amount a) (amount b)).
    unfold Decimal_lt, Decimal_gt, Decimal_eq.
    rewrite (cmp_antisym (amount a) (amount b)).
    destruct (_cmp (amount a) (amount b)); cbn; repeat split.
  - intros [= H1] [= H2]. f_equal. exact (Decimal_lt_trans _ _ _ H1 H2).
  - intros H. unfold Decimal_lt, Decimal_gt.
    now rewrite (Decimal_lt_eq_l _ _ (amount c) H).
Qed.

(** 1 USD < 2.5 USD < 10 USD. *)
Lemma ordering_total_order_witness :
  let a := mkMoney (Decimal_of_int 1) USD in
  let b := mkMoney (mkDecimal false 25 (-1)) USD in
  let c := mkMoney (mkDecimal false 1 1) USD in
  Money.__lt__ a (VMoney c) = Ok true.
Proof.
  intros a b c.
  apply (proj1 (proj2 (ordering_total_order a b c eq_refl eq_refl)));
    reflexivity.
Defined.

(** ** Registering and looking up *)

(** After [add_currency(code, numeric, ...)] the returned Currency is
    found under [code], and under [numeric] when that is a non-empty
    string; the lookups of all other codes and numerics are as before (a
    lookup by an empty numeric is a lookup by code). *)
Theorem add_then_get (r : registry) (cd : string) (nm na : option string)
    (cs : option (list string)) :
  let r' := fst (add_currency cd nm na cs r) in
  let c := snd (add_currency cd nm na cs r) in
  c = mkCurrency cd nm na cs /\
  get_currency r' (Some cd) None = Ok c /\
  (forall n x, nm = Some n -> n <> "" -> get_currency r' x (Some n) = Ok c) /\
  (forall k, k <> cd -> get_currency r' (Some k) None = get_currency r (Some k) None) /\
  (forall n x, Some n <> nm -> n <> "" \/ x <> Some cd ->
     get_currency r' x (Some n) = get_currency r x (Some n)).
Proof.
  cbn [add_currency fst snd]. split; [reflexivity |].
  unfold get_currency. cbn [CURRENCIES CURRENCIES_BY_ISO truthy str_of].
  split; [| split; [| split]].
  - now rewrite lookup_insert_eq.
  - intros n x -> Hn. cbn [truthy str_of].
    apply String.eqb_neq in Hn. rewrite Hn. cbn [negb].
    now rewrite lookup_insert_eq.
  - intros k Hk. now rewrite lookup_insert_ne by congruence.
  - intros n x Hn Hx. cbn [truthy str_of].
    destruct (String.eqb_spec n "") as [-> | Hne]; cbn [negb].
    + destruct Hx as [Hx | Hx]; [easy |].
      destruct x as [k |]; [| reflexivity].
      now rewrite lookup_insert_ne by congruence.
    + now rewrite lookup_insert_ne by congruence.
Qed.

Lemma add_then_get_witness :
  let r' := fst (add_currency "BTC" (Some "1000") None None REGISTRY) in
  get_currency r' (Some "USD") (Some "1000")
  = Ok (mkCurrency "BTC" (Some "1000") None None).
Proof.
  intros r'.
  apply (proj1 (proj2 (proj2 (add_then_get REGISTRY "BTC" (Some "1000") None None)))
           "1000" (Some "USD") eq_refl).
  discriminate.
Defined.

(** Registering a code again under another numeric replaces the entry of
    the code and leaves the one of the old numeric: the lookup by the old
    numeric still returns the first Currency, which the lookup by code no
    longer knows. *)
Theorem re_registration_keeps_old_numeric (r : registry) (cd n1 n2 : string)
    (na1 na2 : option string) (cs1 cs2 : option (list string)) :
  n1 <> n2 -> n1 <> "" ->
  let r1 := fst (add_currency cd (Some n1) na1 cs1 r) in
  let r2 := fst (add_currency cd (Some n2) na2 cs2 r1) in
  get_currency r2 (Some cd) None = Ok (mkCurrency cd (Some n2) na2 cs2) /\
  get_currency r2 None (Some n1) = Ok (mkCurrency cd (Some n1) na1 cs1).
Proof.
  intros Hn Hn1. cbn [add_currency fst]. unfold get_currency.
  cbn [CURRENCIES CURRENCIES_BY_ISO truthy str_of].
  apply String.eqb_neq in Hn1. rewrite Hn1. cbn [negb]. split.
  - now rewrite lookup_insert_eq.
  - rewrite lookup_insert_ne by congruence. now rewrite lookup_insert_eq.
Qed.

Lemma re_registration_keeps_old_numeric_witness :
  let r1 := fst (add_currency "XTS" (Some "963") None None REGISTRY) in
  let r2 := fst (add_currency "XTS" (Some "964") (Some "Test") None r1) in
  get_currency r2 (Some "XTS") None = Ok (mkCurrency "XTS" (Some "964") (Some "Test") None) /\
  get_currency r2 None (Some "963") = Ok (mkCurrency "XTS" (Some "963") None None).
Proof.
  intros r1 r2.
  apply (re_registration_keeps_old_numeric REGISTRY "XTS" "963" "964");
    discriminate.
Defined.

Lemma register_all_numeric (calls : list (string * option string * option string
                                          * option (list string)))
    (r : registry) :
  (forall n c, CURRENCIES_BY_ISO r !! n = Some c -> numeric c = n) ->
  forall n c, CURRENCIES_BY_ISO (register_all calls r) !! n = Some c -> numeric c = n.
Proof.
  revert r. induction calls as [ | [[[cd nm] na] cs] calls IH]; intros r Hr.
  - exact Hr.
  - apply IH. intros n c. simpl.
    destruct (decide (nm = n)) as [-> | Hne].
    + rewrite lookup_insert_eq. now intros [= <-].
    + rewrite lookup_insert_ne by exact Hne. apply Hr.
Qed.

(** Whatever calls of [add_currency] built the registry, a lookup that
    returns gives a Currency that carries the key: its code is the code
    asked for, or its numeric the numeric asked for. *)
Theorem lookup_returns_key
    (calls : list (string * option string * option string * option (list string)))
    (k : option string) (n : string) (c : Currency) :
  let r := register_all calls (mkRegistry ∅ ∅) in
  (get_currency r k None = Ok c -> k = Some (code c)) /\
  (n <> "" -> get_currency r k (Some n) = Ok c -> numeric c = Some n).
Proof.
  intros r. unfold get_currency. cbn [truthy str_of]. split.
  - destruct k as [k |]; [| discriminate].
    destruct (CURRENCIES r !! k) as [c' |] eqn:E; [| discriminate].
    intros [= ->]. f_equal. symmetry. revert E. unfold r.
    apply register_all_code. intros k' c'. cbn. now rewrite lookup_empty.
  - intros Hn. apply String.eqb_neq in Hn. rewrite Hn. cbn [negb].
    destruct (CURRENCIES_BY_ISO r !! Some n) as [c' |] eqn:E; [| discriminate].
    intros [= ->]. revert E. unfold r.
    apply register_all_numeric. intros k' c'. cbn. now rewrite lookup_empty.
Qed.

Lemma lookup_returns_key_witness :
  numeric EUR = Some "978".
Proof.
  apply (proj2 (lookup_returns_key module_calls None "978" EUR)).
  - discriminate.
  - vm_compute. reflexivity.
Defined.

(** ** The table of the module *)

(** Every currency of the table is found by its code, with the numeric of
    the table.  By numeric, the lookup finds a currency of that numeric,
    the one registered last: for seventeen codes, current ones among them
    (ALL, ARS, CLP, HRK, PEN, VND, ZAR), another currency comes back. *)
Theorem table_lookups (cd n : string) (na : option string)
    (cs : option (list string)) :
  In (cd, Some n, na, cs) module_calls ->
  (exists c, get_currency REGISTRY (Some cd) None = Ok c /\
             code c = cd /\ numeric c = Some n) /\
  (exists c, get_currency REGISTRY None (Some n) = Ok c /\
             numeric c = Some n /\
             (code c = cd <->
              ~ In cd ["XYZ"; "ALL"; "ARS"; "CLP"; "HRK"; "IMP"; "PEN"; "TVD";
                       "VND"; "XFO"; "ZAR"; "ADP"; "ARA"; "BRC"; "BRE"; "CSD";
                       "ZRN"])).
Proof.
  set (L := ["XYZ"; "ALL"; "ARS"; "CLP"; "HRK"; "IMP"; "PEN"; "TVD";
             "VND"; "XFO"; "ZAR"; "ADP"; "ARA"; "BRC"; "BRE"; "CSD"; "ZRN"]).
  set (chk := fun e : string * option string * option string * option (list string) =>
    let '(cd, nm, _, _) := e in
    match nm with
    | None => true
    | Some n =>
        negb (String.eqb n "") &&
        match CURRENCIES REGISTRY !! cd with
        | Some c => String.eqb (code c) cd && bool_decide (numeric c = Some n)
        | None => false
        end &&
        match CURRENCIES_BY_ISO REGISTRY !! Some n with
        | Some c => bool_decide (numeric c = Some n) &&
                    Bool.eqb (String.eqb (code c) cd) (negb (existsb (String.eqb cd) L))
        | None => false
        end
    end).
  assert (Hall : forallb chk module_calls = true) by (vm_compute; reflexivity).
  intros Hin. rewrite forallb_forall in Hall. specialize (Hall _ Hin).
  cbn beta iota in Hall. clearbody L.
  apply andb_true_iff in Hall as [[Hn Hcode]%andb_true_iff Hiso].
  unfold get_currency, truthy, str_of. rewrite Hn. split.
  - destruct (CURRENCIES REGISTRY !! cd) as [c |]; [| discriminate].
    apply andb_true_iff in Hcode as [Hc%String.eqb_eq Hnum%bool_decide_eq_true].
    exists c. split; [reflexivity|]. split; assumption.
  - destruct (CURRENCIES_BY_ISO REGISTRY !! Some n) as [c |]; [| discriminate].
    apply andb_true_iff in Hiso as [Hnum%bool_decide_eq_true Hc%Bool.eqb_prop].
    exists c. split; [reflexivity |]. split; [exact Hnum |].
    clear Hcode Hnum Hn Hin.
    rewrite <- String.eqb_eq, Hc, negb_true_iff. split.
    + intros Hex Hin'. apply not_true_iff_false in Hex. apply Hex.
      apply existsb_exists. exists cd. split; [exact Hin' | apply String.eqb_refl].
    + intros Hnin. apply not_true_iff_false.
      intros (y & Hy & Heq)%existsb_exists. apply String.eqb_eq in Heq.
      subst y. contradiction.
Qed.


(** The Argentine peso is registered with numeric 032, and so is the
    older ARP, later in the table. *)
Lemma table_lookups_witness :
  exists c, get_currency REGISTRY None (Some "032") = Ok c /\
            numeric c = Some "032" /\
            (code c = "ARS" <->
              ~ In "ARS" ["XYZ"; "ALL"; "ARS"; "CLP"; "HRK"; "IMP"; "PEN"; "TVD";
                          "VND"; "XFO"; "ZAR"; "ADP"; "ARA"; "BRC"; "BRE"; "CSD";
                          "ZRN"]).
Proof.
  assert (Hin : In ("ARS", Some "032", None, None) module_calls).
  { unfold module_calls, entry. do 7 right. left. reflexivity. }
  exact (proj2 (table_lookups "ARS" "032" None None Hin)).
Defined.

(** ** The order of currencies *)

Lemma ascii_compare_refl (a : ascii) : Ascii.compare a a = Eq.
Proof. unfold Ascii.compare. apply N.compare_refl. Qed.

Lemma string_compare_refl (s : string) : String.compare s s = Eq.
Proof.
  induction s as [ | a s IH]; [reflexivity |].
  cbn [String.compare]. now rewrite ascii_compare_refl.
Qed.

Lemma string_compare_eq (s1 s2 : string) :
  String.compare s1 s2 = Eq <-> s1 = s2.
Proof.
  split; [apply String.compare_eq_iff | intros ->; apply string_compare_refl].
Qed.

Lemma string_compare_lt_trans (s1 s2 s3 : string) :
  String.compare s1 s2 = Lt -> String.compare s2 s3 = Lt ->
  String.compare s1 s3 = Lt.
Proof.
  revert s2 s3. induction s1 as [ | a1 s1 IH]; intros [ | a2 s2] [ | a3 s3];
    cbn [String.compare]; try discriminate; try reflexivity.
  unfold Ascii.compare.
  destruct (N.compare_spec (N_of_ascii a1) (N_of_ascii a2)) as [E12 | L12 | G12];
    try discriminate;
    destruct (N.compare_spec (N_of_ascii a2) (N_of_ascii a3)) as [E23 | L23 | G23];
    try discriminate; intros H12 H23.
  - rewrite E12, E23, N.compare_refl. exact (IH _ _ H12 H23).
  - rewrite E12. now apply N.compare_lt_iff in L23 as ->.
  - rewrite <- E23. now apply N.compare_lt_iff in L12 as ->.
  - assert (L : (N_of_ascii a1 < N_of_ascii a3)%N) by lia.
    now apply N.compare_lt_iff in L as ->.
Qed.

Lemma string_eqb_compare (s1 s2 : string) :
  String.eqb s1 s2 = match String.compare s1 s2 with Eq => true | _ => false end.
Proof.
  destruct (String.eqb_spec s1 s2) as [-> | Hne].
  - now rewrite string_compare_refl.
  - destruct (String.compare s1 s2) eqn:E; try reflexivity.
    now apply string_compare_eq in E.
Qed.

(** Currencies are ordered by their codes, strictly and totally, in
    agreement with their equality and their hash: exactly one of [a < b],
    [a == b], [b < a] holds; [a <= b] is [a < b or a == b]; [<] is
    transitive; and equal currencies have equal hashes. *)
Theorem currency_order `{BuiltinHash} (a b c : Currency) :
  match Currency.__lt__ a b, Currency.__eq__ a b, Currency.__lt__ b a with
  | true, false, false | false, true, false | false, false, true => True
  | _, _, _ => False
  end /\
  Currency.__le__ a b = Currency.__lt__ a b || Currency.__eq__ a b /\
  Currency.__le__ a b = negb (Currency.__lt__ b a) /\
  Currency.__ne__ a b = negb (Currency.__eq__ a b) /\
  (Currency.__lt__ a b = true -> Currency.__lt__ b c = true ->
   Currency.__lt__ a c = true) /\
  (Currency.__eq__ a b = true -> Currency.__hash__ a = Currency.__hash__ b).
Proof.
  unfold Currency.__ne__, Currency.__lt__, Currency.__le__, Currency.__eq__,
    Currency.__hash__, String.ltb, String.leb.
  rewrite string_eqb_compare, (String.compare_antisym (code a) (code b)).
  split; [| split; [| split; [| split; [| split]]]].
  - now destruct (String.compare (code b) (code a)).
  - now destruct (String.compare (code b) (code a)).
  - now destruct (String.compare (code b) (code a)).
  - reflexivity.
  - rewrite <- (String.compare_antisym (code a) (code b)).
    destruct (String.compare (code a) (code b)) eqn:E1; cbn; try (intros; discriminate).
    destruct (String.compare (code b) (code c)) eqn:E2; cbn; try (intros; discriminate).
    now rewrite (string_compare_lt_trans _ _ _ E1 E2).
  - rewrite <- (String.compare_antisym (code a) (code b)).
    destruct (String.compare (code a) (code b)) eqn:E; cbn; try (intros; discriminate).
    apply string_compare_eq in E. now rewrite E.
Qed.

(** AUD < EUR < USD. *)
Lemma currency_order_witness :
  Currency.__lt__ (mkCurrency "AUD" (Some "036") None None) USD = true.
Proof.
  apply (proj1 (proj2 (proj2 (proj2 (proj2
           (@currency_order example_hash
              (mkCurrency "AUD" (Some "036") None None) EUR USD))))));
    reflexivity.
Defined.

(** ** The currencies of a country *)

Lemma upper_ascii_idem (a : ascii) : upper_ascii (upper_ascii a) = upper_ascii a.
Proof.
  destruct a as [b0 b1 b2 b3 b4 b5 b6 b7].
  destruct b0, b1, b2, b3, b4, b5, b6, b7; reflexivity.
Qed.

Lemma upper_idem (s : string) : upper (upper s) = upper s.
Proof.
  induction s as [ | a s IH]; [reflexivity |].
  cbn [upper]. now rewrite upper_ascii_idem, IH.
Qed.

Lemma insert_sorted_Permutation (x : Currency) (l : list Currency) :
  Permutation (insert_sorted x l) (x :: l).
Proof.
  induction l as [ | y t IH]; [reflexivity |].
  cbn [insert_sorted]. destruct (Currency.__lt__ y x); [| reflexivity].
  rewrite IH. apply perm_swap.
Qed.

Lemma sorted_Permutation (l : list Currency) : Permutation (sorted l) l.
Proof.
  induction l as [ | x t IH]; [reflexivity |].
  cbn [sorted foldr]. fold (sorted t).
  rewrite insert_sorted_Permutation. now apply perm_skip.
Qed.

Lemma Currency_lt_trans (a b c : Currency) :
  Currency.__lt__ a b = true -> Currency.__lt__ b c = true ->
  Currency.__lt__ a c = true.
Proof.
  unfold Currency.__lt__, String.ltb.
  destruct (String.compare (code a) (code b)) eqn:E1; try discriminate.
  destruct (String.compare (code b) (code c)) eqn:E2; try discriminate.
  now rewrite (string_compare_lt_trans _ _ _ E1 E2).
Qed.

Lemma Currency_lt_total (a b : Currency) :
  Currency.__lt__ a b = false -> code a <> code b -> Currency.__lt__ b a = true.
Proof.
  unfold Currency.__lt__, String.ltb.
  rewrite (String.compare_antisym (code b) (code a)).
  destruct (String.compare (code a) (code b)) eqn:E; cbn [CompOpp];
    try discriminate.
  - apply string_compare_eq in E. contradiction.
  - reflexivity.
Qed.

Lemma insert_sorted_strict (x : Currency) (l : list Currency) :
  StronglySorted (fun a b => Currency.__lt__ a b = true) l ->
  Forall (fun y => code y <> code x) l ->
  StronglySorted (fun a b => Currency.__lt__ a b = true) (insert_sorted x l).
Proof.
  induction l as [ | y t IH]; intros Hs Hne.
  - repeat constructor.
  - apply StronglySorted_inv in Hs as [Hst Hy].
    apply Forall_cons_1 in Hne as [Hyx Hne].
    cbn [insert_sorted]. destruct (Currency.__lt__ y x) eqn:Hlt.
    + constructor; [now apply IH |].
      rewrite insert_sorted_Permutation. now constructor.
    + pose proof (Currency_lt_total y x Hlt Hyx) as Hxy.
      constructor; [now constructor |].
      constructor; [exact Hxy |].
      eapply Forall_impl; [exact Hy |].
      intros z Hz. exact (Currency_lt_trans _ _ _ Hxy Hz).
Qed.

Lemma sorted_strict (l : list Currency) :
  NoDup (map code l) ->
  StronglySorted (fun a b => Currency.__lt__ a b = true) (sorted l).
Proof.
  induction l as [ | x t IH]; intros Hnd.
  - constructor.
  - cbn [map] in Hnd. apply NoDup_cons in Hnd as [Hx Hnd].
    cbn [sorted foldr]. fold (sorted t). apply insert_sorted_strict.
    + now apply IH.
    + rewrite sorted_Permutation. apply Forall_forall. intros y Hy Heq.
      apply Hx. rewrite <- Heq. apply list_elem_of_In, in_map.
      now apply list_elem_of_In.
Qed.

Lemma NoDup_map_filter {A B : Type} (f : A -> B) (p : A -> bool) (l : list A) :
  NoDup (map f l) -> NoDup (map f (List.filter p l)).
Proof.
  induction l as [ | x t IH]; [intros; constructor |].
  cbn [map List.filter]. intros [Hx Hnd]%NoDup_cons.
  destruct (p x); [| now apply IH].
  cbn [map]. apply NoDup_cons. split; [| now apply IH].
  intros Hin. apply Hx. apply list_elem_of_In in Hin.
  apply in_map_iff in Hin as (y & <- & Hy). apply filter_In in Hy as [Hy _].
  apply list_elem_of_In. now apply in_map.
Qed.

Lemma values_codes (l : list (string * Currency)) :
  (forall k c, In (k, c) l -> code c = k) ->
  map code (map snd l) = map fst l.
Proof.
  induction l as [ | [k c] t IH]; intros H; [reflexivity |].
  cbn [map fst snd]. f_equal.
  - apply H. now left.
  - apply IH. intros k' c' Hin. apply H. now right.
Qed.

Lemma country_codes_In (T : territory_currencies_data) (c : Currency) (x : string) :
  In x (Currency.country_codes T c) <->
  exists t cs start tender,
    In (t, cs) T /\ In (code c, start, None, tender) cs /\ x = upper t.
Proof.
  unfold Currency.country_codes. rewrite in_flat_map. split.
  - intros ([t cs] & HT & Hx). apply in_flat_map in Hx as ([[[k st] en] te] & Hcs & Hx).
    destruct en as [d |]; [contradiction |].
    destruct (String.eqb_spec k (code c)) as [-> | _]; [| contradiction].
    destruct Hx as [<- | []]. now exists t, cs, st, te.
  - intros (t & cs & st & te & HT & Hcs & ->). exists (t, cs). split; [exact HT |].
    apply in_flat_map. exists (code c, st, None, te). split; [exact Hcs |].
    rewrite String.eqb_refl. now left.
Qed.

(** [get_currencies_of_country] returns the registered currencies that a
    territory of Babel's table equal to the country code, both in upper
    case, lists with no end date; the list is in strictly increasing order
    of the codes, so without repetition; the case of the argument does not
    matter; and a country that the table does not know gives the empty
    list, not an exception. *)
Theorem get_currencies_of_country_spec
    (calls : list (string * option string * option string * option (list string)))
    (T : territory_currencies_data) (cc : string) :
  let r := register_all calls (mkRegistry ∅ ∅) in
  let l := get_currencies_of_country r T cc in
  (forall c, In c l <->
     CURRENCIES r !! code c = Some c /\
     exists t cs start tender,
       In (t, cs) T /\ upper t = upper cc /\
       In (code c, start, None, tender) cs) /\
  StronglySorted (fun a b => Currency.__lt__ a b = true) l /\
  get_currencies_of_country r T (upper cc) = l /\
  ((forall t cs, In (t, cs) T -> upper t <> upper cc) -> l = []).
Proof.
  intros r l.
  assert (Hinv : forall k c, CURRENCIES r !! k = Some c -> code c = k).
  { unfold r. apply register_all_code. intros k c. cbn. now rewrite lookup_empty. }
  assert (Hmem : forall c, In c l <->
     CURRENCIES r !! code c = Some c /\
     exists t cs start tender,
       In (t, cs) T /\ upper t = upper cc /\
       In (code c, start, None, tender) cs).
  { intros c. unfold l, get_currencies_of_country.
    rewrite sorted_Permutation, filter_In, in_map_iff.
    rewrite existsb_exists. split.
    - intros (([k c'] & Hc & Hin) & x & Hx & Heq). cbn [snd] in Hc. subst c'.
      apply String.eqb_eq in Heq. subst x.
      apply list_elem_of_In, elem_of_map_to_list in Hin.
      rewrite <- (Hinv _ _ Hin) in Hin. split; [exact Hin |].
      apply country_codes_In in Hx as (t & cs & st & te & HT & Hcs & Hu).
      now exists t, cs, st, te.
    - intros (Hin & t & cs & st & te & HT & Hu & Hcs). split.
      + exists (code c, c). split; [reflexivity |].
        now apply list_elem_of_In, elem_of_map_to_list.
      + exists (upper cc). split; [| apply String.eqb_refl].
        apply country_codes_In. now exists t, cs, st, te. }
  split; [exact Hmem |]. split; [| split].
  - unfold l, get_currencies_of_country. apply sorted_strict, NoDup_map_filter.
    rewrite values_codes.
    + apply (NoDup_fst_map_to_list (CURRENCIES r)).
    + intros k c Hin. apply Hinv. now apply elem_of_map_to_list, list_elem_of_In.
  - unfold l, get_currencies_of_country. now rewrite upper_idem.
  - intros Hno. destruct l as [ | c l'] eqn:El; [reflexivity |]. exfalso.
    destruct (proj1 (Hmem c) (or_introl eq_refl))
      as (_ & t & cs & _ & _ & HT & Hu & _).
    exact (Hno t cs HT Hu).
Qed.

(** With a table of two territories: the United States list the dollar
    with no end date, Germany the euro and, until 2002, the mark. *)
Lemma get_currencies_of_country_spec_witness :
  let T : territory_currencies_data :=
    [("US", [("USD", Some (1792, 1, 1), None, true)]);
     ("DE", [("EUR", Some (1999, 1, 1), None, true);
             ("DEM", Some (1948, 6, 20), Some (2002, 2, 28), true)])] in
  get_currencies_of_country REGISTRY T "fr" = [].
Proof.
  intros T.
  apply (proj2 (proj2 (proj2 (get_currencies_of_country_spec module_calls T "fr")))).
  intros t cs [[= <- <-] | [[= <- <-] | []]]; discriminate.
Defined.

(** ** Building a Money *)

(** [Money(amount, currency)] with the currency given as a string: the
    string is looked up in upper case, so that its case does not matter;
    a Money that comes back carries the converted amount, unrounded, and
    the registered currency of that code; an unknown code raises
    CurrencyDoesNotExist, naming the code in upper case. *)
Theorem init_currency_lookup
    (calls : list (string * option string * option string * option (list string)))
    (v : value) (s : string) :
  let r := register_all calls (mkRegistry ∅ ∅) in
  Money.__init__ r v (inr s) = Money.__init__ r v (inr (upper s)) /\
  (forall m, Money.__init__ r v (inr s) = Ok m ->
     force_decimal v = Ok (amount m) /\ code (currency m) = upper s /\
     CURRENCIES r !! upper s = Some (currency m)) /\
  (forall a c, force_decimal v = Ok a -> CURRENCIES r !! upper s = Some c ->
     Money.__init__ r v (inr s) = Ok (mkMoney a c)) /\
  (forall a, force_decimal v = Ok a -> CURRENCIES r !! upper s = None ->
     Money.__init__ r v (inr s) =
       Raise (CurrencyDoesNotExist
                ("No currency with code " +:+ upper s +:+ " is defined."))).
Proof.
  intros r.
  assert (Hinv : forall k c, CURRENCIES r !! k = Some c -> code c = k).
  { unfold r. apply register_all_code. intros k c. cbn. now rewrite lookup_empty. }
  unfold Money.__init__, get_currency, truthy. rewrite upper_idem.
  split; [reflexivity |]. split; [| split].
  - intros m H. apply bind_Ok_inv in H as (a & Ha & H).
    apply bind_Ok_inv in H as (c & Hc & [= <-]). cbn [amount currency].
    destruct (CURRENCIES r !! upper s) as [c' |] eqn:E; [| discriminate].
    injection Hc as ->. split; [exact Ha |]. split; [| reflexivity].
    exact (Hinv _ _ E).
  - intros a c -> ->. now rewrite !bind_Ok.
  - intros a -> ->. now rewrite bind_Ok.
Qed.

(** [Money(5, 'usd')] is 5 USD. *)
Lemma init_currency_lookup_witness :
  Money.__init__ REGISTRY (VInt 5) (inr "usd") = Ok (mkMoney (Decimal_of_int 5) USD).
Proof.
  apply (proj1 (proj2 (proj2 (init_currency_lookup module_calls (VInt 5) "usd")))).
  - reflexivity.
  - vm_compute. reflexivity.
Defined.

(** ** Rounding twice *)

Lemma quantize_result (d e q : Decimal) :
  Decimal_quantize d e = Ok q ->
  Etiny <= d_exp e <= Emax /\ d_exp q = d_exp e /\
  (d_int q <> 0%N -> len_int (d_int q) <= prec /\ adjusted q <= Emax).
Proof.
  unfold Decimal_quantize.
  destruct (Z.leb_spec Etiny (d_exp e)) as [H1 |]; [| discriminate].
  destruct (Z.leb_spec (d_exp e) Emax) as [H2 |]; [| discriminate].
  cbn [andb negb]. destruct (is_zero d) eqn:Hz.
  - rewrite fix_zero. intros [= <-]. cbn [d_exp d_int].
    split; [lia |]. split; [lia | congruence].
  - destruct (Emax <? adjusted d); [discriminate |].
    destruct (prec <? adjusted d - d_exp e + 1); [discriminate |].
    unfold is_zero in Hz. apply N.eqb_neq in Hz.
    destruct (rescale_half_even d (d_exp e) Hz) as (Hexp & _).
    set (ans := _rescale d (d_exp e)) in *. clearbody ans.
    destruct (Z.ltb_spec Emax (adjusted ans)) as [| Ha]; [discriminate |].
    destruct (Z.ltb_spec prec (len_int (d_int ans))) as [| Hl]; [discriminate |].
    destruct (N.eq_dec (d_int ans) 0%N) as [E | E].
    + destruct ans as [s c x]. cbn [d_int d_exp] in *. subst c x.
      rewrite fix_zero. intros [= <-]. cbn [d_exp d_int].
      split; [lia |]. split; [lia | congruence].
    + rewrite (fix_nonzero_id ans E Hl ltac:(lia) Ha). intros [= <-].
      split; [lia |]. split; [exact Hexp | intros _; split; assumption].
Qed.

Lemma quantize_idem (d e q : Decimal) :
  Decimal_quantize d e = Ok q -> Decimal_quantize q e = Ok q.
Proof.
  intros H. destruct (quantize_result d e q H) as ((H1 & H2) & Hexp & Hnz).
  unfold Decimal_quantize.
  destruct (Z.leb_spec Etiny (d_exp e)) as [_ |]; [| lia].
  destruct (Z.leb_spec (d_exp e) Emax) as [_ |]; [| lia].
  cbn [andb negb]. destruct q as [s c x]. cbn [d_exp d_int] in *. subst x.
  unfold is_zero at 1. cbn [d_int d_sign].
  destruct (N.eqb_spec c 0) as [-> | Hc].
  - rewrite fix_zero. do 2 f_equal. lia.
  - destruct (Hnz Hc) as [Hl Ha].
    destruct (Z.ltb_spec Emax (adjusted (mkDecimal s c (d_exp e)))); [lia |].
    unfold adjusted at 1. cbn [d_int d_exp].
    destruct (Z.ltb_spec prec (d_exp e + len_int c - 1 - d_exp e + 1)); [lia |].
    assert (Hr : _rescale (mkDecimal s c (d_exp e)) (d_exp e)
                 = mkDecimal s c (d_exp e)).
    { unfold _rescale, is_zero. cbn [d_int d_exp d_sign].
      destruct (N.eqb_spec c 0); [contradiction |].
      rewrite Z.leb_refl, Z.sub_diag. cbn [Z.to_N].
      now rewrite N.pow_0_r, N.mul_1_r. }
    rewrite Hr. cbn [d_int].
    destruct (Z.ltb_spec Emax (adjusted (mkDecimal s c (d_exp e)))); [lia |].
    destruct (Z.ltb_spec prec (len_int c)); [lia |].
    apply fix_nonzero_id; cbn [d_int d_exp]; [exact Hc | exact Hl | lia | exact Ha].
Qed.

(** A Money that [round] returns has the currency of the operand and the
    exponent asked for, and rounding it again to the same number of digits
    returns it unchanged. *)
Theorem round_idempotent (m r : Money) (ndigits : option Z) :
  Money.round m ndigits = Ok r ->
  Money.round r ndigits = Ok r /\
  currency r = currency m /\
  d_exp (amount r) = - match ndigits with None => 0 | Some n => n end.
Proof.
  unfold Money.round. intros H. apply bind_Ok_inv in H as (q & Hq & [= <-]).
  unfold Money.new. cbn [amount currency].
  rewrite (quantize_idem _ _ _ Hq), bind_Ok.
  split; [reflexivity |]. split; [reflexivity |].
  now destruct (quantize_result _ _ _ Hq) as (_ & -> & _).
Qed.

(** 2.675 USD rounded to two digits is 2.68 USD. *)
Lemma round_idempotent_witness :
  let m := mkMoney (mkDecimal false 2675 (-3)) USD in
  let r := mkMoney (mkDecimal false 268 (-2)) USD in
  Money.round m (Some 2) = Ok r /\ Money.round r (Some 2) = Ok r.
Proof.
  intros m r.
  assert (E : Money.round m (Some 2) = Ok r) by (vm_compute; reflexivity).
  split; [exact E |]. exact (proj1 (round_idempotent m r (Some 2) E)).
Defined.

(** ** Exact sums, order and grouping *)

Lemma sint_exact_sum_scaled (a b : Decimal) (k : Z) :
  k <= d_exp a -> k <= d_exp b ->
  sint (exact_sum a b) * 10 ^ (d_exp (exact_sum a b) - k)
  = sint a * 10 ^ (d_exp a - k) + sint b * 10 ^ (d_exp b - k).
Proof.
  intros Ha Hb. rewrite sint_exact_sum. cbn [exact_sum d_exp].
  set (m := Z.min (d_exp a) (d_exp b)).
  assert (Hm : k <= m) by lia.
  replace (d_exp a - k) with ((d_exp a - m) + (m - k)) by lia.
  replace (d_exp b - k) with ((d_exp b - m) + (m - k)) by lia.
  rewrite !Z.pow_add_r by lia. ring.
Qed.

Lemma add_Money_exact (a b : Money) :
  code (currency a) = code (currency b) ->
  representable (exact_sum (amount a) (amount b)) ->
  Money.__add__ a (VMoney b)
  = Ok (mkMoney (exact_sum (amount a) (amount b)) (currency a)).
Proof.
  intros Hc Hr. unfold Money.__add__. rewrite eq_0_Money.
  apply Currency_eq_true in Hc. rewrite Hc. unfold Decimal_add.
  now rewrite Hr, bind_Ok.
Qed.

(** Adding the same Money on both sides keeps order and equality, when
    neither sum is rounded: [a + c < b + c] is [a < b], and [a + c == b + c]
    is [a == b]. *)
Theorem add_monotone (a b c : Money) :
  code (currency a) = code (currency c) ->
  code (currency b) = code (currency c) ->
  representable (exact_sum (amount a) (amount c)) ->
  representable (exact_sum (amount b) (amount c)) ->
  exists x y,
    Money.__add__ a (VMoney c) = Ok x /\ Money.__add__ b (VMoney c) = Ok y /\
    Money.__lt__ x (VMoney y) = Money.__lt__ a (VMoney b) /\
    Money.__gt__ x (VMoney y) = Money.__gt__ a (VMoney b) /\
    Money.__eq__ x (VMoney y) = Money.__eq__ a (VMoney b).
Proof.
  intros Hac Hbc Hra Hrb.
  rewrite (add_Money_exact a c Hac Hra), (add_Money_exact b c Hbc Hrb).
  eexists. eexists. split; [reflexivity |]. split; [reflexivity |].
  unfold Money.__lt__, Money.__gt__. cbn [Money.__eq__ amount currency].
  assert (Hcmp : _cmp (exact_sum (amount a) (amount c))
                      (exact_sum (amount b) (amount c))
                 = _cmp (amount a) (amount b)).
  { set (k := Z.min (d_exp (amount a)) (Z.min (d_exp (amount b)) (d_exp (amount c)))).
    rewrite (cmp_at_scale (amount a) (amount b) k) by lia.
    rewrite (cmp_at_scale (exact_sum _ _) (exact_sum _ _) k)
      by (cbn [exact_sum d_exp]; lia).
    rewrite !sint_exact_sum_scaled by lia.
    rewrite !(Z.add_comm _ (sint (amount c) * _)). apply Z.add_compare_mono_l. }
  unfold Decimal_lt, Decimal_gt, Decimal_eq. now rewrite Hcmp.
Qed.

Lemma add_monotone_witness :
  let a := mkMoney (mkDecimal false 199 (-2)) USD in
  let b := mkMoney (mkDecimal false 2 0) USD in
  let c := mkMoney (mkDecimal true 15 (-1)) USD in
  exists x y,
    Money.__add__ a (VMoney c) = Ok x /\ Money.__add__ b (VMoney c) = Ok y /\
    Money.__lt__ x (VMoney y) = Money.__lt__ a (VMoney b) /\
    Money.__gt__ x (VMoney y) = Money.__gt__ a (VMoney b) /\
    Money.__eq__ x (VMoney y) = Money.__eq__ a (VMoney b).
Proof.
  intros a b c. apply (add_monotone a b c); reflexivity.
Defined.

(** Sums that are not rounded may be grouped either way:
    [(a + b) + c == a + (b + c)]. *)
Theorem add_associative (a b c : Money) :
  code (currency a) = code (currency b) ->
  code (currency b) = code (currency c) ->
  representable (exact_sum (amount a) (amount b)) ->
  representable (exact_sum (exact_sum (amount a) (amount b)) (amount c)) ->
  representable (exact_sum (amount b) (amount c)) ->
  representable (exact_sum (amount a) (exact_sum (amount b) (amount c))) ->
  exists ab bc l r,
    Money.__add__ a (VMoney b) = Ok ab /\ Money.__add__ ab (VMoney c) = Ok l /\
    Money.__add__ b (VMoney c) = Ok bc /\ Money.__add__ a (VMoney bc) = Ok r /\
    Money.__eq__ l (VMoney r) = true.
Proof.
  intros Hab Hbc H1 H2 H3 H4.
  exists (mkMoney (exact_sum (amount a) (amount b)) (currency a)),
         (mkMoney (exact_sum (amount b) (amount c)) (currency b)).
  rewrite (add_Money_exact a b Hab H1), (add_Money_exact b c Hbc H3).
  rewrite (add_Money_exact (mkMoney _ (currency a)) c) by (cbn; congruence).
  rewrite (add_Money_exact a (mkMoney _ (currency b))) by (cbn; congruence).
  cbn [amount currency]. eexists. eexists.
  split; [reflexivity |]. split; [reflexivity |].
  split; [reflexivity |]. split; [reflexivity |].
  cbn [Money.__eq__ amount currency]. rewrite Currency_eq_refl, andb_true_r.
  unfold Decimal_eq.
  set (k := Z.min (d_exp (amount a)) (Z.min (d_exp (amount b)) (d_exp (amount c)))).
  rewrite (cmp_at_scale _ _ k) by (cbn [exact_sum d_exp]; lia).
  rewrite !sint_exact_sum_scaled by (cbn [exact_sum d_exp]; lia).
  rewrite Z.add_assoc. now rewrite Z.compare_refl.
Qed.

(** 0.10 + 0.20 + 0.30 USD. *)
Lemma add_associative_witness :
  let a := mkMoney (mkDecimal false 10 (-2)) USD in
  let b := mkMoney (mkDecimal false 2 (-1)) USD in
  let c := mkMoney (mkDecimal false 300 (-3)) USD in
  exists ab bc l r,
    Money.__add__ a (VMoney b) = Ok ab /\ Money.__add__ ab (VMoney c) = Ok l /\
    Money.__add__ b (VMoney c) = Ok bc /\ Money.__add__ a (VMoney bc) = Ok r /\
    Money.__eq__ l (VMoney r) = true.
Proof.
  intros a b c. apply (add_associative a b c); reflexivity.
Defined.

Lemma sint_exact_product (a b : Decimal) :
  sint (exact_product a b) = sint a * sint b.
Proof.
  unfold sint, exact_product. cbn [d_sign d_int].
  rewrite N2Z.inj_mul. destruct (d_sign a), (d_sign b); cbn [xorb]; ring.
Qed.

Lemma mul_Money_exact (m : Money) (s : Decimal) :
  representable (exact_product (amount m) s) ->
  Money.__mul__ m (VDecimal s)
  = Ok (mkMoney (exact_product (amount m) s) (currency m)).
Proof.
  intros Hr. unfold Money.__mul__. cbn [isinstance_Money force_decimal].
  rewrite bind_Ok. unfold Decimal_mul. now rewrite Hr, bind_Ok.
Qed.

(** Multiplication by a scalar distributes over a sum, when nothing is
    rounded: [(a + b) * s == a * s + b * s]. *)
Theorem mul_distributes (a b : Money) (s : Decimal) :
  code (currency a) = code (currency b) ->
  representable (exact_sum (amount a) (amount b)) ->
  representable (exact_product (exact_sum (amount a) (amount b)) s) ->
  representable (exact_product (amount a) s) ->
  representable (exact_product (amount b) s) ->
  representable (exact_sum (exact_product (amount a) s)
                           (exact_product (amount b) s)) ->
  exists ab l sa sb r,
    Money.__add__ a (VMoney b) = Ok ab /\ Money.__mul__ ab (VDecimal s) = Ok l /\
    Money.__mul__ a (VDecimal s) = Ok sa /\ Money.__mul__ b (VDecimal s) = Ok sb /\
    Money.__add__ sa (VMoney sb) = Ok r /\
    Money.__eq__ l (VMoney r) = true.
Proof.
  intros Hc H1 H2 H3 H4 H5.
  exists (mkMoney (exact_sum (amount a) (amount b)) (currency a)),
         (mkMoney (exact_product (exact_sum (amount a) (amount b)) s) (currency a)),
         (mkMoney (exact_product (amount a) s) (currency a)),
         (mkMoney (exact_product (amount b) s) (currency b)),
         (mkMoney (exact_sum (exact_product (amount a) s)
                             (exact_product (amount b) s)) (currency a)).
  split; [exact (add_Money_exact a b Hc H1) |].
  split; [exact (mul_Money_exact (mkMoney _ (currency a)) s H2) |].
  split; [exact (mul_Money_exact a s H3) |].
  split; [exact (mul_Money_exact b s H4) |].
  split; [exact (add_Money_exact (mkMoney _ (currency a)) (mkMoney _ (currency b))
                   Hc H5) |].
  cbn [Money.__eq__ amount currency]. rewrite Currency_eq_refl, andb_true_r.
  apply Decimal_eq_same.
  - rewrite sint_exact_product, !sint_exact_sum, !sint_exact_product.
    cbn [exact_product d_exp].
    replace (Z.min (d_exp (amount a) + d_exp s) (d_exp (amount b) + d_exp s))
      with (Z.min (d_exp (amount a)) (d_exp (amount b)) + d_exp s) by lia.
    set (m := Z.min (d_exp (amount a)) (d_exp (amount b))).
    replace (d_exp (amount a) + d_exp s - (m + d_exp s))
      with (d_exp (amount a) - m) by lia.
    replace (d_exp (amount b) + d_exp s - (m + d_exp s))
      with (d_exp (amount b) - m) by lia.
    ring.
  - cbn [exact_product exact_sum d_exp]. lia.
Qed.

(** (1.10 USD + 2.5 USD) * 3 and 1.10 USD * 3 + 2.5 USD * 3. *)
Lemma mul_distributes_witness :
  let a := mkMoney (mkDecimal false 110 (-2)) USD in
  let b := mkMoney (mkDecimal false 25 (-1)) USD in
  let s := mkDecimal false 3 0 in
  exists ab l sa sb r,
    Money.__add__ a (VMoney b) = Ok ab /\ Money.__mul__ ab (VDecimal s) = Ok l /\
    Money.__mul__ a (VDecimal s) = Ok sa /\ Money.__mul__ b (VDecimal s) = Ok sb /\
    Money.__add__ sa (VMoney sb) = Ok r /\
    Money.__eq__ l (VMoney r) = true.
Proof.
  intros a b s. apply (mul_distributes a b s); reflexivity.
Defined.

(** ** What subtraction refuses *)

(** Subtraction never mixes currencies or kinds.  With a Money of another
    code it does not return, and raises the TypeError of addition when the
    amount of the operand is representable; with an int other than 0, with
    True and with None it raises a TypeError; with a non-zero Decimal whose
    exponent is not below [Etiny] it does not return either. *)
Theorem sub_rejects (a : Money) :
  (forall b, code (currency a) <> code (currency b) ->
     (forall r, Money.__sub__ a (VMoney b) <> Ok r) /\
     (representable (amount b) ->
      Money.__sub__ a (VMoney b) =
        Raise (TypeError ("Cannot add or subtract two Money " +:+
                          "instances with different currencies.")))) /\
  (forall z, z <> 0 ->
     Money.__sub__ a (VInt z) =
       Raise (TypeError ("Cannot add or subtract a " +:+
                         "Money and non-Money instance."))) /\
  Money.__sub__ a (VBool true) =
    Raise (TypeError ("Cannot add or subtract a " +:+
                      "Money and non-Money instance.")) /\
  Money.__sub__ a VNone =
    Raise (TypeError "bad operand type for unary -: 'NoneType'") /\
  (forall d, d_int d <> 0%N -> Etiny <= d_exp d ->
     forall r, Money.__sub__ a (VDecimal d) <> Ok r).
Proof.
  split; [| split; [| split; [| split]]].
  - intros b Hc. apply Currency_eq_false in Hc. split.
    + intros r. unfold Money.__sub__, Money.neg_value, Money.__neg__.
      destruct (Decimal_neg (amount b)) as [n | e]; [| discriminate].
      rewrite !bind_Ok. unfold Money.__add__, Money.new.
      rewrite eq_0_Money. cbn [currency]. rewrite Hc. discriminate.
    + intros Hb. destruct (Decimal_neg_exact _ Hb) as (n & Hn & _).
      rewrite (sub_unfold a b n Hn), Hc. reflexivity.
  - intros z Hz. unfold Money.__sub__. cbn [Money.neg_value].
    rewrite bind_Ok. unfold Money.__add__. cbn [Money.eq_0].
    destruct (Z.eqb_spec (- z) 0); [lia | reflexivity].
  - reflexivity.
  - reflexivity.
  - intros d Hd He r. unfold Money.__sub__. cbn [Money.neg_value].
    unfold Decimal_neg, is_zero. destruct (N.eqb_spec (d_int d) 0); [contradiction |].
    destruct (_fix _) as [q | e] eqn:Hq; [| discriminate].
    rewrite !bind_Ok. unfold Money.__add__. cbn [Money.eq_0].
    apply fix_nonzero_result in Hq; [| exact Hd | exact He].
    destruct (Decimal_eq q (Decimal_of_int 0)) eqn:E; [| discriminate].
    apply Decimal_eq_zero_iff in E; [contradiction | reflexivity].
Qed.

(** 5 USD minus 5 EUR, and 5 USD minus the Decimal 1.5. *)
Lemma sub_rejects_witness :
  let a := mkMoney (Decimal_of_int 5) USD in
  let b := mkMoney (Decimal_of_int 5) EUR in
  Money.__sub__ a (VMoney b) =
    Raise (TypeError "Cannot add or subtract two Money instances with different currencies.") /\
  forall r, Money.__sub__ a (VDecimal (mkDecimal false 15 (-1))) <> Ok r.
Proof.
  intros a b. split.
  - apply (proj2 (proj1 (sub_rejects a) b ltac:(discriminate))). reflexivity.
  - apply (proj2 (proj2 (proj2 (proj2 (sub_rejects a))))).
    + discriminate.
    + unfold Etiny, Emin, prec. cbn [d_exp]. lia.
Defined.
